(** * Monte Carlo option pricer: a shallow embedding and its properties

    The C++ sources (FDM_SDE.hpp, RNG.hpp, Pricer.hpp, MIS.hpp) are embedded
    function by function.  Conventions:

    - a [double] is idealised as a real number ([R]); rounding and the IEEE
      special values are outside the model, so a quotient by zero is kept as
      the term [x / 0] and never given a value by the proofs;
    - [unsigned], [unsigned long] and [size_t] values are integers ([Z]) whose
      wrap-around is written where the code can reach it; the width of
      [unsigned long] depends on the platform (32 or 64 bits), so [NSIM] and
      [NSteps] are left unbounded and a statement that needs a bound on them
      says so;
    - a call ends as an [outcome]: it returns, leaves by an exception, runs
      into undefined behaviour, or is still running when the fuel given to
      its loops is used up. *)

From Stdlib Require Import Reals ZArith List String Ascii Bool Lia Lra.
Import ListNotations.

#[local] Open Scope R_scope.

(** ** Machine integers and conversions *)

Module Cxx.

(** [unsigned]: 32 bits. *)
Definition UINT_WIDTH : Z := 32.
Definition wrap_unsigned (z : Z) : Z := z mod 2 ^ UINT_WIDTH.

(** [size_t]: 64 bits. *)
Definition SIZE_WIDTH : Z := 64.
Definition wrap_size_t (z : Z) : Z := z mod 2 ^ SIZE_WIDTH.

(** [int]: 32 bits, two's complement. *)
Definition INT_MIN : Z := - 2 ^ 31.
Definition INT_MAX : Z := 2 ^ 31 - 1.

(** [pow(x, y)]: an integral power for an integral [y], whatever the sign of
    [x]; otherwise [exp (y * ln x)], which is the value of [pow] for a
    positive [x] (for other [x] the C function reports a domain error, which
    the model does not represent).  The sources pass the exponents
    [betaCEV], [2.0 * betaCEV - 1.0] and [2]. *)
Definition pow (x y : R) : R :=
  if Req_EM_T y (IZR (Int_part y)) then powerRZ x (Int_part y) else Rpower x y.

(** Truncation toward zero, the value of a floating-integral conversion. *)
Definition trunc (x : R) : Z :=
  if Rle_dec 0 x then Int_part x else (- Int_part (- x))%Z.

(** [x < y] on two [double]s, as a condition. *)
Definition double_lt (x y : R) : bool := if Rlt_dec x y then true else false.

End Cxx.

(** ** How a call ends *)

(** The failures the specification names.  No statement of the embedded
    sources raises one; the type is there for the statements about them. *)
Inductive exception : Set :=
| ConfigurationError
| NumericDomainError.

Inductive outcome (A : Type) : Type :=
| Returned (a : A)
| Thrown (e : exception)
| UndefinedBehaviour
| OutOfFuel.

Arguments Returned {A} a.
Arguments Thrown {A} e.
Arguments UndefinedBehaviour {A}.
Arguments OutOfFuel {A}.

Definition bind {A B : Type} (m : outcome A) (k : A -> outcome B) : outcome B :=
  match m with
  | Returned a => k a
  | Thrown e => Thrown e
  | UndefinedBehaviour => UndefinedBehaviour
  | OutOfFuel => OutOfFuel
  end.

Notation "x <- m ;; k" := (bind m (fun x => k))
  (at level 61, m at next level, right associativity).
Notation "' pat <- m ;; k" := (bind m (fun x => match x with pat => k end))
  (at level 61, pat pattern, m at next level, right associativity).

(** [v[i]] on a [std::vector]: an index past the end is undefined behaviour. *)
Definition subscript {A : Type} (v : list A) (i : nat) : outcome A :=
  match nth_error v i with
  | Some a => Returned a
  | None => UndefinedBehaviour
  end.

(** A [for] loop over an [unsigned] counter: [for (unsigned i = i0; cond(i); i++) body].
    The counter wraps at [2 ^ 32]; each test of the condition uses one unit of fuel. *)
Fixpoint for_unsigned {St : Type} (fuel : nat) (cond : Z -> bool)
    (body : Z -> St -> outcome St) (i : Z) (s : St) : outcome St :=
  match fuel with
  | O => OutOfFuel
  | S fuel' =>
      if cond i
      then s' <- body i s ;; for_unsigned fuel' cond body (Cxx.wrap_unsigned (i + 1)) s'
      else Returned s
  end.

(** A [while] loop: [while (cond) body]; each test of the condition uses one
    unit of fuel. *)
Fixpoint while_loop {St : Type} (fuel : nat) (cond : St -> bool)
    (body : St -> outcome St) (s : St) : outcome St :=
  match fuel with
  | O => OutOfFuel
  | S fuel' =>
      if cond s then s' <- body s ;; while_loop fuel' cond body s' else Returned s
  end.

(** A variable declared without an initializer holds no value until one is
    stored in it; reading it before that is undefined behaviour. *)
Definition initialised {A : Type} (x : option A) : outcome A :=
  match x with
  | Some a => Returned a
  | None => UndefinedBehaviour
  end.

(** ** <iostream> as the sources use it *)

(** The state of [std::cin].  An extraction [std::cin >> x] hands over the
    value it stores in [x], or nothing when it leaves [x] as it is, and the
    stream after it; whether it failed is read off the stream by [cin_fail].
    What the sources write to [std::cout] is not modelled. *)
Class StdCin : Type := {
  istream : Type;
  (** [std::cin.fail()] *)
  cin_fail : istream -> bool;
  (** [std::cin.clear()] *)
  cin_clear : istream -> istream;
  (** [std::cin.ignore(std::numeric_limits<std::streamsize>::max(), '\n')] *)
  cin_ignore : istream -> istream;
  (** [std::cin >> x] for [x] a [double], an [int], an [unsigned] and an
      [unsigned long] *)
  extract_double : istream -> option R * istream;
  extract_int : istream -> option Z * istream;
  extract_unsigned : istream -> option N * istream;
  extract_unsigned_long : istream -> option N * istream
}.

(** The value of [x] after an extraction into it. *)
Definition stored {A : Type} (extracted : option A) (x : A) : A :=
  match extracted with
  | Some a => a
  | None => x
  end.

(** ** FDM_SDE.hpp *)

Module FDM_SDE.

(** 1. For Geometric Brownian Motion approach *)
Definition GBM (S0 T sigma r : R) : R :=
  S0 * exp (T * (r - 0.5 * sigma * sigma)).

(** Drift function (mu) *)
Definition drift (r S0 : R) : R := r * S0.

(** Diffusion function (sigma) *)
Definition diffusion (vol S0 : R) : R :=
  let betaCEV := 1 in
  vol * Cxx.pow S0 betaCEV.

(** Diffusion derivative function (sigma prime) *)
Definition diffusion_derivative (vol S0 : R) : R :=
  let betaCEV := 1 in
  0.5 * vol * betaCEV * Cxx.pow S0 (2 * betaCEV - 1).

(** The members: the selected FDM method and its name. *)
Record t : Type := {
  fdm_choice : Z;
  fdm_name : string
}.

(** User-interactive interface to determine the FDM model to be used.
    Nothing in the guarded block throws, so the handler is never entered. *)
Definition FDM {Hcin : StdCin} (fuel : nat) (cin : istream) (this : t)
    : outcome (Z * string * t * istream) :=
  (* Get the user's choice of the model *)
  let '(x, cin) := extract_int cin in
  let choice := stored x (fdm_choice this) in
  (* Check the input and prevent potential input-caused crashes *)
  '(choice, cin) <- while_loop fuel (fun '(_, cin) => cin_fail cin)
                      (fun '(choice, cin) =>
                         (* Reset failbit *)
                         let cin := cin_clear cin in
                         (* User didn't input a number *)
                         let cin := cin_ignore cin in
                         (* Get the user's choice of the model *)
                         let '(x, cin) := extract_int cin in
                         Returned (stored x choice, cin))
                      (choice, cin) ;;
  (* Check user's choice *)
  let this :=
    match choice with
    | 1%Z => {| fdm_choice := choice; fdm_name := "GBM" |}
    | 2%Z => {| fdm_choice := choice; fdm_name := "Explicit Euler" |}
    | 3%Z => {| fdm_choice := choice; fdm_name := "Milstein Method" |}
    | _ =>
        (* Wrong input. Set to GBM model *)
        {| fdm_choice := 1; fdm_name := "GBM" |}
    end in
  (* Return the tuple of choices *)
  Returned (fdm_choice this, fdm_name this, this, cin).

End FDM_SDE.

(** ** <random> and <regex> as the sources use them *)

(** The engines of <random>.  An [engine] value stands for the state of a
    [std::default_random_engine] together with the
    [std::normal_distribution<double> n(0, 1)] that is fed by it; [normal]
    is one evaluation of [n(eng)]. *)
Class StdRandom : Type := {
  engine : Type;
  (** [std::default_random_engine eng;] *)
  default_engine : engine;
  (** [std::default_random_engine eng(seed);] *)
  default_random_engine : Z -> engine;
  (** [std::mt19937 eng(seed);], also when assigned to a default engine variable *)
  mt19937 : Z -> engine;
  normal : engine -> R * engine
}.

(** The first [k] variates an engine yields, and the engine after them. *)
Fixpoint draws `{StdRandom} (k : nat) (e : engine) : list R :=
  match k with
  | O => []
  | S k' => fst (normal e) :: draws k' (snd (normal e))
  end.

Fixpoint engine_after `{StdRandom} (k : nat) (e : engine) : engine :=
  match k with
  | O => e
  | S k' => engine_after k' (snd (normal e))
  end.

Module Regex.

(** [.] matches every character but a line terminator. *)
Definition line_terminator (c : ascii) : bool :=
  (Ascii.eqb c "010" || Ascii.eqb c "013")%bool.

Fixpoint dot_star (s : string) : bool :=
  match s with
  | EmptyString => true
  | String c s' => (negb (line_terminator c) && dot_star s')%bool
  end.

(** [std::regex_match] against the pattern of [GeneralPricer]: the group
    [Asian], then a group of any number of [.] *)
Definition match_Asian_any (s : string) : bool :=
  (String.prefix "Asian" s && dot_star (String.substring 5 (String.length s - 5) s))%bool.

(** [std::regex_match] against the pattern of [ExactPrice]: a group of any
    number of [.], then the group [Call] *)
Fixpoint match_any_Call (s : string) : bool :=
  match s with
  | EmptyString => false
  | String c s' =>
      (String.eqb s "Call" || (negb (line_terminator c) && match_any_Call s'))%bool
  end.

End Regex.

(** ** RNG.hpp *)

Module RNG.

(** [(unsigned int)seed] *)
Definition to_unsigned_int (seed : Z) : Z := Cxx.wrap_unsigned seed.

(** Generate N(0,1) variates using Default Random Engine; [now] is the
    reading [high_resolution_clock::now().time_since_epoch().count()]. *)
Definition DefaultRandomEngine `{StdRandom} (now : Z) : R :=
  let seed := now in
  let eng := default_random_engine (to_unsigned_int seed) in
  fst (normal eng).

(** Generate N(0,1) RV using Mersenne Twister engine *)
Definition MersenneTwisterEngine `{StdRandom} (now : Z) : R :=
  let seed := now in
  let eng := mt19937 (to_unsigned_int seed) in
  fst (normal eng).

(** The members: the function wrapper that holds the selected generator (a
    function of the clock reading at its call) and the name of the selected
    engine. *)
Record t : Type := {
  m_random : Z -> R;
  engine_name : string
}.

(** User-friendly interface to determine the engine to be used.  [choice] is
    declared without an initializer. *)
Definition Gaussian `{StdRandom} {Hcin : StdCin} (fuel : nat) (cin : istream)
    (this : t) : outcome ((Z -> R) * string * t * istream) :=
  (* Get the user's choice *)
  let '(x, cin) := extract_unsigned cin in
  let choice : option N := x in
  (* Check for wrong input and prevent potential program crash *)
  '(choice, cin) <- while_loop fuel (fun '(_, cin) => cin_fail cin)
                      (fun '(choice, cin) =>
                         (* Reset failbit *)
                         let cin := cin_clear cin in
                         (* User didn't input a number *)
                         let cin := cin_ignore cin in
                         (* Get the user's choice *)
                         let '(x, cin) := extract_unsigned cin in
                         Returned (stored (option_map Some x) choice, cin))
                      (choice, cin) ;;
  (* Bind the appropriate member random generating function *)
  choice <- initialised choice ;;
  let this :=
    match choice with
    | 1%N => {| m_random := DefaultRandomEngine;
                engine_name := "Default Random Engine" |}
    | 2%N => {| m_random := MersenneTwisterEngine;
                engine_name := "Mersenne Twister" |}
    | _ =>
        (* Invalid choice *)
        {| m_random := DefaultRandomEngine;
           engine_name := "Default Random Engine" |}
    end in
  (* Return the tuple of choices *)
  Returned (m_random this, engine_name this, this, cin).

End RNG.

(** ** Pricer.hpp *)

(** [std::function<double(void)>]: the stored generator reads the clock when
    it is called, so it is a function of that reading. *)
Definition RNGFunctionType : Type := Z -> R.

(** The payoff wrapper of Payoff.hpp, as its call sites use it:
    [option_payoff(K, VNew)]. *)
Definition PayoffFunctionType : Type := R -> R -> R.

(** Volatility, Rate, Time, Stock, Strike, NSIM *)
Record OptionData : Type := {
  od_vol : R;
  od_r : R;
  od_T : R;
  od_S : R;
  od_K : R;
  od_NSIM : Z
}.

Record ModelParameterTuple : Type := {
  mp_rng : RNGFunctionType;
  mp_fdm : Z;
  mp_payoff : PayoffFunctionType
}.

(** Output tuple to be used in MIS class *)
Record PricerOutputMIS : Type := {
  mis_price : R;
  mis_option_data : OptionData;
  mis_stock_flunct : list R;
  mis_option_prices : list R;
  mis_names : list string
}.

(** Output tuple to be used in Output class *)
Record PricerResults : Type := {
  res_price : R;
  res_option_data : OptionData;
  res_NSteps : Z;
  res_names : list string;
  res_upper_cap : R;
  res_lower_cap : R
}.

(** ** Input.hpp *)

Module Input.

(** Core members for the option parameters *)
Record t : Type := {
  vol : R;
  r : R;
  T : R;
  S : R;
  K : R;
  NSIM : N
}.

(** User-interactive interface to set all member data.  Nothing in the
    guarded block throws, so the handler is never entered. *)
Definition setOptionData {Hcin : StdCin} (cin : istream) (this : t)
    : OptionData * t * istream :=
  let '(x, cin) := extract_double cin in
  let vol' := stored x (vol this) in
  (* Check input and prevent potential crashes *)
  let '(vol', cin) :=
    if (Cxx.double_lt 10 vol' || Cxx.double_lt vol' 0 || cin_fail cin)%bool
    then (* Wrong input. Set volatility to 0.1 *) (0.1, cin_ignore (cin_clear cin))
    else (vol', cin) in
  let '(x, cin) := extract_double cin in
  let r' := stored x (r this) in
  let '(r', cin) :=
    if (Cxx.double_lt 10 r' || Cxx.double_lt r' 0 || cin_fail cin)%bool
    then (* Wrong input. Set interest rate to 0.1 *) (0.1, cin_ignore (cin_clear cin))
    else (r', cin) in
  let '(x, cin) := extract_double cin in
  let T' := stored x (T this) in
  let '(T', cin) :=
    if (Cxx.double_lt T' 0 || cin_fail cin)%bool
    then (* Wrong input. Set expiry time to 0.25 *) (0.25, cin_ignore (cin_clear cin))
    else (T', cin) in
  let '(x, cin) := extract_double cin in
  let S' := stored x (S this) in
  let '(S', cin) :=
    if (Cxx.double_lt S' 0 || cin_fail cin)%bool
    then (* Wrong input. Set Stock price to 100 *) (100, cin_ignore (cin_clear cin))
    else (S', cin) in
  let '(x, cin) := extract_double cin in
  let K' := stored x (K this) in
  let '(K', cin) :=
    if (Cxx.double_lt K' 0 || cin_fail cin)%bool
    then (* Wrong input. Set strike price to 120 *) (120, cin_ignore (cin_clear cin))
    else (K', cin) in
  let '(x, cin) := extract_unsigned_long cin in
  let NSIM' := stored x (NSIM this) in
  let '(NSIM', cin) :=
    if ((NSIM' <? 0)%N || cin_fail cin)%bool
    then (* Wrong input. Set NSIM to 100'000 *) (100000%N, cin_ignore (cin_clear cin))
    else (NSIM', cin) in
  (* Return a tuple with the input values *)
  ({| od_vol := vol'; od_r := r'; od_T := T'; od_S := S'; od_K := K';
      od_NSIM := Z.of_N NSIM' |},
   {| vol := vol'; r := r'; T := T'; S := S'; K := K'; NSIM := NSIM' |},
   cin).

End Input.

Module Pricer.

Record t : Type := {
  model_parameters : ModelParameterTuple;
  parameter_names : list string;
  option_data : OptionData;
  explicit_euler : bool;
  stock_flunct : list R;
  option_prices : list R;
  m_price : R;
  NSteps : Z;
  (** the caps of the Payoff base class, read by [output] *)
  UpperCap : R;
  LowerCap : R
}.

Definition set_explicit_euler (b : bool) (p : t) : t :=
  {| model_parameters := model_parameters p; parameter_names := parameter_names p;
     option_data := option_data p; explicit_euler := b;
     stock_flunct := stock_flunct p; option_prices := option_prices p;
     m_price := m_price p; NSteps := NSteps p;
     UpperCap := UpperCap p; LowerCap := LowerCap p |}.

Definition set_stock_flunct (v : list R) (p : t) : t :=
  {| model_parameters := model_parameters p; parameter_names := parameter_names p;
     option_data := option_data p; explicit_euler := explicit_euler p;
     stock_flunct := v; option_prices := option_prices p;
     m_price := m_price p; NSteps := NSteps p;
     UpperCap := UpperCap p; LowerCap := LowerCap p |}.

Definition set_option_prices (v : list R) (p : t) : t :=
  {| model_parameters := model_parameters p; parameter_names := parameter_names p;
     option_data := option_data p; explicit_euler := explicit_euler p;
     stock_flunct := stock_flunct p; option_prices := v;
     m_price := m_price p; NSteps := NSteps p;
     UpperCap := UpperCap p; LowerCap := LowerCap p |}.

Definition set_m_price (x : R) (p : t) : t :=
  {| model_parameters := model_parameters p; parameter_names := parameter_names p;
     option_data := option_data p; explicit_euler := explicit_euler p;
     stock_flunct := stock_flunct p; option_prices := option_prices p;
     m_price := x; NSteps := NSteps p;
     UpperCap := UpperCap p; LowerCap := LowerCap p |}.

Definition set_NSteps (n : Z) (p : t) : t :=
  {| model_parameters := model_parameters p; parameter_names := parameter_names p;
     option_data := option_data p; explicit_euler := explicit_euler p;
     stock_flunct := stock_flunct p; option_prices := option_prices p;
     m_price := m_price p; NSteps := n;
     UpperCap := UpperCap p; LowerCap := LowerCap p |}.

Definition set_model_parameters (m : ModelParameterTuple) (p : t) : t :=
  {| model_parameters := m; parameter_names := parameter_names p;
     option_data := option_data p; explicit_euler := explicit_euler p;
     stock_flunct := stock_flunct p; option_prices := option_prices p;
     m_price := m_price p; NSteps := NSteps p;
     UpperCap := UpperCap p; LowerCap := LowerCap p |}.

Definition push_back {A : Type} (v : list A) (x : A) : list A := v ++ [x].

(** The local variables of [GeneralPricer] that the loops update. *)
Record locals `{StdRandom} : Type := {
  eng : engine;
  VOld : R;
  VNew : R;
  price : R;
  average_price : R
}.

(** The indicator for Asian options.  The assignment in the [if] block
    declares a new [bool asian] that ends with the block, so the variable
    the loops read keeps its initial value. *)
Definition asian_indicator (payoff_name : string) : bool :=
  let asian := false in
  let _ := if Regex.match_Asian_any payoff_name
           then (let asian := true in asian)
           else asian in
  asian.

(** One step of the Euler method. *)
Definition euler_step (r vol dt dt_sq VOld Normal : R) : R :=
  VOld + dt * FDM_SDE.drift r VOld + (dt_sq * FDM_SDE.diffusion vol VOld * Normal).

(** One step of the Milstein method. *)
Definition milstein_step (r vol dt dt_sq VOld Normal : R) : R :=
  VOld + (dt * FDM_SDE.drift r VOld) + (dt_sq * FDM_SDE.diffusion vol VOld * Normal)
  + 0.5 * FDM_SDE.diffusion vol VOld * FDM_SDE.diffusion_derivative vol VOld
    * (Cxx.pow (dt_sq * Normal) 2 - dt).

Section GeneralPricer.

Context `{StdRandom}.

(** The values [GeneralPricer] reads before it enters a loop ([steps] is the
    member [NSteps]). *)
Variables (vol T S0 K : R) (NSIM : Z) (option_payoff : PayoffFunctionType)
          (asian : bool) (steps : Z).

(** The body of the path loop of case 1. *)
Definition gbm_path (VOld0 : R) (i : Z) (s : t * locals) : outcome (t * locals) :=
  let '(p, l) := s in
  let '(Normal, eng') := normal (eng l) in
  (* Simulate a random path *)
  let VNew' := VOld0 * exp (sqrt (vol * vol * T) * Normal) in
  (* Store the stock flunctuation *)
  let p := set_stock_flunct (push_back (stock_flunct p) VNew') p in
  let tmp := option_payoff K VNew' in
  (* Get the current option price *)
  let p := set_option_prices (push_back (option_prices p) tmp) p in
  (* Update the payoff sum *)
  Returned (p, {| eng := eng'; VOld := VOld l; VNew := VNew';
                  price := price l + tmp / IZR NSIM;
                  average_price := average_price l |}).

(** The body of the time loop of cases 2 and 3, over the one-step update
    [step] of the scheme. *)
Definition time_step (step : R -> R -> R) (j : Z) (l : locals) : outcome locals :=
  let '(Normal, eng') := normal (eng l) in
  let VNew' := step (VOld l) Normal in
  (* Update the price *)
  Returned {| eng := eng'; VOld := VNew'; VNew := VNew'; price := price l;
              average_price := if asian then average_price l + VNew'
                               else average_price l |}.

(** The body of the path loop of cases 2 and 3. *)
Definition discretized_path (fuel : nat) (step : R -> R -> R) (i : Z)
    (s : t * locals) : outcome (t * locals) :=
  let '(p, l) := s in
  (* Update to the initial stock price *)
  let l := {| eng := eng l; VOld := S0; VNew := VNew l; price := price l;
              average_price := average_price l |} in
  (* Discretize the time into N steps *)
  l <- for_unsigned fuel (fun j => (j <=? steps)%Z) (time_step step) 0%Z l ;;
  (* Store the update into the stock flunctuation vector *)
  let p := set_stock_flunct (push_back (stock_flunct p) (VNew l)) p in
  let tmp := if asian then option_payoff K (average_price l / IZR steps)
             else option_payoff K (VNew l) in
  (* Get the current option price *)
  let p := set_option_prices (push_back (option_prices p) tmp) p in
  (* Update the average payoff sum *)
  Returned (p, {| eng := eng l; VOld := VOld l; VNew := VNew l;
                  price := price l + tmp;
                  average_price := average_price l |}).

End GeneralPricer.

(** GeneralPricer() pricing algorithm.  [fuel] bounds the number of times
    each loop tests its condition.  The status lines written to [std::cout]
    are not modelled.  The time step is [T / NSteps], and cases 2 and 3
    divide the payoff sum by [NSIM]: with [NSteps = 0] or [NSIM = 0] the
    program computes with an infinity or a NaN there, which the quotients of
    the reals do not stand for, and the statements about the values of a run
    are made for positive counts. *)
Definition GeneralPricer `{StdRandom} (fuel : nat) (p : t) : outcome (R * t) :=
  (* Get the option data values *)
  let vol := od_vol (option_data p) in
  let r := od_r (option_data p) in
  let T := od_T (option_data p) in
  let S0 := od_S (option_data p) in
  let K := od_K (option_data p) in
  let NSIM := od_NSIM (option_data p) in
  (* Get the model function wrapper Payoff and FDM *)
  let fdm_model_choice := mp_fdm (model_parameters p) in
  let option_payoff := mp_payoff (model_parameters p) in
  (* In case of Asian options *)
  payoff_name <- subscript (parameter_names p) 2 ;;
  let asian := asian_indicator payoff_name in
  (* For time sub-intervals and the Weiner process *)
  let dt := T / IZR (NSteps p) in
  let dt_sq := sqrt dt in
  (* Normal Random generation *)
  engine_name <- subscript (parameter_names p) 0 ;;
  let eng0 := if String.eqb engine_name "Mersenne Twister Engine"
              then mt19937 0 else default_engine in
  let l0 := {| eng := eng0; VOld := 0; VNew := 0; price := 0; average_price := 0 |} in
  match fdm_model_choice with
  | 1%Z =>
      (* General Geometric Brownian Motion *)
      let VOld0 := FDM_SDE.GBM S0 T vol r in
      let l0 := {| eng := eng0; VOld := VOld0; VNew := 0; price := 0;
                   average_price := 0 |} in
      '(p, l) <- for_unsigned fuel (fun i => (i <? NSIM)%Z)
                   (gbm_path vol T K NSIM option_payoff VOld0) 0%Z (p, l0) ;;
      (* Get the average discounted price of the simulation *)
      let p := set_m_price (price l * exp (- r * T)) p in
      Returned (m_price p, p)
  | 2%Z =>
      (* Explicit Euler *)
      let p := set_explicit_euler true p in
      '(p, l) <- for_unsigned fuel (fun i => (i <=? NSIM)%Z)
                   (discretized_path S0 K option_payoff asian (NSteps p) fuel
                      (euler_step r vol dt dt_sq)) 1%Z (p, l0) ;;
      (* Discount and average the price *)
      let p := set_m_price ((price l / IZR NSIM) * exp (- r * T)) p in
      Returned (m_price p, p)
  | 3%Z =>
      (* Milstein Method *)
      let p := set_explicit_euler true p in
      '(p, l) <- for_unsigned fuel (fun i => (i <=? NSIM)%Z)
                   (discretized_path S0 K option_payoff asian (NSteps p) fuel
                      (milstein_step r vol dt dt_sq)) 1%Z (p, l0) ;;
      (* Discount and average the price *)
      let p := set_m_price ((price l / IZR NSIM) * exp (- r * T)) p in
      Returned (m_price p, p)
  | _ =>
      (* In case of wrong input *)
      let p := set_m_price 0 p in
      Returned (m_price p, p)
  end.

(** Inline setter for Payoff parameters *)
Definition setPayoffParameter (payoff : PayoffFunctionType) (name : string) (p : t)
    : outcome t :=
  let new_model_parameters :=
    {| mp_rng := mp_rng (model_parameters p); mp_fdm := mp_fdm (model_parameters p);
       mp_payoff := payoff |} in
  let p := set_model_parameters new_model_parameters p in
  match parameter_names p with
  | n0 :: n1 :: _ :: rest =>
      Returned {| model_parameters := model_parameters p;
                  parameter_names := n0 :: n1 :: name :: rest;
                  option_data := option_data p; explicit_euler := explicit_euler p;
                  stock_flunct := stock_flunct p; option_prices := option_prices p;
                  m_price := m_price p; NSteps := NSteps p;
                  UpperCap := UpperCap p; LowerCap := LowerCap p |}
  | _ => UndefinedBehaviour
  end.

(** Output tuple for MIS use *)
Definition MIS_output (p : t) : PricerOutputMIS :=
  {| mis_price := m_price p; mis_option_data := option_data p;
     mis_stock_flunct := stock_flunct p; mis_option_prices := option_prices p;
     mis_names := parameter_names p |}.

(** Output tuple for Output class use; the object is returned too, since
    the branch without time discretization assigns [NSteps]. *)
Definition output (p : t) : PricerResults * t :=
  if explicit_euler p then
    ({| res_price := m_price p; res_option_data := option_data p;
        res_NSteps := NSteps p; res_names := parameter_names p;
        res_upper_cap := UpperCap p; res_lower_cap := LowerCap p |}, p)
  else
    (* In case of no time discretization *)
    let p := set_NSteps 0 p in
    ({| res_price := m_price p; res_option_data := option_data p;
        res_NSteps := NSteps p; res_names := parameter_names p;
        res_upper_cap := UpperCap p; res_lower_cap := LowerCap p |}, p).

Definition ClearStockFlunctuationsVector (p : t) : t := set_stock_flunct [] p.
Definition ClearTempOptionPriceVector (p : t) : t := set_option_prices [] p.

Definition set_parameter_names (v : list string) (p : t) : t :=
  {| model_parameters := model_parameters p; parameter_names := v;
     option_data := option_data p; explicit_euler := explicit_euler p;
     stock_flunct := stock_flunct p; option_prices := option_prices p;
     m_price := m_price p; NSteps := NSteps p;
     UpperCap := UpperCap p; LowerCap := LowerCap p |}.

Definition set_option_data (od : OptionData) (p : t) : t :=
  {| model_parameters := model_parameters p; parameter_names := parameter_names p;
     option_data := od; explicit_euler := explicit_euler p;
     stock_flunct := stock_flunct p; option_prices := option_prices p;
     m_price := m_price p; NSteps := NSteps p;
     UpperCap := UpperCap p; LowerCap := LowerCap p |}.

Definition set_caps (caps : R * R) (p : t) : t :=
  {| model_parameters := model_parameters p; parameter_names := parameter_names p;
     option_data := option_data p; explicit_euler := explicit_euler p;
     stock_flunct := stock_flunct p; option_prices := option_prices p;
     m_price := m_price p; NSteps := NSteps p;
     UpperCap := fst caps; LowerCap := snd caps |}.

(** Clear the vector that holds the parameter names *)
Definition ClearNameParameterVector (p : t) : t := set_parameter_names [] p.

(** The members of the base classes [ISDE], [IRNG] and [IInput] ([IPayoff]
    is represented by its caps, which are members of [t]). *)
Record bases : Type := {
  sde : FDM_SDE.t;
  rng : RNG.t;
  input : Input.t
}.

Section get.

Context `{StdRandom} {Hcin : StdCin}.

(** [IPayoff::payoff()] of Payoff.hpp, which is not among the sources at
    hand: from the input and the caps of the payoff object, the payoff
    wrapper, its name, the caps and the input it leaves. *)
Variable payoff :
  istream -> R * R -> outcome (PayoffFunctionType * string * (R * R) * istream).

(** Get method that provides an automated user interface for input and
    model information.  The copies [rng_parameter], [fdm_sde_parameter] and
    [payoff_parameter] of the model parameters are read by no function of
    the header and are left out. *)
Definition get (fuel : nat) (cin : istream) (b : bases) (p : t)
    : outcome (bases * t * istream) :=
  (* Get option data and set the member data to it *)
  let '(od, input', cin) := Input.setOptionData cin (input b) in
  let p := set_option_data od p in
  (* Get the random generator *)
  '(rng_function, rng_name, rng', cin) <- RNG.Gaussian fuel cin (rng b) ;;
  (* Get the FDM choice *)
  '(fdm, fdm_name, sde', cin) <- FDM_SDE.FDM fuel cin (sde b) ;;
  (* In case of Explicit Euler or Milstein approach *)
  let '(p, cin) :=
    if negb (fdm =? 1)%Z
    then let '(x, cin) := extract_unsigned_long cin in
         (set_NSteps (stored (option_map Z.of_N x) (NSteps p)) p, cin)
    else (p, cin) in
  (* Get the payoff *)
  '(payoff_function, payoff_name, caps, cin) <- payoff cin (UpperCap p, LowerCap p) ;;
  let p := set_caps caps p in
  (* Set the member data for model parameters *)
  let p := set_model_parameters
             {| mp_rng := rng_function; mp_fdm := fdm; mp_payoff := payoff_function |} p in
  (* Get the names for MIS *)
  let p := set_parameter_names (push_back (parameter_names p) rng_name) p in
  let p := set_parameter_names (push_back (parameter_names p) fdm_name) p in
  let p := set_parameter_names (push_back (parameter_names p) payoff_name) p in
  Returned ({| sde := sde'; rng := rng'; input := input' |}, p, cin).

End get.

End Pricer.

(** ** The standard normal distribution of boost::math

    [cdf(n, x)] for [boost::math::normal_distribution<double> n(0, 1)] is the
    standard normal distribution function, here given by its power series
    [1/2 + (1 / sqrt (2 PI)) * sum_n (-1)^n x^(2n+1) / (n! 2^n (2n+1))]. *)

Module Normal.

(** The denominator [n! 2^n (2n+1)] of the [n]-th term. *)
Definition series_den (n : nat) : R := INR (fact n) * 2 ^ n * INR (2 * n + 1).

(** The coefficient of [y^n] in the series, with [y = x^2]. *)
Definition series_coef (n : nat) : R := (-1) ^ n / series_den n.

Lemma series_den_pos (n : nat) : 0 < series_den n.
Proof.
  unfold series_den.
  apply Rmult_lt_0_compat; [apply Rmult_lt_0_compat|].
  - apply lt_0_INR, lt_O_fact.
  - apply pow_lt; lra.
  - apply lt_0_INR; lia.
Qed.

Lemma series_coef_neq_0 (n : nat) : series_coef n <> 0.
Proof.
  unfold series_coef, Rdiv.
  apply Rmult_integral_contrapositive_currified.
  - apply pow_nonzero; lra.
  - apply Rinv_neq_0_compat, Rgt_not_eq, series_den_pos.
Qed.

Lemma series_ratio (n : nat) :
  Rabs (series_coef (S n) / series_coef n) = series_den n / series_den (S n).
Proof.
  pose proof (series_den_pos n) as Hn.
  pose proof (series_den_pos (S n)) as HSn.
  assert (Hm : (-1) ^ n <> 0) by (apply pow_nonzero; lra).
  replace (series_coef (S n) / series_coef n)
    with (- (series_den n / series_den (S n))).
  - rewrite Rabs_Ropp. apply Rabs_pos_eq.
    apply Rlt_le, Rdiv_lt_0_compat; assumption.
  - unfold series_coef. simpl pow. field. repeat split; lra.
Qed.

Lemma series_ratio_bound (n : nat) :
  series_den n / series_den (S n) <= / INR (S n).
Proof.
  pose proof (series_den_pos n) as Hn.
  assert (Hs : 0 < INR (S n)) by (apply lt_0_INR; lia).
  assert (Hstep : series_den (S n)
                  = INR (S n) * (2 * (INR (2 * S n + 1) / INR (2 * n + 1))) * series_den n).
  { unfold series_den. rewrite fact_simpl, mult_INR. simpl pow.
    field. apply not_0_INR. lia. }
  assert (Hq : 1 <= 2 * (INR (2 * S n + 1) / INR (2 * n + 1))).
  { assert (0 < INR (2 * n + 1)) by (apply lt_0_INR; lia).
    assert (INR (2 * n + 1) <= INR (2 * S n + 1)) by (apply le_INR; lia).
    apply Rmult_le_reg_r with (INR (2 * n + 1)); [assumption|].
    field_simplify; lra. }
  rewrite Hstep.
  apply Rmult_le_reg_r with (INR (S n)); [assumption|].
  rewrite Rinv_l by lra.
  set (q := 2 * (INR (2 * S n + 1) / INR (2 * n + 1))) in *.
  apply Rmult_le_reg_r with q; [lra|].
  field_simplify; nra.
Qed.

Lemma series_ratio_cv : Un_cv (fun n => Rabs (series_coef (S n) / series_coef n)) 0.
Proof.
  intros eps Heps.
  destruct (archimed (/ eps)) as [Hup _].
  assert (Hpos : (0 <= up (/ eps))%Z).
  { apply le_IZR. pose proof (Rinv_0_lt_compat _ Heps). lra. }
  exists (Z.to_nat (up (/ eps))).
  intros n Hge.
  unfold Rdist. rewrite Rminus_0_r, Rabs_Rabsolu, series_ratio.
  assert (Hs : 0 < INR (S n)) by (apply lt_0_INR; lia).
  apply Rle_lt_trans with (/ INR (S n)); [apply series_ratio_bound|].
  rewrite <- (Rinv_inv eps).
  apply Rinv_lt_contravar.
  - apply Rmult_lt_0_compat; [apply Rinv_0_lt_compat|]; assumption.
  - apply Rlt_le_trans with (IZR (up (/ eps))); [lra|].
    rewrite <- (Z2Nat.id (up (/ eps))) by assumption.
    rewrite <- INR_IZR_INZ. apply le_INR. lia.
Qed.

(** The series converges for every argument (ratio test). *)
Definition series_exists (y : R) : { l : R | Pser series_coef y l } :=
  Alembert_C3 series_coef y series_coef_neq_0 series_ratio_cv.

(** [sum_n (-1)^n y^n / (n! 2^n (2n+1))] *)
Definition series (y : R) : R := proj1_sig (series_exists y).

(** [cdf(n, x)] *)
Definition cdf (x : R) : R := 0.5 + x * series (x * x) / sqrt (2 * PI).

End Normal.

(** ** MIS.hpp *)

(** Mean price, max price, min price, SD, SE, exact price, decision, elapsed
    time in seconds *)
Record Statistics : Type := {
  st_mean_price : R;
  st_max_price : R;
  st_min_price : R;
  st_SD : R;
  st_SE : R;
  st_exact_price : R;
  st_decision : bool;
  st_elapsed_time : R
}.

Module MIS.

Record t : Type := {
  exact_price : R;
  mean_price : R;
  max_price : R;
  min_price : R;
  SD : R;
  SE : R;
  decision : bool;
  elapsed_time : R;
  (** the two marks of the stopwatch, in seconds *)
  start : R;
  end_ : R
}.

(** The conversion of a [double] to the [int] parameter of a lambda: the
    value is truncated, and the behaviour is undefined when the truncated
    value is not an [int]. *)
Definition double_to_int (x : R) : outcome Z :=
  let n := Cxx.trunc x in
  if ((Cxx.INT_MIN <=? n) && (n <=? Cxx.INT_MAX))%Z then Returned n
  else UndefinedBehaviour.

(** [std::for_each(std::begin(v), std::end(v), [&](int n) { ... })] over a
    vector of [double]; [f] is the body of the lambda on the captured
    variables. *)
Fixpoint for_each_int {St : Type} (v : list R) (f : Z -> St -> St) (s : St)
    : outcome St :=
  match v with
  | [] => Returned s
  | x :: v' => n <- double_to_int x ;; for_each_int v' f (f n s)
  end.

(** [*std::max_element(v.begin(), v.end())]: the first largest element;
    on an empty vector the end iterator is dereferenced. *)
Definition max_element (v : list R) : outcome R :=
  match v with
  | [] => UndefinedBehaviour
  | x :: v' =>
      Returned (fold_left (fun largest y => if Rlt_dec largest y then y else largest) v' x)
  end.

Definition min_element (v : list R) : outcome R :=
  match v with
  | [] => UndefinedBehaviour
  | x :: v' =>
      Returned (fold_left (fun smallest y => if Rlt_dec y smallest then y else smallest) v' x)
  end.

(** [v.size()] *)
Definition size {A : Type} (v : list A) : Z := Z.of_nat (List.length v).

(** MIS method to compute statistics given pricer input *)
Definition ComputeStatistics (pricer_res : PricerOutputMIS) (m : t) : outcome t :=
  (* Extract the information from the input tuple *)
  let option_data := mis_option_data pricer_res in
  let stock_prices := mis_stock_flunct pricer_res in
  let option_prices := mis_option_prices pricer_res in
  (* Extract the necessary option data information *)
  let r := od_r option_data in
  let T := od_T option_data in
  (* Get the sums for SE and SD formulas *)
  '(sum, sum_sq) <- for_each_int option_prices
                      (fun n '(sum, sum_sq) => (sum + IZR n, sum_sq + Cxx.pow (IZR n) 2))
                      (0, 0) ;;
  (* Get the sum of the stock prices *)
  mean_price' <- for_each_int stock_prices (fun n mean_price => mean_price + IZR n) 0 ;;
  (* Compute the mean stock price *)
  let mean_price' := mean_price' / IZR (size stock_prices) in
  (* Compute the Standard deviation *)
  let SD' := sqrt ((sum_sq - (1 / IZR (size option_prices)) * Cxx.pow sum 2)
                   / IZR (Cxx.wrap_size_t (size option_prices - 1)))
             * exp (- r * T) in
  (* Compute the Standard Error *)
  let SE' := SD' / sqrt (IZR (size option_prices)) in
  (* Get the max and min price of the stock in the simulation *)
  max_price' <- max_element stock_prices ;;
  min_price' <- min_element stock_prices ;;
  Returned {| exact_price := exact_price m; mean_price := mean_price';
              max_price := max_price'; min_price := min_price';
              SD := SD'; SE := SE'; decision := decision m;
              elapsed_time := end_ m - start m;
              start := start m; end_ := end_ m |}.

Definition set_exact_price (x : R) (m : t) : t :=
  {| exact_price := x; mean_price := mean_price m; max_price := max_price m;
     min_price := min_price m; SD := SD m; SE := SE m; decision := decision m;
     elapsed_time := elapsed_time m; start := start m; end_ := end_ m |}.

Definition set_decision (b : bool) (m : t) : t :=
  {| exact_price := exact_price m; mean_price := mean_price m; max_price := max_price m;
     min_price := min_price m; SD := SD m; SE := SE m; decision := b;
     elapsed_time := elapsed_time m; start := start m; end_ := end_ m |}.

(** MIS method that computes the exact prices of the options using the BS
    formulas; the [int] it returns is 0.  [d1] is a quotient by
    [vol * sqrt T] of a sum with [log (S / K)]: where [vol], [T], [S] or [K]
    is not positive the program computes with an infinity, or Boost's [cdf]
    raises [std::domain_error] on a NaN, which the quotient and the logarithm
    of the reals do not stand for, and the statements about the benchmark are
    made for contracts on which the four are positive. *)
Definition ExactPrice (pricer_res : PricerOutputMIS) (m : t) : outcome (Z * t) :=
  (* Get the stock price names to discriminate the payoff *)
  let names := mis_names pricer_res in
  (* Get the option data *)
  let option_data := mis_option_data pricer_res in
  let vol := od_vol option_data in
  let r := od_r option_data in
  let T := od_T option_data in
  let S0 := od_S option_data in
  let K := od_K option_data in
  payoff_name <- subscript names 2 ;;
  if Regex.match_any_Call payoff_name then
    (* If it's Call, use the BS_call formula *)
    let d1 := (ln (S0 / K) + (r + Cxx.pow vol 2 / 2) * T) / (vol * sqrt T) in
    let d2 := d1 - vol * sqrt T in
    Returned (0%Z, set_exact_price
      (S0 * exp ((r - r) * T) * Normal.cdf d1 - K * exp (- r * T) * Normal.cdf d2) m)
  else
    (* If it's Put, use the BS_put formula *)
    let d1 := (ln (S0 / K) + (r + Cxx.pow vol 2 / 2) * T) / (vol * sqrt T) in
    let d2 := d1 - vol * sqrt T in
    Returned (0%Z, set_exact_price
      (K * exp (- r * T) * Normal.cdf (- d2) - S0 * exp ((r - r) * T) * Normal.cdf (- d1)) m).

(** Decision making function.  [abs] is taken on a [double]: the sources
    call the functions of <cmath> unqualified, so they build only where that
    header declares its overloads in the global namespace. *)
Definition DecisionMaking (pricer_res : PricerOutputMIS) (m : t) : t :=
  if Rlt_dec (Rabs (exact_price m - mis_price pricer_res)) 0.01
  then set_decision true m
  else set_decision false m.

(** MIS output vector with application statistics *)
Definition getStatistics (m : t) : Statistics :=
  {| st_mean_price := mean_price m; st_max_price := max_price m;
     st_min_price := min_price m; st_SD := SD m; st_SE := SE m;
     st_exact_price := exact_price m; st_decision := decision m;
     st_elapsed_time := elapsed_time m |}.

Definition set_elapsed_time (x : R) (m : t) : t :=
  {| exact_price := exact_price m; mean_price := mean_price m; max_price := max_price m;
     min_price := min_price m; SD := SD m; SE := SE m; decision := decision m;
     elapsed_time := x; start := start m; end_ := end_ m |}.

(** Start measuring time now; [now] is the reading [SystemClock::now()], in
    seconds. *)
Definition StartStopWatch (now : R) (m : t) : t :=
  {| exact_price := exact_price m; mean_price := mean_price m; max_price := max_price m;
     min_price := min_price m; SD := SD m; SE := SE m; decision := decision m;
     elapsed_time := elapsed_time m; start := now; end_ := end_ m |}.

(** Stop measuring time now *)
Definition EndStopWatch (now : R) (m : t) : t :=
  {| exact_price := exact_price m; mean_price := mean_price m; max_price := max_price m;
     min_price := min_price m; SD := SD m; SE := SE m; decision := decision m;
     elapsed_time := elapsed_time m; start := start m; end_ := now |}.

(** Reset the timer *)
Definition ResetStopWatch (m : t) : t := set_elapsed_time 0 m.

(** The elapsed time *)
Definition ElapsedTime (m : t) : R * t :=
  (* Compute the elapsed seconds *)
  let m := set_elapsed_time (end_ m - start m) m in
  (elapsed_time m, m).

End MIS.

(** ** MCBuilder.hpp *)

(** The pricing outputs gathered for later use *)
Definition MultiOutputList : Type := list (PricerResults * Statistics).

Module Builder.

(** The lambda [multiPricer] of [run], on the pricer, the MIS and the list
    of outputs it captures; [start_time] and [end_time] are the two readings
    of the system clock.  [std::thread(multiPricer).join()] runs it to its end
    before [run] goes on. *)
Definition multiPricer `{StdRandom} (fuel : nat) (start_time end_time : R)
    (s : Pricer.t * MIS.t * MultiOutputList)
    : outcome (Pricer.t * MIS.t * MultiOutputList) :=
  let '(p, m, multi_output_list) := s in
  (* Start measuring time *)
  let m := MIS.StartStopWatch start_time m in
  (* Begin the pricing process *)
  '(_, p) <- Pricer.GeneralPricer fuel p ;;
  (* Stop measuring time *)
  let m := MIS.EndStopWatch end_time m in
  (* Get the output tuples from the pricing process *)
  let '(general_output, p) := Pricer.output p in
  let mis_out := Pricer.MIS_output p in
  (* Use the MIS output to compute statistics and make a decision *)
  m <- MIS.ComputeStatistics mis_out m ;;
  '(_, m) <- MIS.ExactPrice mis_out m ;;
  let m := MIS.DecisionMaking mis_out m in
  (* Get the computed statistics *)
  let mis_output := MIS.getStatistics m in
  (* Reset the stopwatch for the next iteration *)
  let m := MIS.ResetStopWatch m in
  (* Store the output of this simulation *)
  let multi_output_list := Pricer.push_back multi_output_list (general_output, mis_output) in
  (* Clear the vectors for the next iteration *)
  let p := Pricer.ClearStockFlunctuationsVector p in
  let p := Pricer.ClearTempOptionPriceVector p in
  Returned (p, m, multi_output_list).

(** The members of the Builder and of its bases. *)
Record t : Type := {
  pricer : Pricer.t;
  bases : Pricer.bases;
  mis : MIS.t;
  multi_output_list : MultiOutputList
}.

(** What [run] hands to the Output class, whose printing functions are not
    among the sources at hand, or the message it ends with. *)
Inductive request : Type :=
| Print (pricer_res : PricerResults) (mis : Statistics)
| MultiPrint (multi_list : MultiOutputList)
| NonDeterministicRequest.

Section run.

Context `{StdRandom} {Hcin : StdCin}.

(** [IPayoff::payoff()], as for [Pricer.get]. *)
Variable payoff :
  istream -> R * R -> outcome (PayoffFunctionType * string * (R * R) * istream).

(** [now k] is the [k]-th reading of the system clock in the call. *)
Variable now : nat -> R.

(** Mediator method run(), up to its call of [Print] or [MultiPrint].
    [number_of_threads] is declared without an initializer. *)
Definition run (fuel : nat) (cin : istream) (this : t)
    : outcome (request * t * istream) :=
  (* Multipricing choice *)
  let '(x, cin) := extract_unsigned cin in
  let number_of_threads : option N := x in
  (* Check the input and prevent potential input-caused crashes *)
  '(number_of_threads, cin) <-
    while_loop fuel (fun '(_, cin) => cin_fail cin)
      (fun '(number_of_threads, cin) =>
         (* Reset failbit *)
         let cin := cin_clear cin in
         (* User didn't input a number *)
         let cin := cin_ignore cin in
         (* Try again *)
         let '(x, cin) := extract_unsigned cin in
         Returned (stored (option_map Some x) number_of_threads, cin))
      (number_of_threads, cin) ;;
  number_of_threads <- initialised number_of_threads ;;
  if (number_of_threads =? 1)%N then
    (* In case of single option pricing: assemble data *)
    '(b, p, cin) <- Pricer.get payoff fuel cin (bases this) (pricer this) ;;
    (* Start measuring time *)
    let m := MIS.StartStopWatch (now 0%nat) (mis this) in
    (* Begin the pricing process *)
    '(_, p) <- Pricer.GeneralPricer fuel p ;;
    (* Stop measuring time *)
    let m := MIS.EndStopWatch (now 1%nat) m in
    (* Get the output tuples from the pricing process *)
    let '(output_tuple, p) := Pricer.output p in
    let mis_out := Pricer.MIS_output p in
    (* Use the MIS output to compute statistics and make a decision *)
    m <- MIS.ComputeStatistics mis_out m ;;
    '(_, m) <- MIS.ExactPrice mis_out m ;;
    let m := MIS.DecisionMaking mis_out m in
    (* Extract the MIS output with the computed statistics *)
    let mis_output := MIS.getStatistics m in
    Returned (Print output_tuple mis_output,
              {| pricer := p; bases := b; mis := m;
                 multi_output_list := multi_output_list this |},
              cin)
  else if (1 <? number_of_threads)%N then
    (* In case of multiple option pricing: assemble data *)
    '(b, p, cin) <- Pricer.get payoff fuel cin (bases this) (pricer this) ;;
    (* For as many as selected simulations... *)
    '(p, m, l, cin, _) <-
      for_unsigned fuel (fun i => (i <? Z.of_N number_of_threads)%Z)
        (fun i '(p, m, l, cin, tick) =>
           (* Run the pricing process *)
           '(p, m, l) <- multiPricer fuel (now tick) (now (S tick)) (p, m, l) ;;
           (* For n-1 times ask the user to determine the next option *)
           if (i <? Cxx.wrap_unsigned (Z.of_N number_of_threads - 1))%Z then
             (* Update the option type for the next round *)
             '(payoff_function, payoff_name, caps, cin) <-
               payoff cin (Pricer.UpperCap p, Pricer.LowerCap p) ;;
             let p := Pricer.set_caps caps p in
             (* Update the Pricer class parameters *)
             p <- Pricer.setPayoffParameter payoff_function payoff_name p ;;
             Returned (p, m, l, cin, S (S tick))
           else Returned (p, m, l, cin, S (S tick)))
        0%Z (p, mis this, multi_output_list this, cin, 0%nat) ;;
    (* Now all options has been pricing *)
    Returned (MultiPrint l,
              {| pricer := p; bases := b; mis := m; multi_output_list := l |},
              cin)
  else
    (* In case of wrong input, print an error message *)
    Returned (NonDeterministicRequest, this, cin).

End run.

End Builder.

(** ** TestPlainMC.cpp *)

Module TestPlainMC.

(** The Black-Scholes formula for Call: the lambda [exact_price] of [main],
    on the variables it captures. *)
Definition exact_price (vol r T S0 K : R) : R :=
  let d1 := (ln (S0 / K) + (r + Cxx.pow vol 2 / 2) * T) / (vol * sqrt T) in
  let d2 := d1 - vol * sqrt T in
  S0 * exp ((r - r) * T) * Normal.cdf d1 - K * exp (- r * T) * Normal.cdf d2.

(** [main]: from the input to the approximation price and the exact price
    it prints.  [NSteps], [NSIM], [VOld] and [VNew] are declared without
    initializers; [S0] stands for the variable [S].  The status line written
    every 10000 paths and the timing are not modelled. *)
Definition main `{StdRandom} {Hcin : StdCin} (fuel : nat) (cin : istream)
    : outcome (R * R * istream) :=
  (* Get the option data values *)
  let vol := 0.3 in
  let r := 0.08 in
  let T := 0.25 in
  let S0 := 60 in
  let K := 65 in
  let '(x, cin) := extract_unsigned_long cin in
  let NSIM : option N := x in
  let '(x, cin) := extract_unsigned_long cin in
  let NSteps : option N := x in
  (* Model dummy parameters *)
  let VNew : option R := None in
  let price := 0 in
  (* For time sub-intervals and the Weiner process *)
  NSteps <- initialised NSteps ;;
  let NSteps := Z.of_N NSteps in
  let dt := T / IZR NSteps in
  let dt_sq := sqrt dt in
  (* Generate random variates of N(0,1): [std::mt19937 eng;] is seeded with
     its default seed, 5489 *)
  let eng := mt19937 5489 in
  (* Simulation begins *)
  NSIM <- initialised NSIM ;;
  let NSIM := Z.of_N NSIM in
  '(eng, VNew, price) <-
    for_unsigned fuel (fun i => (i <=? NSIM)%Z)
      (fun i '(eng, VNew, price) =>
         (* Update to the initial stock price *)
         let VOld := S0 in
         (* Discretize the time into N steps *)
         '(eng, VOld, VNew) <-
           for_unsigned fuel (fun j => (j <=? NSteps)%Z)
             (fun j '(eng, VOld, VNew) =>
                let '(dW, eng) := normal eng in
                (* Update in every step according to the Euler method *)
                let VNew := VOld + dt * r * VOld + (dt_sq * vol * VOld * dW) in
                (* Update the price *)
                let VOld := VNew in
                Returned (eng, VOld, Some VNew))
             0%Z (eng, VOld, VNew) ;;
         (* Update the average payoff sum *)
         VNew' <- initialised VNew ;;
         let price := price + Rmax (VNew' - K) 0 / IZR NSIM in
         Returned (eng, VNew, price))
      1%Z (eng, VNew, price) ;;
  (* Discount and average the price *)
  let m_price := price * exp (- r * T) in
  Returned (m_price, exact_price vol r T S0 K, cin).

End TestPlainMC.

(** ** Fixtures: a concrete <random> and concrete contracts *)

(** A source whose every variate is 0, and one that counts: the [k]-th
    variate of [counting_random] is [k]. *)
Definition zero_random : StdRandom := {|
  engine := unit;
  default_engine := tt;
  default_random_engine := fun _ => tt;
  mt19937 := fun _ => tt;
  normal := fun e => (0, e)
|}.

Definition counting_random : StdRandom := {|
  engine := nat;
  default_engine := O;
  default_random_engine := fun seed => Z.to_nat seed;
  mt19937 := fun seed => Z.to_nat seed;
  normal := fun e => (INR e, S e)
|}.

(** A scripted [std::cin] of one entry a line: a number without sign or
    fraction, or a word that is no number.  An extraction into any numeric
    type reads a number; on a word it stores 0, raises the fail bit and leaves
    the word, which [cin_ignore] then discards; at the end of the script, or
    with the fail bit up, it stores nothing. *)
Inductive entry : Type :=
| number (n : N)
| word.

Record script : Type := {
  pending : list entry;
  failbit : bool;
  (** the entry at the head has been found to be no number *)
  stuck : bool
}.

Definition script_extract {A : Type} (value : N -> A) (zero : A) (s : script)
    : option A * script :=
  if failbit s then (None, s)
  else match pending s with
       | [] => (None, {| pending := []; failbit := true; stuck := false |})
       | number n :: rest =>
           (Some (value n), {| pending := rest; failbit := false; stuck := false |})
       | word :: rest =>
           (Some zero, {| pending := word :: rest; failbit := true; stuck := true |})
       end.

Definition scripted_cin : StdCin := {|
  istream := script;
  cin_fail := failbit;
  cin_clear := fun s => {| pending := pending s; failbit := false; stuck := stuck s |};
  cin_ignore := fun s =>
    if stuck s
    then {| pending := tl (pending s); failbit := failbit s; stuck := false |}
    else s;
  extract_double := script_extract (fun n => IZR (Z.of_N n)) 0;
  extract_int := script_extract Z.of_N 0%Z;
  extract_unsigned := script_extract (fun n => n) 0%N;
  extract_unsigned_long := script_extract (fun n => n) 0%N
|}.

(** The script that starts with the given entries. *)
Definition typed (entries : list entry) : script :=
  {| pending := entries; failbit := false; stuck := false |}.

(** The payoff of a call, as TestPlainMC.cpp writes it:
    [std::max(VNew - K, 0.0)]. *)
Definition call_payoff : PayoffFunctionType := fun K V => Rmax (V - K) 0.

(** The contract of the test program TestPlainMC.cpp, on [NSIM] paths. *)
Definition test_contract (NSIM : Z) : OptionData :=
  {| od_vol := 0.3; od_r := 0.08; od_T := 0.25; od_S := 60; od_K := 65; od_NSIM := NSIM |}.

(** A contract whose call is in the money: spot 60, strike 60. *)
Definition asian_contract : OptionData :=
  {| od_vol := 0.3; od_r := 0.08; od_T := 0.25; od_S := 60; od_K := 60; od_NSIM := 1 |}.

(** The names [Pricer::get] collects: the engine, the scheme as
    [FDM_SDE::FDM] calls it, the payoff. *)
Definition fixture_names (fdm : Z) (payoff_name : string) : list string :=
  ["Default Random Engine";
   match fdm with
   | 2%Z => "Explicit Euler"
   | 3%Z => "Milstein Method"
   | _ => "GBM"
   end;
   payoff_name]%string.

(** A pricer as the constructor and [get] leave it, with a call payoff. *)
Definition fixture_pricer (od : OptionData) (fdm : Z) (payoff_name : string)
    (steps : Z) : Pricer.t :=
  {| Pricer.model_parameters :=
       {| mp_rng := fun _ => 0; mp_fdm := fdm; mp_payoff := call_payoff |};
     Pricer.parameter_names := fixture_names fdm payoff_name;
     Pricer.option_data := od;
     Pricer.explicit_euler := false;
     Pricer.stock_flunct := [];
     Pricer.option_prices := [];
     Pricer.m_price := 0;
     Pricer.NSteps := steps;
     Pricer.UpperCap := 0;
     Pricer.LowerCap := 0 |}.

Definition fixture_mis : MIS.t :=
  {| MIS.exact_price := 0; MIS.mean_price := 0; MIS.max_price := 0; MIS.min_price := 0;
     MIS.SD := 0; MIS.SE := 0; MIS.decision := false; MIS.elapsed_time := 0;
     MIS.start := 0; MIS.end_ := 0 |}.

(** ** Vocabulary of the statements *)

(** The body run [k] times from counter [i], the counter not wrapping. *)
Fixpoint iterate_from {St : Type} (k : nat) (body : Z -> St -> outcome St)
    (i : Z) (s : St) : outcome St :=
  match k with
  | O => Returned s
  | S k' => s' <- body i s ;; iterate_from k' body (i + 1)%Z s'
  end.

(** The engine [GeneralPricer] draws from: default-constructed, or a
    Mersenne Twister seeded with [NULL]. *)
Definition simulation_engine `{StdRandom} (engine_name : string) : engine :=
  if String.eqb engine_name "Mersenne Twister Engine" then mt19937 0 else default_engine.

(** The value of one path of case 1, from its one variate [z]. *)
Definition gbm_value (vol T VOld0 z : R) : R :=
  VOld0 * exp (sqrt (vol * vol * T) * z).

(** The value of a path of [n] steps from [S0], and the values of [k]
    successive paths, each on the next [n] variates of the engine. *)
Definition path_value `{StdRandom} (step : R -> R -> R) (n : nat) (S0 : R)
    (e : engine) : R :=
  fold_left step (draws n e) S0.

Fixpoint path_values `{StdRandom} (step : R -> R -> R) (n : nat) (S0 : R)
    (k : nat) (e : engine) : list R :=
  match k with
  | O => []
  | S k' => path_value step n S0 e :: path_values step n S0 k' (engine_after n e)
  end.

(** The one-step update of scheme 2 (Euler) or 3 (Milstein) with the time
    step [dt] and its square root, as [GeneralPricer] passes them. *)
Definition scheme_step (fdm : Z) (r vol dt : R) : R -> R -> R :=
  if (fdm =? 2)%Z then Pricer.euler_step r vol dt (sqrt dt)
  else Pricer.milstein_step r vol dt (sqrt dt).

(** A call that no amount of fuel brings to its return. *)
Definition never_returns {A : Type} (run : nat -> outcome A) : Prop :=
  forall (fuel : nat) (a : A), run fuel <> Returned a.

(** The sums behind [SD]: over the truncated payoffs. *)
Definition truncated_sums (option_prices : list R) : R * R :=
  fold_left (fun s x =>
               let '(sum, sum_sq) := s in
               (sum + IZR (Cxx.trunc x), sum_sq + Cxx.pow (IZR (Cxx.trunc x)) 2))
            option_prices (0, 0).

(** The pricer with another stored generator. *)
Definition with_rng (rng : RNGFunctionType) (p : Pricer.t) : Pricer.t :=
  Pricer.set_model_parameters
    {| mp_rng := rng; mp_fdm := mp_fdm (Pricer.model_parameters p);
       mp_payoff := mp_payoff (Pricer.model_parameters p) |} p.

Definition map_outcome {A B : Type} (h : A -> B) (o : outcome A) : outcome B :=
  a <- o ;; Returned (h a).

(** What a run hands on: the price and the two sample vectors. *)
Definition simulation_result (o : outcome (R * Pricer.t)) : outcome (R * list R * list R) :=
  map_outcome (fun '(price, p') => (price, Pricer.stock_flunct p', Pricer.option_prices p')) o.

(** The calls [Builder::run] makes on its pricer once [get] has set it up. *)
Inductive session_step `{StdRandom} : Pricer.t -> Pricer.t -> Prop :=
| step_GeneralPricer (fuel : nat) (p p' : Pricer.t) (price : R) :
    Pricer.GeneralPricer fuel p = Returned (price, p') -> session_step p p'
| step_output (p : Pricer.t) : session_step p (snd (Pricer.output p))
| step_ClearStockFlunctuationsVector (p : Pricer.t) :
    session_step p (Pricer.ClearStockFlunctuationsVector p)
| step_ClearTempOptionPriceVector (p : Pricer.t) :
    session_step p (Pricer.ClearTempOptionPriceVector p)
| step_setPayoffParameter (payoff : PayoffFunctionType) (name : string)
    (p p' : Pricer.t) :
    Pricer.setPayoffParameter payoff name p = Returned p' -> session_step p p'.

Inductive session `{StdRandom} (p0 : Pricer.t) : Pricer.t -> Prop :=
| session_start : session p0 p0
| session_next (p p' : Pricer.t) : session p0 p -> session_step p p' -> session p0 p'.

(** The sum of a vector, accumulated from the left as the loops do. *)
Definition total (v : list R) : R := fold_left Rplus v 0.

(** The Black-Scholes prices of a European call and a European put.  They
    stand for the values the program computes on a contract with positive
    volatility, expiry, spot and strike (a [regular_contract] below). *)
Definition black_scholes_d1 (od : OptionData) : R :=
  (ln (od_S od / od_K od) + (od_r od + od_vol od ^ 2 / 2) * od_T od)
  / (od_vol od * sqrt (od_T od)).

Definition black_scholes_d2 (od : OptionData) : R :=
  black_scholes_d1 od - od_vol od * sqrt (od_T od).

Definition black_scholes_call (od : OptionData) : R :=
  od_S od * Normal.cdf (black_scholes_d1 od)
  - od_K od * exp (- od_r od * od_T od) * Normal.cdf (black_scholes_d2 od).

Definition black_scholes_put (od : OptionData) : R :=
  od_K od * exp (- od_r od * od_T od) * Normal.cdf (- black_scholes_d2 od)
  - od_S od * Normal.cdf (- black_scholes_d1 od).

(** The asset values of a run that does all its paths: one variate a path
    under scheme 1, [NSteps + 1] variates a path under schemes 2 and 3. *)
Definition simulated_values `{StdRandom} (p : Pricer.t) (engine_name : string) : list R :=
  let od := Pricer.option_data p in
  let fdm := mp_fdm (Pricer.model_parameters p) in
  if (fdm =? 1)%Z
  then map (gbm_value (od_vol od) (od_T od)
              (FDM_SDE.GBM (od_S od) (od_T od) (od_vol od) (od_r od)))
           (draws (Z.to_nat (od_NSIM od)) (simulation_engine engine_name))
  else path_values
         (scheme_step fdm (od_r od) (od_vol od) (od_T od / IZR (Pricer.NSteps p)))
         (S (Z.to_nat (Pricer.NSteps p))) (od_S od)
         (Z.to_nat (od_NSIM od)) (simulation_engine engine_name).

(** The path counts and step counts on which the loops of a run end: they
    fit the [unsigned] counters, and the fuel covers the tests. *)
Definition run_fits (fuel : nat) (p : Pricer.t) : Prop :=
  let od := Pricer.option_data p in
  let fdm := mp_fdm (Pricer.model_parameters p) in
  ((fdm = 1%Z /\ (0 <= od_NSIM od < 2 ^ 32)%Z)
   \/ ((fdm = 2%Z \/ fdm = 3%Z) /\ (0 <= od_NSIM od < 2 ^ 32 - 1)%Z
       /\ (0 <= Pricer.NSteps p < 2 ^ 32 - 1)%Z
       /\ (S (Z.to_nat (Pricer.NSteps p)) < fuel)%nat))
  /\ (Z.to_nat (od_NSIM od) < fuel)%nat.

(** The contracts on which the Black-Scholes formulas divide by a positive
    [vol * sqrt T] and take the logarithm of a positive [S / K].  On the
    others the program computes with infinities and NaN, or Boost's [cdf]
    raises [std::domain_error]: the quotients of the reals do not stand for
    its values there, and no statement about the benchmark reaches them. *)
Definition regular_contract (od : OptionData) : Prop :=
  0 < od_vol od /\ 0 < od_T od /\ 0 < od_S od /\ 0 < od_K od.

(** The runs that use a time step [T / NSteps] with a positive divisor:
    those of scheme 1, which computes the step and leaves it unused, and
    those with at least one step. *)
Definition positive_steps (p : Pricer.t) : Prop :=
  mp_fdm (Pricer.model_parameters p) = 1%Z \/ (0 < Pricer.NSteps p)%Z.

(** A pricer that is ready for another iteration of the multi-pricing set
    up on [p0]: the contract, the scheme, the engine name and, under schemes
    2 and 3, the number of steps are those of [p0], there is a payoff name,
    and the sample vectors are empty. *)
Definition set_up_as (p0 p : Pricer.t) : Prop :=
  Pricer.option_data p = Pricer.option_data p0
  /\ mp_fdm (Pricer.model_parameters p) = mp_fdm (Pricer.model_parameters p0)
  /\ (mp_fdm (Pricer.model_parameters p0) <> 1%Z -> Pricer.NSteps p = Pricer.NSteps p0)
  /\ Pricer.stock_flunct p = []
  /\ Pricer.option_prices p = []
  /\ nth_error (Pricer.parameter_names p) 0 = nth_error (Pricer.parameter_names p0) 0
  /\ exists name : string, nth_error (Pricer.parameter_names p) 2 = Some name.

(** The mean, the maximum and the minimum as [ComputeStatistics] takes them
    of an asset sample. *)
Definition asset_statistics (values : list R) : R * R * R :=
  (fold_left (fun s y => s + IZR (Cxx.trunc y)) values 0 / IZR (MIS.size values),
   match values with
   | [] => 0
   | x :: rest => fold_left (fun largest y => if Rlt_dec largest y then y else largest) rest x
   end,
   match values with
   | [] => 0
   | x :: rest => fold_left (fun smallest y => if Rlt_dec y smallest then y else smallest) rest x
   end).

(** A [double] whose truncation is an [int]. *)
Definition int_valued (x : R) : Prop :=
  (Cxx.INT_MIN <= Cxx.trunc x <= Cxx.INT_MAX)%Z.

(** * Properties *)

(** ** Loops over an [unsigned] counter *)

Lemma wrap_unsigned_small (z : Z) :
  (0 <= z < 2 ^ 32)%Z -> Cxx.wrap_unsigned z = z.
Proof.
  intros Hz. unfold Cxx.wrap_unsigned, Cxx.UINT_WIDTH.
  apply Z.mod_small. exact Hz.
Qed.

Lemma wrap_unsigned_range (z : Z) : (0 <= Cxx.wrap_unsigned z < 2 ^ 32)%Z.
Proof.
  unfold Cxx.wrap_unsigned, Cxx.UINT_WIDTH. apply Z.mod_pos_bound. lia.
Qed.

(** A loop whose condition holds on [i, i + k) and fails at [i + k] runs its
    body [k] times, provided the counter stays below [2 ^ 32] and the fuel
    covers the [k + 1] tests. *)
Lemma for_unsigned_iterate {St : Type} (cond : Z -> bool) (body : Z -> St -> outcome St) :
  forall (k fuel : nat) (i : Z) (s : St),
    (0 <= i)%Z -> (i + Z.of_nat k < 2 ^ 32)%Z ->
    (forall j, (i <= j < i + Z.of_nat k)%Z -> cond j = true) ->
    cond (i + Z.of_nat k)%Z = false ->
    (k < fuel)%nat ->
    for_unsigned fuel cond body i s = iterate_from k body i s.
Proof.
  induction k as [|k IH]; intros fuel i s Hi Hmax Htrue Hfalse Hfuel.
  - destruct fuel as [|fuel]; [lia|]. simpl.
    rewrite Z.add_0_r in Hfalse. now rewrite Hfalse.
  - destruct fuel as [|fuel]; [lia|]. simpl.
    rewrite Htrue by lia.
    destruct (body i s) as [s'| | |]; simpl; try reflexivity.
    rewrite wrap_unsigned_small by lia.
    apply IH; try lia.
    + intros j Hj. apply Htrue. lia.
    + rewrite <- Hfalse. f_equal. lia.
Qed.

(** A loop whose condition holds for every value of the counter never returns. *)
Lemma for_unsigned_never_returns {St : Type} (cond : Z -> bool)
    (body : Z -> St -> outcome St) :
  (forall j, (0 <= j < 2 ^ 32)%Z -> cond j = true) ->
  forall (fuel : nat) (i : Z) (s s' : St),
    (0 <= i < 2 ^ 32)%Z -> for_unsigned fuel cond body i s <> Returned s'.
Proof.
  intros Hcond. induction fuel as [|fuel IH]; intros i s s' Hi; simpl.
  - discriminate.
  - rewrite Hcond by exact Hi.
    destruct (body i s) as [s1| | |]; simpl; try discriminate.
    apply IH. apply wrap_unsigned_range.
Qed.

Lemma bind_returned {A B : Type} (m : outcome A) (k : A -> outcome B) (b : B) :
  bind m k = Returned b -> exists a : A, m = Returned a /\ k a = Returned b.
Proof.
  destruct m as [a| | |]; simpl; try discriminate.
  intros Hk. exists a. split; [reflexivity | exact Hk].
Qed.

Lemma bind_thrown {A B : Type} (m : outcome A) (k : A -> outcome B) (e : exception) :
  bind m k = Thrown e ->
  m = Thrown e \/ exists a : A, m = Returned a /\ k a = Thrown e.
Proof.
  destruct m as [a|e'| |]; simpl; try discriminate.
  - intros Hk. right. exists a. split; [reflexivity | exact Hk].
  - intros [= ->]. left. reflexivity.
Qed.

(** What holds of the state before a loop and is kept by every run of its
    body holds when the loop returns. *)
Lemma for_unsigned_preserves {St : Type} (P : St -> Prop) (cond : Z -> bool)
    (body : Z -> St -> outcome St) :
  (forall i s s', P s -> body i s = Returned s' -> P s') ->
  forall (fuel : nat) (i : Z) (s s' : St),
    P s -> for_unsigned fuel cond body i s = Returned s' -> P s'.
Proof.
  intros Hbody. induction fuel as [|fuel IH]; intros i s s' Hs; simpl; [discriminate|].
  destruct (cond i).
  - intros Hrun. apply bind_returned in Hrun. destruct Hrun as [s1 [Hb Hrest]].
    exact (IH _ _ _ (Hbody _ _ _ Hs Hb) Hrest).
  - intros [= <-]. exact Hs.
Qed.

(** A loop raises nothing that its body does not raise. *)
Lemma for_unsigned_no_throw {St : Type} (cond : Z -> bool)
    (body : Z -> St -> outcome St) :
  (forall j s e, body j s <> Thrown e) ->
  forall (fuel : nat) (i : Z) (s : St) (e : exception),
    for_unsigned fuel cond body i s <> Thrown e.
Proof.
  intros Hbody. induction fuel as [|fuel IH]; intros i s e; simpl.
  - discriminate.
  - destruct (cond i); [|discriminate].
    destruct (body i s) as [s1|e1| |] eqn:Hb; simpl; try discriminate.
    + apply IH.
    + exfalso. exact (Hbody _ _ _ Hb).
Qed.

(** ** The schemes of FDM_SDE.hpp *)

Lemma Int_part_IZR (z : Z) : Int_part (IZR z) = z.
Proof. symmetry. apply Int_part_spec. lra. Qed.

(** [pow] at an integral exponent. *)
Lemma pow_IZR (x : R) (z : Z) : Cxx.pow x (IZR z) = powerRZ x z.
Proof.
  unfold Cxx.pow. rewrite Int_part_IZR.
  destruct (Req_EM_T (IZR z) (IZR z)) as [_ | Hneq]; [reflexivity | now elim Hneq].
Qed.

Lemma pow_0 (x : R) : Cxx.pow x 0 = 1.
Proof. rewrite pow_IZR. reflexivity. Qed.

Lemma pow_1 (x : R) : Cxx.pow x 1 = x.
Proof. rewrite pow_IZR. simpl. ring. Qed.

Lemma pow_2 (x : R) : Cxx.pow x 2 = x * x.
Proof. rewrite pow_IZR. simpl. ring. Qed.

Lemma diffusion_linear (vol V : R) : FDM_SDE.diffusion vol V = vol * V.
Proof. unfold FDM_SDE.diffusion. cbv zeta. rewrite pow_1. reflexivity. Qed.

Lemma diffusion_derivative_linear (vol V : R) :
  FDM_SDE.diffusion_derivative vol V = 0.5 * vol * V.
Proof.
  unfold FDM_SDE.diffusion_derivative. cbv zeta.
  replace (2 * 1 - 1) with 1 by ring. rewrite pow_1. ring.
Qed.

(** C7, as the spec states it, fails: at volatility 1 and asset value 2 the
    diffusion derivative of the code is 1, not [0.5 * 1 * 2^0 = 0.5]; it
    depends on the asset value. *)
Lemma C7_diffusion_derivative_depends_on_V :
  FDM_SDE.diffusion_derivative 1 2 <> 0.5 * 1 * Cxx.pow 2 0.
Proof.
  rewrite diffusion_derivative_linear, pow_0. lra.
Qed.

(** C7, amended: the Milstein update is the Euler update plus the correction
    [0.5 * diffusion * diffusion' * ((sqrt dt * Z)^2 - dt)], and the
    diffusion derivative the code uses is [0.5 * sigma * V^(2*1 - 1)], that
    is [0.5 * sigma * V]: linear in the asset value. *)
Theorem C7_milstein_is_euler_plus_correction (r sigma dt V Z : R) :
  Pricer.milstein_step r sigma dt (sqrt dt) V Z
  = Pricer.euler_step r sigma dt (sqrt dt) V Z
    + 0.5 * FDM_SDE.diffusion sigma V * FDM_SDE.diffusion_derivative sigma V
      * ((sqrt dt * Z) ^ 2 - dt)
  /\ FDM_SDE.diffusion_derivative sigma V = 0.5 * sigma * V ^ 1
  /\ FDM_SDE.diffusion_derivative sigma V = 0.5 * sigma * V.
Proof.
  split; [|split].
  - unfold Pricer.milstein_step, Pricer.euler_step. rewrite pow_2. ring.
  - rewrite diffusion_derivative_linear. ring.
  - apply diffusion_derivative_linear.
Qed.

(** ** MIS::DecisionMaking *)

(** C3: the decision flag is true exactly when [|b - p| < 0.01]; at
    [|b - p| = 0.01] it is false. *)
Theorem C3_decision_strict_threshold (pricer_res : PricerOutputMIS) (m : MIS.t) :
  (MIS.decision (MIS.DecisionMaking pricer_res m) = true
   <-> Rabs (MIS.exact_price m - mis_price pricer_res) < 0.01)
  /\ (Rabs (MIS.exact_price m - mis_price pricer_res) = 0.01 ->
      MIS.decision (MIS.DecisionMaking pricer_res m) = false).
Proof.
  unfold MIS.DecisionMaking.
  destruct (Rlt_dec (Rabs (MIS.exact_price m - mis_price pricer_res)) 0.01) as [Hlt|Hge];
    simpl; split.
  - split; [intros _; exact Hlt | reflexivity].
  - intros Heq. lra.
  - split; [discriminate | intros Hlt; contradiction].
  - reflexivity.
Qed.

(** The boundary case on a benchmark of 0.01 and an estimate of 0. *)
Lemma C3_decision_boundary_witness :
  MIS.decision
    (MIS.DecisionMaking
       {| mis_price := 0;
          mis_option_data := {| od_vol := 0.3; od_r := 0.08; od_T := 0.25; od_S := 60;
                                od_K := 65; od_NSIM := 1 |};
          mis_stock_flunct := []; mis_option_prices := []; mis_names := [] |}
       (MIS.set_exact_price 0.01 fixture_mis)) = false.
Proof.
  apply (proj2 (C3_decision_strict_threshold _ _)).
  simpl. rewrite Rminus_0_r. apply Rabs_pos_eq. lra.
Defined.

(** The decision leaves every other statistic as it was. *)
Lemma DecisionMaking_frame (pricer_res : PricerOutputMIS) (m : MIS.t) :
  MIS.set_decision (MIS.decision m) (MIS.DecisionMaking pricer_res m)
  = MIS.set_decision (MIS.decision m) m.
Proof.
  unfold MIS.DecisionMaking.
  destruct (Rlt_dec _ _); reflexivity.
Qed.

(** ** MIS::ExactPrice *)

(** The distribution function is symmetric about the origin. *)
Lemma cdf_symmetry (x : R) : Normal.cdf x + Normal.cdf (- x) = 1.
Proof.
  unfold Normal.cdf.
  replace (- x * - x) with (x * x) by ring.
  set (u := Normal.series (x * x)).
  set (c := sqrt (2 * PI)).
  unfold Rdiv.
  replace (- x * u * / c) with (- (x * u * / c)) by ring.
  lra.
Qed.

Lemma cdf_0 : Normal.cdf 0 = 0.5.
Proof. unfold Normal.cdf, Rdiv. rewrite !Rmult_0_l. lra. Qed.

(** The series starts at 1: its sum at 0 is its first coefficient. *)
Lemma series_0 : Normal.series 0 = 1.
Proof.
  unfold Normal.series.
  destruct (Normal.series_exists 0) as [l Hl]. simpl.
  apply (uniqueness_sum (fun n => Normal.series_coef n * 0 ^ n)); [exact Hl|].
  intros eps Heps. exists O. intros n _.
  assert (Hsum : sum_f_R0 (fun k => Normal.series_coef k * 0 ^ k) n = 1).
  { induction n as [|n IHn].
    - simpl. unfold Normal.series_coef, Normal.series_den. simpl. field.
    - simpl sum_f_R0. rewrite IHn. simpl pow. ring. }
  rewrite Hsum. unfold Rdist. rewrite Rminus_diag, Rabs_R0. exact Heps.
Qed.

Lemma exact_price_set (x : R) (m : MIS.t) :
  MIS.exact_price (MIS.set_exact_price x m) = x.
Proof. reflexivity. Qed.

(** C8: on one set of contract parameters the Call branch and the Put branch
    of [ExactPrice] satisfy put-call parity. *)
Theorem C8_put_call_parity (pr_call pr_put : PricerOutputMIS)
    (name_call name_put : string) (m_call m_put : MIS.t) :
  let od := mis_option_data pr_call in
  mis_option_data pr_put = od ->
  od_vol od > 0 -> od_T od > 0 -> od_S od > 0 -> od_K od > 0 -> od_r od >= 0 ->
  nth_error (mis_names pr_call) 2 = Some name_call ->
  Regex.match_any_Call name_call = true ->
  nth_error (mis_names pr_put) 2 = Some name_put ->
  Regex.match_any_Call name_put = false ->
  exists call put : MIS.t,
    MIS.ExactPrice pr_call m_call = Returned (0%Z, call)
    /\ MIS.ExactPrice pr_put m_put = Returned (0%Z, put)
    /\ MIS.exact_price call - MIS.exact_price put
       = od_S od - od_K od * exp (- od_r od * od_T od).
Proof.
  intros od Hod _ _ _ _ _ Hnc Hc Hnp Hp.
  unfold MIS.ExactPrice, subscript.
  rewrite Hnc, Hnp, Hod. fold od.
  cbv beta iota zeta delta [bind]. rewrite Hc, Hp.
  eexists. eexists. split; [reflexivity|]. split; [reflexivity|].
  rewrite !exact_price_set.
  set (d1 := (ln (od_S od / od_K od) + (od_r od + Cxx.pow (od_vol od) 2 / 2) * od_T od)
             / (od_vol od * sqrt (od_T od))).
  set (d2 := d1 - od_vol od * sqrt (od_T od)).
  replace ((od_r od - od_r od) * od_T od) with 0 by ring.
  rewrite exp_0.
  pose proof (cdf_symmetry d1) as H1.
  pose proof (cdf_symmetry d2) as H2.
  set (D := od_K od * exp (- od_r od * od_T od)) in *.
  replace (Normal.cdf (- d1)) with (1 - Normal.cdf d1) by lra.
  replace (Normal.cdf (- d2)) with (1 - Normal.cdf d2) by lra.
  ring.
Qed.

(** Parity on the contract of the test program: volatility 0.3, rate 0.08,
    expiry 0.25, spot 60, strike 65. *)
Lemma C8_put_call_parity_witness :
  let od := test_contract 100000 in
  let pr name := {| mis_price := 0; mis_option_data := od; mis_stock_flunct := [];
                    mis_option_prices := []; mis_names := fixture_names 2 name |} in
  exists call put : MIS.t,
    MIS.ExactPrice (pr "European Call"%string) fixture_mis = Returned (0%Z, call)
    /\ MIS.ExactPrice (pr "European Put"%string) fixture_mis = Returned (0%Z, put)
    /\ MIS.exact_price call - MIS.exact_price put
       = od_S od - od_K od * exp (- od_r od * od_T od).
Proof.
  intros od pr.
  refine (C8_put_call_parity (pr "European Call"%string) (pr "European Put"%string)
            "European Call"%string "European Put"%string fixture_mis fixture_mis
            _ _ _ _ _ _ _ _ _ _);
    simpl; try reflexivity; lra.
Defined.

(** ** Pricer::GeneralPricer, case 1: geometric Brownian motion *)

(** The closed form behind case 1: [FDM_SDE::GBM] times the factor of one
    path. *)
Lemma gbm_closed_form (S0 T sigma r Z : R) :
  0 <= sigma -> 0 <= T ->
  FDM_SDE.GBM S0 T sigma r * exp (sqrt (sigma * sigma * T) * Z)
  = S0 * exp ((r - sigma ^ 2 / 2) * T + sigma * sqrt T * Z).
Proof.
  intros Hsigma HT. unfold FDM_SDE.GBM.
  rewrite sqrt_mult by nra.
  rewrite sqrt_square by exact Hsigma.
  rewrite Rmult_assoc, <- exp_plus.
  do 2 f_equal. lra.
Qed.

Section GBMLoop.

Context `{StdRandom}.
Variables (vol T K : R) (NSIM : Z) (option_payoff : PayoffFunctionType) (VOld0 : R).

(** [k] runs of the body of the path loop append the values and the payoffs
    of the next [k] variates, one variate a path. *)
Lemma gbm_paths (k : nat) :
  forall (i : Z) (p : Pricer.t) (l : Pricer.locals),
  exists l' : Pricer.locals,
    iterate_from k (Pricer.gbm_path vol T K NSIM option_payoff VOld0) i (p, l)
    = Returned
        (Pricer.set_option_prices
           (Pricer.option_prices p
            ++ map (fun z => option_payoff K (gbm_value vol T VOld0 z)) (draws k (Pricer.eng l)))
           (Pricer.set_stock_flunct
              (Pricer.stock_flunct p ++ map (gbm_value vol T VOld0) (draws k (Pricer.eng l))) p),
         l')
    /\ Pricer.eng l' = engine_after k (Pricer.eng l).
Proof.
  induction k as [|k IH]; intros i p l.
  - exists l. simpl. rewrite !app_nil_r. destruct p; split; reflexivity.
  - simpl iterate_from. unfold Pricer.gbm_path at 1.
    destruct (normal (Pricer.eng l)) as [z e'] eqn:Hdraw.
    cbv beta iota zeta delta [bind].
    edestruct (IH (i + 1)%Z) as [l' [Hrun Heng]].
    exists l'. split.
    + etransitivity; [exact Hrun|].
      simpl draws. rewrite Hdraw. unfold Pricer.push_back. simpl.
      rewrite <- !app_assoc. reflexivity.
    + rewrite Heng. simpl. rewrite Hdraw. reflexivity.
Qed.

End GBMLoop.

(** A run of case 1 that returns: [NSIM] fits the [unsigned] counter of the
    path loop and the fuel covers its tests. *)
Lemma GeneralPricer_gbm `{StdRandom} (fuel : nat) (p : Pricer.t)
    (engine_name payoff_name : string) :
  let od := Pricer.option_data p in
  let zs := draws (Z.to_nat (od_NSIM od)) (simulation_engine engine_name) in
  let value := gbm_value (od_vol od) (od_T od)
                 (FDM_SDE.GBM (od_S od) (od_T od) (od_vol od) (od_r od)) in
  nth_error (Pricer.parameter_names p) 0 = Some engine_name ->
  nth_error (Pricer.parameter_names p) 2 = Some payoff_name ->
  mp_fdm (Pricer.model_parameters p) = 1%Z ->
  (0 <= od_NSIM od < 2 ^ 32)%Z ->
  (Z.to_nat (od_NSIM od) < fuel)%nat ->
  exists price : R,
    Pricer.GeneralPricer fuel p
    = Returned
        (price,
         Pricer.set_m_price price
           (Pricer.set_option_prices
              (Pricer.option_prices p
               ++ map (fun z => mp_payoff (Pricer.model_parameters p) (od_K od) (value z)) zs)
              (Pricer.set_stock_flunct (Pricer.stock_flunct p ++ map value zs) p))).
Proof.
  intros od zs value Hn0 Hn2 Hfdm HNSIM Hfuel. subst od zs value.
  set (od := Pricer.option_data p) in *.
  unfold Pricer.GeneralPricer, subscript.
  rewrite Hn0, Hn2, Hfdm. cbv beta iota zeta delta [bind]. fold od.
  rewrite (for_unsigned_iterate _ _ (Z.to_nat (od_NSIM od))); try lia.
  - match goal with
    | |- context [iterate_from _ ?body _ (p, ?l0)] =>
        destruct (gbm_paths (od_vol od) (od_T od) (od_K od) (od_NSIM od)
                    (mp_payoff (Pricer.model_parameters p))
                    (FDM_SDE.GBM (od_S od) (od_T od) (od_vol od) (od_r od))
                    (Z.to_nat (od_NSIM od)) 0%Z p l0) as [l' [Hrun _]]
    end.
    rewrite Hrun. eexists. reflexivity.
  - apply Z.ltb_ge. lia.
Qed.

(** On a run of case 1 the flag of the time-discretized schemes keeps its
    value. *)
Lemma GeneralPricer_gbm_explicit_euler `{StdRandom} (fuel : nat) (p p' : Pricer.t)
    (price : R) :
  mp_fdm (Pricer.model_parameters p) = 1%Z ->
  Pricer.GeneralPricer fuel p = Returned (price, p') ->
  Pricer.explicit_euler p' = Pricer.explicit_euler p.
Proof.
  intros Hfdm. unfold Pricer.GeneralPricer, subscript.
  destruct (nth_error (Pricer.parameter_names p) 2); [|discriminate].
  destruct (nth_error (Pricer.parameter_names p) 0); [|discriminate].
  rewrite Hfdm. cbv beta iota zeta delta [bind].
  match goal with
  | |- context [for_unsigned fuel ?c ?b 0%Z (p, ?l0)] =>
      assert (Hinv : forall f i q l q' l',
                 for_unsigned f c b i (q, l) = Returned (q', l') ->
                 Pricer.explicit_euler q' = Pricer.explicit_euler q);
      [| destruct (for_unsigned fuel c b 0%Z (p, l0)) as [[q' l']| | |] eqn:Hloop;
         try discriminate ]
  end.
  - induction f as [|f IH]; intros i q l q' l'; simpl; [discriminate|].
    destruct (_ <? _)%Z.
    + unfold Pricer.gbm_path at 1. destruct (normal (Pricer.eng l)) as [z e'].
      cbv beta iota zeta delta [bind]. intros Hrun.
      apply IH in Hrun. exact Hrun.
    + intros [= <- <-]. reflexivity.
  - intros [= _ <-]. apply Hinv in Hloop. exact Hloop.
Qed.

Lemma draws_snoc `{StdRandom} (k : nat) :
  forall e : engine,
    draws (S k) e = draws k e ++ [fst (normal (engine_after k e))].
Proof.
  induction k as [|k IH]; intros e; [reflexivity|].
  change (draws (S (S k)) e) with (fst (normal e) :: draws (S k) (snd (normal e))).
  rewrite IH. reflexivity.
Qed.

Lemma engine_after_snoc `{StdRandom} (k : nat) :
  forall e : engine, engine_after (S k) e = snd (normal (engine_after k e)).
Proof.
  induction k as [|k IH]; intros e; [reflexivity|].
  change (engine_after (S (S k)) e) with (engine_after (S k) (snd (normal e))).
  rewrite IH. reflexivity.
Qed.

(** Whenever a run of case 1 returns, the values it has appended are those
    of the first variates of the engine, one variate a path. *)
Lemma GeneralPricer_gbm_returned `{StdRandom} (fuel : nat) (p p' : Pricer.t)
    (price : R) (engine_name : string) :
  let od := Pricer.option_data p in
  let value := gbm_value (od_vol od) (od_T od)
                 (FDM_SDE.GBM (od_S od) (od_T od) (od_vol od) (od_r od)) in
  mp_fdm (Pricer.model_parameters p) = 1%Z ->
  nth_error (Pricer.parameter_names p) 0 = Some engine_name ->
  Pricer.GeneralPricer fuel p = Returned (price, p') ->
  exists k : nat,
    Pricer.stock_flunct p'
    = Pricer.stock_flunct p ++ map value (draws k (simulation_engine engine_name)).
Proof.
  intros od value Hfdm Hn0. subst od value.
  unfold Pricer.GeneralPricer, subscript. rewrite Hn0, Hfdm.
  destruct (nth_error (Pricer.parameter_names p) 2); [|discriminate].
  cbv beta iota zeta delta [bind].
  fold (@bind (Pricer.t * Pricer.locals) (R * Pricer.t)).
  fold (simulation_engine engine_name).
  set (od := Pricer.option_data p).
  set (value := gbm_value (od_vol od) (od_T od)
                  (FDM_SDE.GBM (od_S od) (od_T od) (od_vol od) (od_r od))).
  set (P := fun s : Pricer.t * Pricer.locals =>
              exists k : nat,
                Pricer.stock_flunct (fst s)
                = Pricer.stock_flunct p
                  ++ map value (draws k (simulation_engine engine_name))
                /\ Pricer.eng (snd s) = engine_after k (simulation_engine engine_name)).
  intros Hrun. apply bind_returned in Hrun.
  destruct Hrun as [[q l] [Hloop Hret]]. injection Hret as _ <-.
  assert (HP : P (q, l)).
  { revert Hloop. apply for_unsigned_preserves.
    - intros i [q1 l1] [q2 l2] [k [Hstock Heng]]. unfold Pricer.gbm_path.
      destruct (normal (Pricer.eng l1)) as [z e'] eqn:Hdraw.
      intros [= <- <-]. exists (S k). cbn [fst snd Pricer.eng] in *.
      rewrite draws_snoc, engine_after_snoc, <- Heng, Hdraw, map_app, app_assoc.
      cbn [fst snd Pricer.stock_flunct Pricer.set_option_prices Pricer.set_stock_flunct
           Pricer.push_back map].
      rewrite <- Hstock. split; reflexivity.
    - exists O. simpl. rewrite app_nil_r. split; reflexivity. }
  destruct HP as [k [Hstock _]]. exists k. exact Hstock.
Qed.

(** C1: under scheme 1 the value recorded for a path is
    [S * exp ((r - sigma^2/2) * T + sigma * sqrt T * Z)] for the one variate
    [Z] drawn for that path (the product of [FDM_SDE::GBM] and the factor of
    the path), no time step is taken, and [output] reports [NSteps] as 0.
    The pricer is one that has run no time-discretized scheme (the flag
    [explicit_euler] has its initial value), as every pricer that
    [Builder::run] sets up for scheme 1 is.  The statement has three parts:
    the product is the closed form; whenever the call returns, the values it
    appended are the closed form of the first variates of the engine, one a
    path, and [NSteps] is reported as 0; and the call does return, all
    [NSIM] paths done, when [NSIM] fits the [unsigned] counter. *)
Theorem C1_gbm_terminal_value `{StdRandom} (p : Pricer.t)
    (engine_name payoff_name : string) :
  let od := Pricer.option_data p in
  let terminal := fun Z : R =>
    od_S od * exp ((od_r od - od_vol od ^ 2 / 2) * od_T od
                   + od_vol od * sqrt (od_T od) * Z) in
  let eng0 := simulation_engine engine_name in
  mp_fdm (Pricer.model_parameters p) = 1%Z ->
  Pricer.explicit_euler p = false ->
  0 <= od_vol od -> 0 <= od_T od ->
  nth_error (Pricer.parameter_names p) 0 = Some engine_name ->
  nth_error (Pricer.parameter_names p) 2 = Some payoff_name ->
  (forall Z : R,
     FDM_SDE.GBM (od_S od) (od_T od) (od_vol od) (od_r od)
     * exp (sqrt (od_vol od * od_vol od * od_T od) * Z) = terminal Z)
  /\ (forall (fuel : nat) (price : R) (p' : Pricer.t),
        Pricer.GeneralPricer fuel p = Returned (price, p') ->
        (exists k : nat,
           Pricer.stock_flunct p' = Pricer.stock_flunct p ++ map terminal (draws k eng0))
        /\ res_NSteps (fst (Pricer.output p')) = 0%Z
        /\ Pricer.NSteps (snd (Pricer.output p')) = 0%Z)
  /\ ((0 <= od_NSIM od < 2 ^ 32)%Z ->
      forall fuel : nat,
        (Z.to_nat (od_NSIM od) < fuel)%nat ->
        exists (price : R) (p' : Pricer.t),
          Pricer.GeneralPricer fuel p = Returned (price, p')
          /\ Pricer.stock_flunct p'
             = Pricer.stock_flunct p
               ++ map terminal (draws (Z.to_nat (od_NSIM od)) eng0)).
Proof.
  intros od terminal eng0 Hfdm Hflag Hvol HT Hn0 Hn2.
  assert (Hvalue : forall Z : R,
             gbm_value (od_vol od) (od_T od)
               (FDM_SDE.GBM (od_S od) (od_T od) (od_vol od) (od_r od)) Z = terminal Z).
  { intros Z. unfold gbm_value, terminal. apply gbm_closed_form; assumption. }
  split; [exact Hvalue|]. split.
  - intros fuel price p' Hrun.
    pose proof (GeneralPricer_gbm_explicit_euler _ _ _ _ Hfdm Hrun) as Hflag'.
    rewrite Hflag in Hflag'.
    destruct (GeneralPricer_gbm_returned _ _ _ _ _ Hfdm Hn0 Hrun) as [k Hstock].
    split; [|unfold Pricer.output; rewrite Hflag'; split; reflexivity].
    exists k. rewrite Hstock. f_equal. apply map_ext. exact Hvalue.
  - intros HNSIM fuel Hfuel.
    destruct (GeneralPricer_gbm fuel p engine_name payoff_name Hn0 Hn2 Hfdm HNSIM Hfuel)
      as [price Hrun].
    eexists. eexists. split; [exact Hrun|].
    simpl. f_equal. apply map_ext. exact Hvalue.
Qed.

(** Two paths on the contract of the test program, the variates 0 and 1. *)
Lemma C1_gbm_terminal_value_witness :
  exists (price : R) (p' : Pricer.t),
    Pricer.GeneralPricer (H := counting_random) 3
      (fixture_pricer (test_contract 2) 1 "European Put" 0)
    = Returned (price, p')
    /\ Pricer.stock_flunct p'
       = [60 * exp ((0.08 - 0.3 ^ 2 / 2) * 0.25 + 0.3 * sqrt 0.25 * 0);
          60 * exp ((0.08 - 0.3 ^ 2 / 2) * 0.25 + 0.3 * sqrt 0.25 * 1)]
    /\ res_NSteps (fst (Pricer.output p')) = 0%Z.
Proof.
  destruct (C1_gbm_terminal_value (H := counting_random)
              (fixture_pricer (test_contract 2) 1 "European Put" 0)
              "Default Random Engine" "European Put")
    as (_ & Hreturned & Hruns); try reflexivity; simpl; try lra.
  destruct (Hruns ltac:(simpl; lia) 3%nat ltac:(simpl; lia))
    as (price & p' & Hrun & Hstock).
  exists price, p'. split; [exact Hrun|]. split; [exact Hstock|].
  exact (proj1 (proj2 (Hreturned _ _ _ Hrun))).
Defined.

(** ** Pricer::GeneralPricer, cases 2 and 3: time-discretized schemes *)

(** The indicator read by the loops is false whatever the payoff is called. *)
Lemma asian_indicator_false (payoff_name : string) :
  Pricer.asian_indicator payoff_name = false.
Proof. reflexivity. Qed.

Lemma path_values_length `{StdRandom} (step : R -> R -> R) (n : nat) (S0 : R) (k : nat) :
  forall e : engine, List.length (path_values step n S0 k e) = k.
Proof.
  induction k as [|k IH]; intros e; simpl; [reflexivity | now rewrite IH].
Qed.

Lemma draws_length `{StdRandom} (k : nat) :
  forall e : engine, List.length (draws k e) = k.
Proof.
  induction k as [|k IH]; intros e; simpl; [reflexivity | now rewrite IH].
Qed.

Section DiscretizedLoop.

Context `{StdRandom}.
Variables (S0 K : R) (option_payoff : PayoffFunctionType) (steps : Z)
          (step : R -> R -> R).

(** The time loop without averaging: [k + 1] steps leave the value of the
    path in both [VOld] and [VNew]. *)
Lemma time_steps (k : nat) :
  forall (j : Z) (l : Pricer.locals),
    iterate_from (S k) (Pricer.time_step false step) j l
    = Returned {| Pricer.eng := engine_after (S k) (Pricer.eng l);
                  Pricer.VOld := path_value step (S k) (Pricer.VOld l) (Pricer.eng l);
                  Pricer.VNew := path_value step (S k) (Pricer.VOld l) (Pricer.eng l);
                  Pricer.price := Pricer.price l;
                  Pricer.average_price := Pricer.average_price l |}.
Proof.
  induction k as [|k IH]; intros j l.
  - simpl. unfold Pricer.time_step.
    destruct (normal (Pricer.eng l)) as [z e'] eqn:Hdraw.
    unfold path_value. simpl. rewrite Hdraw. reflexivity.
  - change (iterate_from (S (S k)) (Pricer.time_step false step) j l)
      with (l1 <- Pricer.time_step false step j l ;;
            iterate_from (S k) (Pricer.time_step false step) (j + 1)%Z l1).
    unfold Pricer.time_step at 1.
    destruct (normal (Pricer.eng l)) as [z e'] eqn:Hdraw.
    cbv beta iota zeta delta [bind]. rewrite IH.
    unfold path_value.
    change (draws (S (S k)) (Pricer.eng l))
      with (fst (normal (Pricer.eng l)) :: draws (S k) (snd (normal (Pricer.eng l)))).
    change (engine_after (S (S k)) (Pricer.eng l))
      with (engine_after (S k) (snd (normal (Pricer.eng l)))).
    rewrite Hdraw. reflexivity.
Qed.

Hypothesis steps_fit : (0 <= steps < 2 ^ 32 - 1)%Z.

(** One run of the body of the path loop, when the fuel covers the time
    loop: [steps + 1] time steps from [S0], then the payoff of the value
    reached. *)
Lemma discretized_path_value (fuel : nat) (i : Z) (p : Pricer.t) (l : Pricer.locals) :
  (S (Z.to_nat steps) < fuel)%nat ->
  let n := S (Z.to_nat steps) in
  let V := path_value step n S0 (Pricer.eng l) in
  Pricer.discretized_path S0 K option_payoff false steps fuel step i (p, l)
  = Returned
      (Pricer.set_option_prices (Pricer.option_prices p ++ [option_payoff K V])
         (Pricer.set_stock_flunct (Pricer.stock_flunct p ++ [V]) p),
       {| Pricer.eng := engine_after n (Pricer.eng l);
          Pricer.VOld := V; Pricer.VNew := V;
          Pricer.price := Pricer.price l + option_payoff K V;
          Pricer.average_price := Pricer.average_price l |}).
Proof.
  intros Hfuel n V. subst n V. unfold Pricer.discretized_path.
  rewrite (for_unsigned_iterate _ _ (S (Z.to_nat steps))); try lia.
  - rewrite time_steps. reflexivity.
  - apply Z.leb_gt. lia.
Qed.

(** [k] runs of the body of the path loop. *)
Lemma discretized_paths (fuel : nat) (k : nat) :
  (S (Z.to_nat steps) < fuel)%nat ->
  let n := S (Z.to_nat steps) in
  forall (i : Z) (p : Pricer.t) (l : Pricer.locals),
  exists l' : Pricer.locals,
    iterate_from k (Pricer.discretized_path S0 K option_payoff false steps fuel step)
      i (p, l)
    = Returned
        (Pricer.set_option_prices
           (Pricer.option_prices p
            ++ map (option_payoff K) (path_values step n S0 k (Pricer.eng l)))
           (Pricer.set_stock_flunct
              (Pricer.stock_flunct p ++ path_values step n S0 k (Pricer.eng l)) p),
         l').
Proof.
  intros Hfuel n. subst n. induction k as [|k IH]; intros i p l.
  - exists l. simpl. rewrite !app_nil_r. destruct p; reflexivity.
  - cbn [iterate_from]. rewrite discretized_path_value by exact Hfuel.
    cbv beta iota zeta delta [bind].
    edestruct (IH (i + 1)%Z) as [l' Hrun].
    exists l'. etransitivity; [exact Hrun|].
    simpl. rewrite <- !app_assoc. reflexivity.
Qed.

End DiscretizedLoop.

(** A run of case 2 or 3 that returns: [NSIM] and [NSteps] fit the
    [unsigned] counters of the two loops and the fuel covers their tests. *)
Lemma GeneralPricer_discretized `{StdRandom} (fuel : nat) (p : Pricer.t)
    (engine_name payoff_name : string) :
  let od := Pricer.option_data p in
  let fdm := mp_fdm (Pricer.model_parameters p) in
  let step := scheme_step fdm (od_r od) (od_vol od) (od_T od / IZR (Pricer.NSteps p)) in
  let values := path_values step (S (Z.to_nat (Pricer.NSteps p))) (od_S od)
                  (Z.to_nat (od_NSIM od)) (simulation_engine engine_name) in
  nth_error (Pricer.parameter_names p) 0 = Some engine_name ->
  nth_error (Pricer.parameter_names p) 2 = Some payoff_name ->
  fdm = 2%Z \/ fdm = 3%Z ->
  (0 <= od_NSIM od < 2 ^ 32 - 1)%Z ->
  (0 <= Pricer.NSteps p < 2 ^ 32 - 1)%Z ->
  (Z.to_nat (od_NSIM od) < fuel)%nat ->
  (S (Z.to_nat (Pricer.NSteps p)) < fuel)%nat ->
  exists price : R,
    Pricer.GeneralPricer fuel p
    = Returned
        (price,
         Pricer.set_m_price price
           (Pricer.set_option_prices
              (Pricer.option_prices p
               ++ map (mp_payoff (Pricer.model_parameters p) (od_K od)) values)
              (Pricer.set_stock_flunct (Pricer.stock_flunct p ++ values)
                 (Pricer.set_explicit_euler true p)))).
Proof.
  intros od fdm step values Hn0 Hn2 Hfdm HNSIM Hsteps Hfuel Hfuel'.
  subst values step fdm od.
  set (od := Pricer.option_data p) in *.
  unfold Pricer.GeneralPricer, subscript.
  rewrite Hn0, Hn2.
  cbv beta iota zeta delta [bind]. fold od.
  rewrite !asian_indicator_false.
  change (Pricer.NSteps (Pricer.set_explicit_euler true p)) with (Pricer.NSteps p).
  destruct Hfdm as [Hfdm | Hfdm]; rewrite Hfdm;
    (rewrite (for_unsigned_iterate _ _ (Z.to_nat (od_NSIM od))); try lia;
     [ match goal with
       | |- context [iterate_from _ (Pricer.discretized_path _ _ _ _ _ _ ?step) _ (?q, ?l0)] =>
           destruct (discretized_paths (od_S od) (od_K od)
                       (mp_payoff (Pricer.model_parameters p)) (Pricer.NSteps p) step
                       Hsteps fuel (Z.to_nat (od_NSIM od)) Hfuel' 1%Z q l0) as [l' Hrun]
       end;
       rewrite Hrun; eexists; reflexivity
     | apply Z.leb_gt; lia ]).
Qed.

(** ** One sample pair a path *)



Lemma two_32 : (2 ^ 32 = 4294967296)%Z.
Proof. reflexivity. Qed.

(** C10 where the counters reach their bounds: from empty sample vectors,
    under scheme 1 with [NSIM < 2^32], or under scheme 2 or 3 with
    [NSIM < 2^32 - 1] and [NSteps < 2^32 - 1], the call returns; the two
    vectors handed to MIS hold [NSIM] elements each, and the payoff at every
    index is the payoff of the asset value recorded at that index. *)
Theorem C10_one_sample_pair_per_path `{StdRandom} (fuel : nat) (p : Pricer.t)
    (engine_name payoff_name : string) :
  let od := Pricer.option_data p in
  let fdm := mp_fdm (Pricer.model_parameters p) in
  let option_payoff := mp_payoff (Pricer.model_parameters p) in
  Pricer.stock_flunct p = [] ->
  Pricer.option_prices p = [] ->
  nth_error (Pricer.parameter_names p) 0 = Some engine_name ->
  nth_error (Pricer.parameter_names p) 2 = Some payoff_name ->
  (fdm = 1%Z /\ (0 <= od_NSIM od < 2 ^ 32)%Z)
  \/ ((fdm = 2%Z \/ fdm = 3%Z) /\ (0 <= od_NSIM od < 2 ^ 32 - 1)%Z
      /\ (0 <= Pricer.NSteps p < 2 ^ 32 - 1)%Z
      /\ (S (Z.to_nat (Pricer.NSteps p)) < fuel)%nat) ->
  (Z.to_nat (od_NSIM od) < fuel)%nat ->
  exists (price : R) (p' : Pricer.t),
    Pricer.GeneralPricer fuel p = Returned (price, p')
    /\ Z.of_nat (List.length (mis_stock_flunct (Pricer.MIS_output p'))) = od_NSIM od
    /\ Z.of_nat (List.length (mis_option_prices (Pricer.MIS_output p'))) = od_NSIM od
    /\ mis_option_prices (Pricer.MIS_output p')
       = map (option_payoff (od_K od)) (mis_stock_flunct (Pricer.MIS_output p'))
    /\ forall (i : nat) (V : R),
         nth_error (mis_stock_flunct (Pricer.MIS_output p')) i = Some V ->
         nth_error (mis_option_prices (Pricer.MIS_output p')) i
         = Some (option_payoff (od_K od) V).
Proof.
  intros od fdm option_payoff Hstock Hprices Hn0 Hn2 Hcase Hfuel.
  assert (Hrun : exists (price : R) (values : list R),
             Pricer.GeneralPricer fuel p
             = Returned
                 (price,
                  Pricer.set_m_price price
                    (Pricer.set_option_prices (map (option_payoff (od_K od)) values)
                       (Pricer.set_stock_flunct values
                          (if (fdm =? 1)%Z then p else Pricer.set_explicit_euler true p))))
             /\ List.length values = Z.to_nat (od_NSIM od)).
  { destruct Hcase as [[Hfdm HNSIM] | (Hfdm & HNSIM & Hsteps & Hfuel')].
    - destruct (GeneralPricer_gbm fuel p engine_name payoff_name Hn0 Hn2 Hfdm HNSIM Hfuel)
        as [price Hrun].
      rewrite Hstock, Hprices in Hrun. simpl app in Hrun.
      exists price. eexists. split.
      + rewrite Hrun. fold fdm. rewrite Hfdm. simpl. rewrite map_map. reflexivity.
      + rewrite length_map. apply draws_length.
    - destruct (GeneralPricer_discretized fuel p engine_name payoff_name
                  Hn0 Hn2 Hfdm HNSIM Hsteps Hfuel Hfuel') as [price Hrun].
      rewrite Hstock, Hprices in Hrun. simpl app in Hrun.
      exists price. eexists. split.
      + rewrite Hrun.
        replace (fdm =? 1)%Z with false by (symmetry; apply Z.eqb_neq; lia).
        reflexivity.
      + apply path_values_length. }
  destruct Hrun as (price & values & Hrun & Hlen).
  eexists. eexists. split; [exact Hrun|].
  simpl. rewrite length_map, Hlen.
  split; [lia|]. split; [lia|]. split; [reflexivity|].
  intros i V Hi. now apply map_nth_error.
Qed.

(** Two paths of one time step each under scheme 2. *)
Lemma C10_one_sample_pair_per_path_witness :
  exists (price : R) (p' : Pricer.t),
    Pricer.GeneralPricer (H := counting_random) 3
      (fixture_pricer (test_contract 2) 2 "European Put" 1)
    = Returned (price, p')
    /\ List.length (mis_stock_flunct (Pricer.MIS_output p')) = 2%nat
    /\ mis_option_prices (Pricer.MIS_output p')
       = map (call_payoff 65) (mis_stock_flunct (Pricer.MIS_output p')).
Proof.
  destruct (C10_one_sample_pair_per_path (H := counting_random) 3
              (fixture_pricer (test_contract 2) 2 "European Put" 1)
              "Default Random Engine" "European Put")
    as (price & p' & Hrun & Hlen & _ & Hmap & _);
    try reflexivity.
  - right. simpl. repeat split; lia.
  - simpl. lia.
  - exists price, p'. split; [exact Hrun|]. split; [|exact Hmap].
    apply Nat2Z.inj. rewrite Hlen. reflexivity.
Defined.

(** C10 fails on the path count [NSIM = 2^32 - 1] under scheme 2.  The path
    loop of cases 2 and 3 counts with [unsigned i] from 1 while [i <= NSIM],
    and this test holds for every value of the counter: the loop is not left
    after [NSIM] paths, and the call does not return to hand vectors of
    [NSIM] samples to MIS.  The loop of case 1 tests [i < NSIM] from 0: on the
    same contract it is left after [NSIM] paths and hands over [NSIM]
    samples.  With [NSteps = 2^32 - 1] the test [j <= NSteps] of the time
    loop holds for every value of its counter in the same way, and the first
    path is never completed. *)
Lemma C10_counter_wraps_before_NSIM :
  never_returns (fun fuel =>
    Pricer.GeneralPricer (H := zero_random) fuel
      (fixture_pricer (test_contract 4294967295) 2 "European Put" 1))
  /\ (forall fuel : nat,
        (Z.to_nat 4294967295 < fuel)%nat ->
        exists (price : R) (p' : Pricer.t),
          Pricer.GeneralPricer (H := zero_random) fuel
            (fixture_pricer (test_contract 4294967295) 1 "European Put" 1)
          = Returned (price, p')
          /\ Z.of_nat (List.length (Pricer.stock_flunct p')) = 4294967295%Z
          /\ Z.of_nat (List.length (Pricer.option_prices p')) = 4294967295%Z)
  /\ never_returns (fun fuel =>
    Pricer.GeneralPricer (H := zero_random) fuel
      (fixture_pricer (test_contract 1) 2 "European Put" 4294967295)).
Proof.
  split; [|split].
  - intros fuel [price p'] Hrun.
    unfold Pricer.GeneralPricer, subscript in Hrun; simpl nth_error in Hrun;
    cbv beta iota zeta delta [bind fixture_pricer mp_fdm Pricer.model_parameters] in Hrun;
    fold (@bind (Pricer.t * @Pricer.locals zero_random) (R * Pricer.t)) in Hrun.
    apply bind_returned in Hrun. destruct Hrun as [s [Hloop _]].
    revert Hloop. apply for_unsigned_never_returns;
      [|first [apply wrap_unsigned_range | rewrite two_32; lia]].
    intros j Hj. apply Z.leb_le. simpl. rewrite two_32 in Hj. lia.
  - intros fuel Hfuel.
    destruct (C10_one_sample_pair_per_path (H := zero_random) fuel
                (fixture_pricer (test_contract 4294967295) 1 "European Put" 1)
                "Default Random Engine" "European Put"
                eq_refl eq_refl eq_refl eq_refl)
      as (price & p' & Hrun & Hstock & Hprices & _).
    + left. split; [reflexivity|]. cbn [Pricer.option_data fixture_pricer od_NSIM
                                         test_contract]. rewrite two_32. lia.
    + exact Hfuel.
    + exists price, p'. split; [exact Hrun|]. split; [exact Hstock | exact Hprices].
  - intros fuel [price p'] Hrun.
    unfold Pricer.GeneralPricer, subscript in Hrun; simpl nth_error in Hrun;
    cbv beta iota zeta delta [bind fixture_pricer mp_fdm Pricer.model_parameters] in Hrun;
    fold (@bind (Pricer.t * @Pricer.locals zero_random) (R * Pricer.t)) in Hrun.
    apply bind_returned in Hrun. destruct Hrun as [s [Hloop _]].
    destruct fuel as [|fuel]; [discriminate|].
    simpl in Hloop.
    apply bind_returned in Hloop. destruct Hloop as [s1 [Hpath _]].
    unfold Pricer.discretized_path in Hpath.
    apply bind_returned in Hpath. destruct Hpath as [l1 [Htime _]].
    revert Htime. apply for_unsigned_never_returns;
      [|first [apply wrap_unsigned_range | rewrite two_32; lia]].
    intros j Hj. apply Z.leb_le. simpl. rewrite two_32 in Hj. lia.
Qed.

(** ** No configuration is rejected *)



Lemma gbm_path_no_throw `{StdRandom} (vol T K : R) (NSIM : Z)
    (option_payoff : PayoffFunctionType) (VOld0 : R) (i : Z)
    (s : Pricer.t * Pricer.locals) (e : exception) :
  Pricer.gbm_path vol T K NSIM option_payoff VOld0 i s <> Thrown e.
Proof.
  destruct s as [p l]. unfold Pricer.gbm_path.
  destruct (normal (Pricer.eng l)). discriminate.
Qed.

Lemma time_step_no_throw `{StdRandom} (asian : bool) (step : R -> R -> R) (j : Z)
    (l : Pricer.locals) (e : exception) :
  Pricer.time_step asian step j l <> Thrown e.
Proof.
  unfold Pricer.time_step. destruct (normal (Pricer.eng l)). discriminate.
Qed.

Lemma discretized_path_no_throw `{StdRandom} (S0 K : R)
    (option_payoff : PayoffFunctionType) (asian : bool) (steps : Z) (fuel : nat)
    (step : R -> R -> R) (i : Z) (s : Pricer.t * Pricer.locals) (e : exception) :
  Pricer.discretized_path S0 K option_payoff asian steps fuel step i s <> Thrown e.
Proof.
  destruct s as [p l]. unfold Pricer.discretized_path. intros Hthrown.
  apply bind_thrown in Hthrown. destruct Hthrown as [Hloop | [l' [_ Hret]]].
  - revert Hloop. apply for_unsigned_no_throw. intros j s e'. apply time_step_no_throw.
  - discriminate.
Qed.

(** [GeneralPricer] has no path that leaves by an exception: whatever the
    scheme, [NSteps] and [NSIM] are, no configuration is rejected. *)
Lemma GeneralPricer_no_throw `{StdRandom} (fuel : nat) (p : Pricer.t) (e : exception) :
  Pricer.GeneralPricer fuel p <> Thrown e.
Proof.
  unfold Pricer.GeneralPricer, subscript.
  destruct (nth_error (Pricer.parameter_names p) 2); [|discriminate].
  destruct (nth_error (Pricer.parameter_names p) 0); [|discriminate].
  cbv beta iota zeta delta [bind].
  fold (@bind (Pricer.t * Pricer.locals) (R * Pricer.t)).
  destruct (mp_fdm (Pricer.model_parameters p)) as [|[[q|q|]|[q|q|]|]|q];
    try discriminate;
    intros Hthrown; apply bind_thrown in Hthrown;
    destruct Hthrown as [Hloop | [[q' l'] [_ Hret]]]; try discriminate;
    revert Hloop; apply for_unsigned_no_throw; intros j st e'.
  - apply discretized_path_no_throw.
  - apply discretized_path_no_throw.
  - apply gbm_path_no_throw.
Qed.

Lemma path_values_one_step `{StdRandom} (step : R -> R -> R) (S0 : R) (k : nat) :
  forall e : engine, path_values step 1 S0 k e = map (step S0) (draws k e).
Proof.
  induction k as [|k IH]; intros e; simpl; [reflexivity|].
  rewrite IH. reflexivity.
Qed.

(** C5, as stated, fails: under scheme 2 with [NSteps = 0] and one path the
    call returns a price, after a path loop that took one Euler step with
    the time step [T / 0]; nothing is rejected. *)
Lemma C5_zero_steps_not_rejected :
  exists (price : R) (p' : Pricer.t),
    Pricer.GeneralPricer (H := zero_random) 3
      (fixture_pricer (test_contract 1) 2 "European Put" 0)
    = Returned (price, p')
    /\ Pricer.stock_flunct p'
       = [Pricer.euler_step 0.08 0.3 (0.25 / 0) (sqrt (0.25 / 0)) 60 0]
    /\ forall e : exception,
         Pricer.GeneralPricer (H := zero_random) 3
           (fixture_pricer (test_contract 1) 2 "European Put" 0)
         <> Thrown e.
Proof.
  eexists. eexists. split; [reflexivity|]. split; [reflexivity|].
  intros e. discriminate.
Qed.

(** C5, amended: [GeneralPricer] does not look at [NSteps] before the loops.
    With [NSteps = 0] under scheme 2 or 3 it raises nothing, whatever the
    other parameters are; it takes [dt = T / 0] and, when [NSIM] fits the
    [unsigned] counter ([NSIM < 2^32 - 1]), runs the path loop [NSIM] times
    with a single time step each and returns. *)
Theorem C5_zero_steps_runs_one_step_paths `{StdRandom} (p : Pricer.t)
    (engine_name payoff_name : string) :
  let od := Pricer.option_data p in
  let fdm := mp_fdm (Pricer.model_parameters p) in
  let dt := od_T od / IZR 0 in
  fdm = 2%Z \/ fdm = 3%Z ->
  Pricer.NSteps p = 0%Z ->
  nth_error (Pricer.parameter_names p) 0 = Some engine_name ->
  nth_error (Pricer.parameter_names p) 2 = Some payoff_name ->
  (forall (fuel : nat) (e : exception), Pricer.GeneralPricer fuel p <> Thrown e)
  /\ ((0 <= od_NSIM od < 2 ^ 32 - 1)%Z ->
      forall fuel : nat,
        (Z.to_nat (od_NSIM od) < fuel)%nat -> (1 < fuel)%nat ->
        exists (price : R) (p' : Pricer.t),
          Pricer.GeneralPricer fuel p = Returned (price, p')
          /\ Pricer.stock_flunct p'
             = Pricer.stock_flunct p
               ++ map (scheme_step fdm (od_r od) (od_vol od) dt (od_S od))
                    (draws (Z.to_nat (od_NSIM od)) (simulation_engine engine_name))
          /\ Pricer.explicit_euler p' = true).
Proof.
  intros od fdm dt Hfdm Hsteps Hn0 Hn2.
  split; [intros fuel e; apply GeneralPricer_no_throw|].
  intros HNSIM fuel Hfuel Hfuel'.
  destruct (GeneralPricer_discretized fuel p engine_name payoff_name Hn0 Hn2 Hfdm HNSIM)
    as [price Hrun]; try (rewrite Hsteps; simpl; lia); try exact Hfuel.
  rewrite Hsteps in Hrun. simpl Z.to_nat in Hrun.
  rewrite path_values_one_step in Hrun.
  eexists. eexists. split; [exact Hrun|]. split; reflexivity.
Qed.

(** Two paths under scheme 3 with [NSteps = 0]. *)
Lemma C5_zero_steps_runs_one_step_paths_witness :
  exists (price : R) (p' : Pricer.t),
    Pricer.GeneralPricer (H := counting_random) 3
      (fixture_pricer (test_contract 2) 3 "European Put" 0)
    = Returned (price, p')
    /\ List.length (Pricer.stock_flunct p') = 2%nat
    /\ Pricer.explicit_euler p' = true.
Proof.
  destruct (C5_zero_steps_runs_one_step_paths (H := counting_random)
              (fixture_pricer (test_contract 2) 3 "European Put" 0)
              "Default Random Engine" "European Put")
    as [_ Hruns]; try reflexivity; [right; reflexivity|].
  destruct (Hruns ltac:(simpl; lia) 3%nat ltac:(simpl; lia) ltac:(lia))
    as (price & p' & Hrun & Hstock & Hflag).
  exists price, p'. split; [exact Hrun|]. split; [|exact Hflag].
  rewrite Hstock. reflexivity.
Defined.

(** ** MIS::ComputeStatistics *)

(** Truncation leaves an integral value as it is. *)
Lemma trunc_IZR (z : Z) : Cxx.trunc (IZR z) = z.
Proof.
  unfold Cxx.trunc. destruct (Rle_dec 0 (IZR z)) as [_ | _].
  - apply Int_part_IZR.
  - rewrite <- opp_IZR, Int_part_IZR. lia.
Qed.

(** Truncation of a value in [0, 1) is 0. *)
Lemma trunc_below_1 (x : R) : 0 <= x < 1 -> Cxx.trunc x = 0%Z.
Proof.
  intros Hx. unfold Cxx.trunc. destruct (Rle_dec 0 x) as [_ | Hneg]; [|lra].
  symmetry. apply Int_part_spec. simpl. lra.
Qed.

Lemma double_to_int_in_range (x : R) :
  (Cxx.INT_MIN <= Cxx.trunc x <= Cxx.INT_MAX)%Z ->
  MIS.double_to_int x = Returned (Cxx.trunc x).
Proof.
  intros Hx. unfold MIS.double_to_int.
  replace ((Cxx.INT_MIN <=? Cxx.trunc x) && (Cxx.trunc x <=? Cxx.INT_MAX))%Z with true;
    [reflexivity|].
  symmetry. apply andb_true_iff. split; apply Z.leb_le; lia.
Qed.

Lemma double_to_int_no_throw (x : R) (e : exception) : MIS.double_to_int x <> Thrown e.
Proof. unfold MIS.double_to_int. destruct (_ && _)%bool; discriminate. Qed.

Lemma for_each_int_no_throw {St : Type} (f : Z -> St -> St) (e : exception) :
  forall (v : list R) (s : St), MIS.for_each_int v f s <> Thrown e.
Proof.
  induction v as [|x v IH]; intros s; simpl; [discriminate|].
  intros Hthrown. apply bind_thrown in Hthrown.
  destruct Hthrown as [Hconv | [n [_ Hrest]]].
  - exact (double_to_int_no_throw _ _ Hconv).
  - exact (IH _ Hrest).
Qed.

(** [ComputeStatistics] has no path that leaves by an exception. *)
Lemma ComputeStatistics_no_throw (pricer_res : PricerOutputMIS) (m : MIS.t)
    (e : exception) :
  MIS.ComputeStatistics pricer_res m <> Thrown e.
Proof.
  unfold MIS.ComputeStatistics. intros Hthrown.
  apply bind_thrown in Hthrown.
  destruct Hthrown as [Hsum | [[sum sum_sq] [_ Hthrown]]];
    [exact (for_each_int_no_throw _ _ _ _ Hsum)|].
  apply bind_thrown in Hthrown.
  destruct Hthrown as [Hmean | [mean [_ Hthrown]]];
    [exact (for_each_int_no_throw _ _ _ _ Hmean)|].
  apply bind_thrown in Hthrown.
  destruct Hthrown as [Hmax | [mx [_ Hthrown]]].
  - unfold MIS.max_element in Hmax. destruct (mis_stock_flunct pricer_res); discriminate.
  - apply bind_thrown in Hthrown.
    destruct Hthrown as [Hmin | [mn [_ Hthrown]]]; [|discriminate].
    unfold MIS.min_element in Hmin. destruct (mis_stock_flunct pricer_res); discriminate.
Qed.

(** The capture of [ComputeStatistics] after one sample. *)
Lemma ComputeStatistics_single (pricer_res : PricerOutputMIS) (m : MIS.t) (x s : R) :
  mis_option_prices pricer_res = [x] ->
  mis_stock_flunct pricer_res = [s] ->
  (Cxx.INT_MIN <= Cxx.trunc x <= Cxx.INT_MAX)%Z ->
  (Cxx.INT_MIN <= Cxx.trunc s <= Cxx.INT_MAX)%Z ->
  let n := IZR (Cxx.trunc x) in
  let r := od_r (mis_option_data pricer_res) in
  let T := od_T (mis_option_data pricer_res) in
  exists m' : MIS.t,
    MIS.ComputeStatistics pricer_res m = Returned m'
    /\ MIS.SD m' = sqrt ((Cxx.pow n 2 - 1 / 1 * Cxx.pow n 2) / IZR 0) * exp (- r * T)
    /\ MIS.SE m' = MIS.SD m' / sqrt 1.
Proof.
  intros Hprices Hstock Hx Hs n r T.
  unfold MIS.ComputeStatistics. rewrite Hprices, Hstock.
  cbn [MIS.for_each_int].
  rewrite (double_to_int_in_range x Hx), (double_to_int_in_range s Hs).
  cbv beta iota zeta delta [bind MIS.max_element MIS.min_element fold_left].
  eexists. split; [reflexivity|].
  cbn [MIS.SD MIS.SE MIS.size List.length Z.of_nat Pos.of_succ_nat Z.sub Z.add Z.opp
       Z.pos_sub Cxx.wrap_size_t Z.modulo Z.div_eucl].
  fold n r T. rewrite !Rplus_0_l. split; reflexivity.
Qed.

(** C4, as stated, fails: on one retained sample (payoff 5, asset value 60)
    the statistics are returned, no failure is raised, and [SD] is the value
    of the formula with the divisor [NSIM - 1 = 0]. *)
Lemma C4_single_sample_returns_statistics :
  let pricer_res := {| mis_price := 0; mis_option_data := test_contract 1;
                       mis_stock_flunct := [60]; mis_option_prices := [5];
                       mis_names := fixture_names 2 "European Put" |} in
  (exists m' : MIS.t,
     MIS.ComputeStatistics pricer_res fixture_mis = Returned m'
     /\ MIS.SD m' = sqrt ((Cxx.pow 5 2 - 1 / 1 * Cxx.pow 5 2) / 0)
                    * exp (- od_r (test_contract 1) * od_T (test_contract 1)))
  /\ forall e : exception, MIS.ComputeStatistics pricer_res fixture_mis <> Thrown e.
Proof.
  intros pricer_res. split; [|intros e; apply ComputeStatistics_no_throw].
  destruct (ComputeStatistics_single pricer_res fixture_mis 5 60 eq_refl eq_refl)
    as (m' & Hrun & HSD & _).
  - rewrite trunc_IZR. unfold Cxx.INT_MIN, Cxx.INT_MAX. lia.
  - rewrite trunc_IZR. unfold Cxx.INT_MIN, Cxx.INT_MAX. lia.
  - exists m'. split; [exact Hrun|]. rewrite HSD, trunc_IZR. reflexivity.
Qed.

(** C4, amended: [ComputeStatistics] has no guard on the sample size.  On a
    single retained sample it raises nothing; when the truncations of the
    sample are [int] values it returns the statistics, where [SD] is the
    value of the formula with the divisor [NSIM - 1 = 0] and [SE] is
    [SD / sqrt 1]. *)
Theorem C4_single_sample_not_guarded (pricer_res : PricerOutputMIS) (m : MIS.t)
    (x s : R) :
  mis_option_prices pricer_res = [x] ->
  mis_stock_flunct pricer_res = [s] ->
  let n := IZR (Cxx.trunc x) in
  let r := od_r (mis_option_data pricer_res) in
  let T := od_T (mis_option_data pricer_res) in
  (forall e : exception, MIS.ComputeStatistics pricer_res m <> Thrown e)
  /\ ((Cxx.INT_MIN <= Cxx.trunc x <= Cxx.INT_MAX)%Z ->
      (Cxx.INT_MIN <= Cxx.trunc s <= Cxx.INT_MAX)%Z ->
      exists m' : MIS.t,
        MIS.ComputeStatistics pricer_res m = Returned m'
        /\ MIS.SD m' = sqrt ((Cxx.pow n 2 - 1 / 1 * Cxx.pow n 2) / IZR 0) * exp (- r * T)
        /\ MIS.SE m' = MIS.SD m' / sqrt 1).
Proof.
  intros Hprices Hstock n r T.
  split; [intros e; apply ComputeStatistics_no_throw|].
  intros Hx Hs. apply ComputeStatistics_single with (s := s); assumption.
Qed.

(** One retained sample: payoff 0, asset value 61. *)
Lemma C4_single_sample_not_guarded_witness :
  exists m' : MIS.t,
    MIS.ComputeStatistics
      {| mis_price := 0; mis_option_data := test_contract 1;
         mis_stock_flunct := [61]; mis_option_prices := [0];
         mis_names := fixture_names 2 "European Put" |} fixture_mis
    = Returned m'
    /\ MIS.SE m' = MIS.SD m' / sqrt 1.
Proof.
  destruct (C4_single_sample_not_guarded
              {| mis_price := 0; mis_option_data := test_contract 1;
                 mis_stock_flunct := [61]; mis_option_prices := [0];
                 mis_names := fixture_names 2 "European Put" |} fixture_mis 0 61
              eq_refl eq_refl) as [_ Hreturns].
  destruct Hreturns as (m' & Hrun & _ & HSE).
  - rewrite trunc_IZR. unfold Cxx.INT_MIN, Cxx.INT_MAX. lia.
  - rewrite trunc_IZR. unfold Cxx.INT_MIN, Cxx.INT_MAX. lia.
  - exists m'. split; [exact Hrun | exact HSE].
Defined.

(** When every truncated element is an [int], [for_each] folds the body of
    the lambda over the truncated elements. *)
Lemma for_each_int_fold {St : Type} (f : Z -> St -> St) :
  forall (v : list R) (s : St),
    Forall (fun x => (Cxx.INT_MIN <= Cxx.trunc x <= Cxx.INT_MAX)%Z) v ->
    MIS.for_each_int v f s = Returned (fold_left (fun s x => f (Cxx.trunc x) s) v s).
Proof.
  induction v as [|x v IH]; intros s Hv; simpl; [reflexivity|].
  inversion Hv as [|? ? Hx Hv']; subst.
  rewrite (double_to_int_in_range x Hx). simpl. apply IH. exact Hv'.
Qed.

(** On every sample the code can process, [SD] is the sample formula over the
    payoffs truncated to integers. *)
Lemma ComputeStatistics_SD_truncated (pricer_res : PricerOutputMIS) (m m' : MIS.t) :
  MIS.ComputeStatistics pricer_res m = Returned m' ->
  Forall (fun x => (Cxx.INT_MIN <= Cxx.trunc x <= Cxx.INT_MAX)%Z)
         (mis_option_prices pricer_res) ->
  let '(sum, sum_sq) := truncated_sums (mis_option_prices pricer_res) in
  let NSIM := MIS.size (mis_option_prices pricer_res) in
  MIS.SD m'
  = sqrt ((sum_sq - 1 / IZR NSIM * Cxx.pow sum 2) / IZR (Cxx.wrap_size_t (NSIM - 1)))
    * exp (- od_r (mis_option_data pricer_res) * od_T (mis_option_data pricer_res)).
Proof.
  intros Hrun Hrange. unfold MIS.ComputeStatistics in Hrun.
  rewrite (for_each_int_fold _ _ _ Hrange) in Hrun.
  unfold truncated_sums.
  cbv beta in Hrun.
  destruct (fold_left _ (mis_option_prices pricer_res) (0, 0)) as [sum sum_sq].
  cbv beta iota zeta delta [bind] in Hrun.
  destruct (MIS.for_each_int (mis_stock_flunct pricer_res) _ 0); try discriminate.
  cbv beta iota zeta delta [bind] in Hrun.
  destruct (MIS.max_element (mis_stock_flunct pricer_res)); try discriminate.
  cbv beta iota zeta delta [bind] in Hrun.
  destruct (MIS.min_element (mis_stock_flunct pricer_res)); try discriminate.
  cbv beta iota zeta delta [bind] in Hrun.
  injection Hrun as <-. reflexivity.
Qed.

(** C2, where the code departs from it: [SD] is to be the sample formula
    over the exact payoffs.  On the payoff sample [0.5; 0.7] that formula is
    positive, while the [SD] that [ComputeStatistics] stores is 0, the lambda
    of [std::for_each] having received each payoff as the [int] 0. *)
Theorem C2_SD_over_truncated_payoffs :
  let od := test_contract 2 in
  let pricer_res := {| mis_price := 0; mis_option_data := od;
                       mis_stock_flunct := [60; 61]; mis_option_prices := [0.5; 0.7];
                       mis_names := fixture_names 2 "European Put" |} in
  let claimed := sqrt ((0.5 ^ 2 + 0.7 ^ 2 - (0.5 + 0.7) ^ 2 / 2) / (2 - 1))
                 * exp (- od_r od * od_T od) in
  exists m' : MIS.t,
    MIS.ComputeStatistics pricer_res fixture_mis = Returned m'
    /\ MIS.SD m' = 0
    /\ 0 < claimed.
Proof.
  intros od pricer_res claimed.
  assert (Hint : forall z : Z, (Cxx.INT_MIN <= z <= Cxx.INT_MAX)%Z ->
                               (Cxx.INT_MIN <= Cxx.trunc (IZR z) <= Cxx.INT_MAX)%Z)
    by (intros z Hz; now rewrite trunc_IZR).
  assert (H05 : Cxx.trunc 0.5 = 0%Z) by (apply trunc_below_1; lra).
  assert (H07 : Cxx.trunc 0.7 = 0%Z) by (apply trunc_below_1; lra).
  assert (Hzero : (Cxx.INT_MIN <= 0 <= Cxx.INT_MAX)%Z)
    by (unfold Cxx.INT_MIN, Cxx.INT_MAX; lia).
  unfold MIS.ComputeStatistics, pricer_res.
  cbn [mis_option_prices mis_stock_flunct mis_option_data].
  rewrite !for_each_int_fold.
  - cbv beta iota zeta delta [bind MIS.max_element MIS.min_element].
    cbn [fold_left]. rewrite H05, H07.
    eexists. split; [reflexivity|]. split.
    + cbn [MIS.SD]. rewrite !pow_2. unfold Rdiv.
      replace ((0 + 0 * 0 + 0 * 0
                - 1 * / IZR (MIS.size [0.5; 0.7]) * ((0 + 0 + 0) * (0 + 0 + 0)))
               * / IZR (Cxx.wrap_size_t (MIS.size [0.5; 0.7] - 1)))
        with 0 by ring.
      rewrite sqrt_0. ring.
    + unfold claimed. apply Rmult_lt_0_compat; [|apply exp_pos].
      apply sqrt_lt_R0. lra.
  - repeat apply Forall_cons; try apply Forall_nil;
      first [ rewrite H05; exact Hzero | rewrite H07; exact Hzero
            | apply Hint; unfold Cxx.INT_MIN, Cxx.INT_MAX; lia ].
  - repeat apply Forall_cons; try apply Forall_nil;
      first [ rewrite H05; exact Hzero | rewrite H07; exact Hzero
            | apply Hint; unfold Cxx.INT_MIN, Cxx.INT_MAX; lia ].
Qed.

(** ** The Asian indicator *)

(** C6, where the code departs from it: the payoff of an Asian option under
    a time-discretized scheme is to be evaluated on the mean of the values
    along the path.  On an Asian call under scheme 2 with [NSteps = 1] (two
    updates) and variates 0, the name matches the Asian pattern, the values
    along the path are 61.2 and 62.424, and the payoff stored is the payoff
    of the terminal value 62.424, which differs from the payoff of their
    mean. *)
Theorem C6_asian_payoff_on_terminal_value :
  let p := fixture_pricer asian_contract 2 "Asian Call" 1 in
  Regex.match_Asian_any "Asian Call" = true
  /\ scheme_step 2 0.08 0.3 (0.25 / 1) 60 0 = 61.2
  /\ scheme_step 2 0.08 0.3 (0.25 / 1) 61.2 0 = 62.424
  /\ exists (price : R) (p' : Pricer.t),
       Pricer.GeneralPricer (H := zero_random) 3 p = Returned (price, p')
       /\ Pricer.stock_flunct p' = [62.424]
       /\ Pricer.option_prices p' = [call_payoff 60 62.424]
       /\ call_payoff 60 62.424 <> call_payoff 60 ((61.2 + 62.424) / 2).
Proof.
  intros p. split; [reflexivity|].
  assert (Hstep : forall V : R,
             scheme_step 2 0.08 0.3 (0.25 / 1) V 0 = 1.02 * V).
  { intros V. unfold scheme_step, Pricer.euler_step, FDM_SDE.drift. simpl. lra. }
  split; [rewrite Hstep; lra|]. split; [rewrite Hstep; lra|].
  destruct (GeneralPricer_discretized (H := zero_random) 3 p
              "Default Random Engine" "Asian Call") as [price Hrun];
    try reflexivity; try (simpl; lia).
  exists price. eexists. split; [exact Hrun|].
  cbn [Pricer.stock_flunct Pricer.option_prices Pricer.set_m_price
       Pricer.set_option_prices Pricer.set_stock_flunct].
  assert (Hvalues :
            path_values
              (scheme_step (mp_fdm (Pricer.model_parameters p))
                 (od_r (Pricer.option_data p)) (od_vol (Pricer.option_data p))
                 (od_T (Pricer.option_data p) / IZR (Pricer.NSteps p)))
              (S (Z.to_nat (Pricer.NSteps p))) (od_S (Pricer.option_data p))
              (Z.to_nat (od_NSIM (Pricer.option_data p)))
              (simulation_engine (H := zero_random) "Default Random Engine")
            = [62.424]).
  { simpl. unfold path_value. simpl. rewrite !Hstep. f_equal. lra. }
  rewrite Hvalues. simpl.
  split; [reflexivity|]. split; [reflexivity|].
  unfold call_payoff. rewrite !Rmax_left by lra. lra.
Qed.

(** ** The generator chosen by the user *)

(** A loop commutes with a change of state that its body commutes with. *)
Lemma for_unsigned_map {St : Type} (h : St -> St) (cond : Z -> bool)
    (body : Z -> St -> outcome St) :
  (forall i s, body i (h s) = map_outcome h (body i s)) ->
  forall (fuel : nat) (i : Z) (s : St),
    for_unsigned fuel cond body i (h s) = map_outcome h (for_unsigned fuel cond body i s).
Proof.
  intros Hbody. induction fuel as [|fuel IH]; intros i s; simpl; [reflexivity|].
  destruct (cond i); [|reflexivity].
  rewrite Hbody. destruct (body i s) as [s'| | |]; simpl; try reflexivity.
  apply IH.
Qed.

(** The stored generator is carried along and never called: a run with
    another generator is the same run, the generator apart. *)
Lemma GeneralPricer_with_rng `{StdRandom} (fuel : nat) (p : Pricer.t)
    (rng : RNGFunctionType) :
  Pricer.GeneralPricer fuel (with_rng rng p)
  = map_outcome (fun '(price, p') => (price, with_rng rng p'))
      (Pricer.GeneralPricer fuel p).
Proof.
  set (h := fun s : Pricer.t * Pricer.locals => (with_rng rng (fst s), snd s)).
  unfold Pricer.GeneralPricer, subscript.
  change (Pricer.parameter_names (with_rng rng p)) with (Pricer.parameter_names p).
  destruct (nth_error (Pricer.parameter_names p) 2); [|reflexivity].
  destruct (nth_error (Pricer.parameter_names p) 0); [|reflexivity].
  cbv beta iota zeta delta [bind].
  fold (@bind (Pricer.t * Pricer.locals) (R * Pricer.t)).
  change (mp_fdm (Pricer.model_parameters (with_rng rng p)))
    with (mp_fdm (Pricer.model_parameters p)).
  change (mp_payoff (Pricer.model_parameters (with_rng rng p)))
    with (mp_payoff (Pricer.model_parameters p)).
  change (Pricer.option_data (with_rng rng p)) with (Pricer.option_data p).
  change (Pricer.NSteps (with_rng rng p)) with (Pricer.NSteps p).
  change (Pricer.NSteps (Pricer.set_explicit_euler true (with_rng rng p)))
    with (Pricer.NSteps (Pricer.set_explicit_euler true p)).
  destruct (mp_fdm (Pricer.model_parameters p)) as [|[[q|q|]|[q|q|]|]|q];
    try reflexivity.
  - match goal with
    | |- context [for_unsigned fuel ?c ?b 1%Z (_, ?l0)] =>
        change (for_unsigned fuel c b 1%Z
                  (Pricer.set_explicit_euler true (with_rng rng p), l0))
          with (for_unsigned fuel c b 1%Z (h (Pricer.set_explicit_euler true p, l0)));
        rewrite (for_unsigned_map h c b);
        [ destruct (for_unsigned fuel c b 1%Z (Pricer.set_explicit_euler true p, l0))
            as [[q' l']| | |]; reflexivity |]
    end.
    intros i [q' l']. unfold Pricer.discretized_path, h. cbn [fst snd].
    destruct (for_unsigned fuel _ _ 0%Z _) as [l1| | |]; reflexivity.
  - match goal with
    | |- context [for_unsigned fuel ?c ?b 1%Z (_, ?l0)] =>
        change (for_unsigned fuel c b 1%Z
                  (Pricer.set_explicit_euler true (with_rng rng p), l0))
          with (for_unsigned fuel c b 1%Z (h (Pricer.set_explicit_euler true p, l0)));
        rewrite (for_unsigned_map h c b);
        [ destruct (for_unsigned fuel c b 1%Z (Pricer.set_explicit_euler true p, l0))
            as [[q' l']| | |]; reflexivity |]
    end.
    intros i [q' l']. unfold Pricer.discretized_path, h. cbn [fst snd].
    destruct (for_unsigned fuel _ _ 0%Z _) as [l1| | |]; reflexivity.
  - match goal with
    | |- context [for_unsigned fuel ?c ?b 0%Z (_, ?l0)] =>
        change (for_unsigned fuel c b 0%Z (with_rng rng p, l0))
          with (for_unsigned fuel c b 0%Z (h (p, l0)));
        rewrite (for_unsigned_map h c b);
        [ destruct (for_unsigned fuel c b 0%Z (p, l0)) as [[q' l']| | |]; reflexivity |]
    end.
    intros i [q' l']. unfold Pricer.gbm_path, h. cbn [fst snd].
    destruct (normal (Pricer.eng l')); reflexivity.
Qed.

Lemma simulation_result_with_rng `{StdRandom} (fuel : nat) (p : Pricer.t)
    (rng : RNGFunctionType) :
  simulation_result (Pricer.GeneralPricer fuel (with_rng rng p))
  = simulation_result (Pricer.GeneralPricer fuel p).
Proof.
  rewrite GeneralPricer_with_rng.
  destruct (Pricer.GeneralPricer fuel p) as [[price p']| | |]; reflexivity.
Qed.

(** C9, where the code departs from it: the draws of the simulation loop are
    to come from a clock-seeded engine, so that two invocations do not
    repeat.  On every configuration they come from the local engine of
    [GeneralPricer] (see [simulation_engine]: default constructed, or a
    Mersenne Twister seeded with 0), not from the stored generator: two
    invocations whose stored generator seeds from the clock, started at the
    clock readings [now1] and [now2], hand on the same price and the same
    samples; so do runs with any two stored generators. *)
Theorem C9_invocations_repeat_the_draws `{StdRandom} (fuel : nat) (p : Pricer.t)
    (now1 now2 : Z) :
  let invocation := fun now : Z =>
    Pricer.GeneralPricer fuel
      (with_rng (fun tick => RNG.DefaultRandomEngine (now + tick)) p) in
  simulation_result (invocation now1) = simulation_result (invocation now2)
  /\ forall rng1 rng2 : RNGFunctionType,
       simulation_result (Pricer.GeneralPricer fuel (with_rng rng1 p))
       = simulation_result (Pricer.GeneralPricer fuel (with_rng rng2 p)).
Proof.
  intros invocation. unfold invocation. split.
  - now rewrite !simulation_result_with_rng.
  - intros rng1 rng2. now rewrite !simulation_result_with_rng.
Qed.

(** ** The flag of the time-discretized schemes along a session *)



(** [GeneralPricer] leaves the model parameters as they are. *)
Lemma GeneralPricer_model_parameters `{StdRandom} (fuel : nat) (p p' : Pricer.t)
    (price : R) :
  Pricer.GeneralPricer fuel p = Returned (price, p') ->
  Pricer.model_parameters p' = Pricer.model_parameters p.
Proof.
  unfold Pricer.GeneralPricer, subscript.
  destruct (nth_error (Pricer.parameter_names p) 2); [|discriminate].
  destruct (nth_error (Pricer.parameter_names p) 0); [|discriminate].
  cbv beta iota zeta delta [bind].
  fold (@bind (Pricer.t * Pricer.locals) (R * Pricer.t)).
  set (P := fun s : Pricer.t * Pricer.locals =>
              Pricer.model_parameters (fst s) = Pricer.model_parameters p).
  destruct (mp_fdm (Pricer.model_parameters p)) as [|[[q|q|]|[q|q|]|]|q];
    try (intros [= _ <-]; reflexivity);
    intros Hrun; apply bind_returned in Hrun;
    destruct Hrun as [[q' l'] [Hloop Hret]]; injection Hret as _ <-;
    change (P (q', l'));
    revert Hloop; apply for_unsigned_preserves; try reflexivity;
    intros i [q1 l1] [q2 l2] Hq1.
  - unfold Pricer.discretized_path. intros Hb. apply bind_returned in Hb.
    destruct Hb as [l3 [_ Hb]]. injection Hb as <- _. exact Hq1.
  - unfold Pricer.discretized_path. intros Hb. apply bind_returned in Hb.
    destruct Hb as [l3 [_ Hb]]. injection Hb as <- _. exact Hq1.
  - unfold Pricer.gbm_path. destruct (normal (Pricer.eng l1)).
    intros [= <- _]. exact Hq1.
Qed.

(** A pricer set up for scheme 1 keeps the scheme and, with it, the initial
    value [false] of the flag through the whole session: the hypothesis of
    C1 on the flag holds at every call [Builder::run] makes. *)
Lemma session_gbm_flag `{StdRandom} (p0 p : Pricer.t) :
  mp_fdm (Pricer.model_parameters p0) = 1%Z ->
  Pricer.explicit_euler p0 = false ->
  session p0 p ->
  mp_fdm (Pricer.model_parameters p) = 1%Z /\ Pricer.explicit_euler p = false.
Proof.
  intros Hfdm Hflag Hsession.
  induction Hsession as [|p p' _ [IHfdm IHflag] Hstep]; [split; assumption|].
  destruct Hstep as [fuel p p' price Hrun | p | p | p | payoff name p p' Hset].
  - split.
    + rewrite (GeneralPricer_model_parameters _ _ _ _ Hrun). exact IHfdm.
    + rewrite (GeneralPricer_gbm_explicit_euler _ _ _ _ IHfdm Hrun). exact IHflag.
  - unfold Pricer.output. rewrite IHflag. simpl. split; assumption.
  - simpl. split; assumption.
  - simpl. split; assumption.
  - unfold Pricer.setPayoffParameter in Hset.
    destruct (Pricer.parameter_names _) as [|n0 [|n1 [|n2 rest]]]; try discriminate.
    injection Hset as <-. simpl. split; assumption.
Qed.

(** ** The price of a run *)

Lemma fold_left_Rplus (v : list R) : forall a : R, fold_left Rplus v a = a + total v.
Proof.
  unfold total. induction v as [|x v IH]; intros a; simpl.
  - ring.
  - rewrite (IH (a + x)), (IH (0 + x)). ring.
Qed.

Lemma total_cons (x : R) (v : list R) : total (x :: v) = x + total v.
Proof. unfold total at 1. simpl. rewrite fold_left_Rplus. ring. Qed.

Lemma total_app (v w : list R) : total (v ++ w) = total v + total w.
Proof.
  induction v as [|x v IH]; simpl.
  - unfold total at 2. simpl. ring.
  - rewrite !total_cons, IH. ring.
Qed.

Lemma total_map_scale (c : R) (v : list R) :
  total (map (fun x => x * c) v) = total v * c.
Proof.
  induction v as [|x v IH]; simpl.
  - unfold total. simpl. ring.
  - rewrite !total_cons, IH. ring.
Qed.

Section PriceOfPaths.

Context `{StdRandom}.
Variables (vol T S0 K : R) (NSIM : Z) (option_payoff : PayoffFunctionType).

(** The payoff sum after [k] runs of the body of the path loop of case 1:
    each payoff enters divided by [NSIM]. *)
Lemma gbm_paths_price (VOld0 : R) (k : nat) :
  forall (i : Z) (p : Pricer.t) (l : Pricer.locals),
  exists (p' : Pricer.t) (l' : Pricer.locals),
    iterate_from k (Pricer.gbm_path vol T K NSIM option_payoff VOld0) i (p, l)
    = Returned (p', l')
    /\ Pricer.price l'
       = Pricer.price l
         + total (map (fun z => option_payoff K (gbm_value vol T VOld0 z) / IZR NSIM)
                    (draws k (Pricer.eng l))).
Proof.
  induction k as [|k IH]; intros i p l.
  - exists p, l. split; [reflexivity|]. simpl. unfold total. simpl. ring.
  - simpl iterate_from. unfold Pricer.gbm_path at 1.
    destruct (normal (Pricer.eng l)) as [z e'] eqn:Hdraw.
    cbv beta iota zeta delta [bind].
    edestruct (IH (i + 1)%Z) as (p' & l' & Hrun & Hprice).
    exists p', l'. split; [exact Hrun|].
    rewrite Hprice. simpl draws. rewrite Hdraw. simpl.
    rewrite total_cons. unfold gbm_value. ring.
Qed.

(** The payoff sum after [k] runs of the body of the path loop of cases 2
    and 3. *)
Lemma discretized_paths_price (steps : Z) (step : R -> R -> R) (fuel : nat) (k : nat) :
  (0 <= steps < 2 ^ 32 - 1)%Z ->
  (S (Z.to_nat steps) < fuel)%nat ->
  forall (i : Z) (p : Pricer.t) (l : Pricer.locals),
  exists (p' : Pricer.t) (l' : Pricer.locals),
    iterate_from k (Pricer.discretized_path S0 K option_payoff false steps fuel step)
      i (p, l)
    = Returned (p', l')
    /\ Pricer.price l'
       = Pricer.price l
         + total (map (option_payoff K)
                    (path_values step (S (Z.to_nat steps)) S0 k (Pricer.eng l))).
Proof.
  intros Hsteps Hfuel. induction k as [|k IH]; intros i p l.
  - exists p, l. split; [reflexivity|]. simpl. unfold total. simpl. ring.
  - cbn [iterate_from].
    rewrite (discretized_path_value S0 K option_payoff steps step Hsteps fuel i p l Hfuel).
    cbv beta iota zeta delta [bind].
    edestruct (IH (i + 1)%Z) as (p' & l' & Hrun & Hprice).
    exists p', l'. split; [exact Hrun|].
    rewrite Hprice. simpl. rewrite total_cons. ring.
Qed.

End PriceOfPaths.

(** A run of case 1, with its price: the sum of the payoffs, each divided by
    [NSIM], discounted. *)
Lemma GeneralPricer_gbm_price `{StdRandom} (fuel : nat) (p : Pricer.t)
    (engine_name payoff_name : string) :
  let od := Pricer.option_data p in
  let zs := draws (Z.to_nat (od_NSIM od)) (simulation_engine engine_name) in
  let value := gbm_value (od_vol od) (od_T od)
                 (FDM_SDE.GBM (od_S od) (od_T od) (od_vol od) (od_r od)) in
  let payoff := mp_payoff (Pricer.model_parameters p) (od_K od) in
  let price := total (map (fun z => payoff (value z) / IZR (od_NSIM od)) zs)
               * exp (- od_r od * od_T od) in
  nth_error (Pricer.parameter_names p) 0 = Some engine_name ->
  nth_error (Pricer.parameter_names p) 2 = Some payoff_name ->
  mp_fdm (Pricer.model_parameters p) = 1%Z ->
  (0 <= od_NSIM od < 2 ^ 32)%Z ->
  (Z.to_nat (od_NSIM od) < fuel)%nat ->
  Pricer.GeneralPricer fuel p
  = Returned
      (price,
       Pricer.set_m_price price
         (Pricer.set_option_prices
            (Pricer.option_prices p ++ map (fun z => payoff (value z)) zs)
            (Pricer.set_stock_flunct (Pricer.stock_flunct p ++ map value zs) p))).
Proof.
  intros od zs value payoff price Hn0 Hn2 Hfdm HNSIM Hfuel.
  subst price payoff value zs od.
  set (od := Pricer.option_data p) in *.
  unfold Pricer.GeneralPricer, subscript.
  rewrite Hn0, Hn2, Hfdm. cbv beta iota zeta delta [bind]. fold od.
  fold (simulation_engine engine_name).
  rewrite (for_unsigned_iterate _ _ (Z.to_nat (od_NSIM od))); try lia;
    [|apply Z.ltb_ge; lia].
  match goal with
  | |- context [iterate_from _ ?body _ (p, ?l0)] =>
      destruct (gbm_paths (od_vol od) (od_T od) (od_K od) (od_NSIM od)
                  (mp_payoff (Pricer.model_parameters p))
                  (FDM_SDE.GBM (od_S od) (od_T od) (od_vol od) (od_r od))
                  (Z.to_nat (od_NSIM od)) 0%Z p l0) as [l1 [Hrun _]];
      destruct (gbm_paths_price (od_vol od) (od_T od) (od_K od) (od_NSIM od)
                  (mp_payoff (Pricer.model_parameters p))
                  (FDM_SDE.GBM (od_S od) (od_T od) (od_vol od) (od_r od))
                  (Z.to_nat (od_NSIM od)) 0%Z p l0) as (p' & l' & Hrun' & Hprice)
  end.
  rewrite Hrun in Hrun'. injection Hrun' as <- <-.
  rewrite Hrun. cbn [Pricer.price Pricer.eng] in Hprice.
  rewrite Rplus_0_l in Hprice. rewrite Hprice.
  reflexivity.
Qed.

(** A run of case 2 or 3, with its price: the mean of the payoffs,
    discounted. *)
Lemma GeneralPricer_discretized_price `{StdRandom} (fuel : nat) (p : Pricer.t)
    (engine_name payoff_name : string) :
  let od := Pricer.option_data p in
  let fdm := mp_fdm (Pricer.model_parameters p) in
  let step := scheme_step fdm (od_r od) (od_vol od) (od_T od / IZR (Pricer.NSteps p)) in
  let values := path_values step (S (Z.to_nat (Pricer.NSteps p))) (od_S od)
                  (Z.to_nat (od_NSIM od)) (simulation_engine engine_name) in
  let payoff := mp_payoff (Pricer.model_parameters p) (od_K od) in
  let price := total (map payoff values) / IZR (od_NSIM od)
               * exp (- od_r od * od_T od) in
  nth_error (Pricer.parameter_names p) 0 = Some engine_name ->
  nth_error (Pricer.parameter_names p) 2 = Some payoff_name ->
  fdm = 2%Z \/ fdm = 3%Z ->
  (0 <= od_NSIM od < 2 ^ 32 - 1)%Z ->
  (0 <= Pricer.NSteps p < 2 ^ 32 - 1)%Z ->
  (Z.to_nat (od_NSIM od) < fuel)%nat ->
  (S (Z.to_nat (Pricer.NSteps p)) < fuel)%nat ->
  Pricer.GeneralPricer fuel p
  = Returned
      (price,
       Pricer.set_m_price price
         (Pricer.set_option_prices (Pricer.option_prices p ++ map payoff values)
            (Pricer.set_stock_flunct (Pricer.stock_flunct p ++ values)
               (Pricer.set_explicit_euler true p)))).
Proof.
  intros od fdm step values payoff price Hn0 Hn2 Hfdm HNSIM Hsteps Hfuel Hfuel'.
  subst price payoff values step fdm od.
  set (od := Pricer.option_data p) in *.
  unfold Pricer.GeneralPricer, subscript.
  rewrite Hn0, Hn2.
  cbv beta iota zeta delta [bind]. fold od.
  fold (simulation_engine engine_name).
  rewrite !asian_indicator_false.
  change (Pricer.NSteps (Pricer.set_explicit_euler true p)) with (Pricer.NSteps p).
  destruct Hfdm as [Hfdm | Hfdm]; rewrite Hfdm;
    (rewrite (for_unsigned_iterate _ _ (Z.to_nat (od_NSIM od))); try lia;
     [| apply Z.leb_gt; lia ]);
    match goal with
    | |- context [iterate_from _ (Pricer.discretized_path _ _ _ _ _ _ ?step) _ (?q, ?l0)] =>
        destruct (discretized_paths (od_S od) (od_K od)
                    (mp_payoff (Pricer.model_parameters p)) (Pricer.NSteps p) step
                    Hsteps fuel (Z.to_nat (od_NSIM od)) Hfuel' 1%Z q l0) as [l1 Hrun];
        destruct (discretized_paths_price (od_S od) (od_K od)
                    (mp_payoff (Pricer.model_parameters p)) (Pricer.NSteps p) step
                    fuel (Z.to_nat (od_NSIM od)) Hsteps Hfuel' 1%Z q l0)
          as (p' & l' & Hrun' & Hprice)
    end;
    rewrite Hrun in Hrun'; injection Hrun' as <- <-;
    rewrite Hrun; cbn [Pricer.price Pricer.eng] in Hprice;
    rewrite Rplus_0_l in Hprice; rewrite Hprice;
    reflexivity.
Qed.

(** X1: with an expiry that is not negative, on at least one path (and,
    under schemes 2 and 3, at least one time step) the price a run returns and stores is the discounted mean of the
    payoffs it has appended to the option price vector, under each of the
    three schemes: their sum over [NSIM], times [exp (- r * T)].  (Scheme 1
    divides every payoff by [NSIM] before it adds it, schemes 2 and 3 divide
    the sum; over the reals the two agree.  With no path schemes 2 and 3
    divide 0 by 0, and with no step they divide [T] by 0: the statement
    leaves both out.) *)
Theorem GeneralPricer_price_is_discounted_mean `{StdRandom} (fuel : nat) (p : Pricer.t)
    (engine_name payoff_name : string) :
  let od := Pricer.option_data p in
  let fdm := mp_fdm (Pricer.model_parameters p) in
  0 <= od_T od ->
  nth_error (Pricer.parameter_names p) 0 = Some engine_name ->
  nth_error (Pricer.parameter_names p) 2 = Some payoff_name ->
  (fdm = 1%Z /\ (0 < od_NSIM od < 2 ^ 32)%Z)
  \/ ((fdm = 2%Z \/ fdm = 3%Z) /\ (0 < od_NSIM od < 2 ^ 32 - 1)%Z
      /\ (0 < Pricer.NSteps p < 2 ^ 32 - 1)%Z
      /\ (S (Z.to_nat (Pricer.NSteps p)) < fuel)%nat) ->
  (Z.to_nat (od_NSIM od) < fuel)%nat ->
  exists (price : R) (p' : Pricer.t) (payoffs : list R),
    Pricer.GeneralPricer fuel p = Returned (price, p')
    /\ Pricer.m_price p' = price
    /\ Pricer.option_prices p' = Pricer.option_prices p ++ payoffs
    /\ Z.of_nat (List.length payoffs) = od_NSIM od
    /\ price = total payoffs / IZR (od_NSIM od) * exp (- od_r od * od_T od).
Proof.
  intros od fdm _ Hn0 Hn2 Hcase Hfuel.
  destruct Hcase as [[Hfdm HNSIM'] | (Hfdm & HNSIM' & Hsteps' & Hfuel')].
  - assert (HNSIM : (0 <= od_NSIM od < 2 ^ 32)%Z) by lia.
    pose proof (GeneralPricer_gbm_price fuel p engine_name payoff_name
                  Hn0 Hn2 Hfdm HNSIM Hfuel) as Hrun.
    cbv zeta in Hrun. fold od in Hrun.
    eexists. eexists. eexists. split; [exact Hrun|].
    split; [reflexivity|]. split; [reflexivity|]. split.
    + rewrite length_map, draws_length. lia.
    + f_equal. unfold Rdiv at 2. rewrite <- total_map_scale, map_map. reflexivity.
  - assert (HNSIM : (0 <= od_NSIM od < 2 ^ 32 - 1)%Z) by lia.
    assert (Hsteps : (0 <= Pricer.NSteps p < 2 ^ 32 - 1)%Z) by lia.
    pose proof (GeneralPricer_discretized_price fuel p engine_name payoff_name
                  Hn0 Hn2 Hfdm HNSIM Hsteps Hfuel Hfuel') as Hrun.
    cbv zeta in Hrun. fold od in Hrun.
    eexists. eexists. eexists. split; [exact Hrun|].
    split; [reflexivity|]. split; [reflexivity|]. split; [|reflexivity].
    rewrite length_map, path_values_length. lia.
Qed.

(** Two paths of two time steps each under scheme 2, on the variates 0, 1,
    2, 3. *)
Lemma GeneralPricer_price_is_discounted_mean_witness :
  exists (price : R) (p' : Pricer.t),
    Pricer.GeneralPricer (H := counting_random) 3
      (fixture_pricer (test_contract 2) 2 "European Put" 1)
    = Returned (price, p')
    /\ price = total (Pricer.option_prices p') / 2 * exp (- (0.08) * 0.25).
Proof.
  destruct (GeneralPricer_price_is_discounted_mean (H := counting_random) 3
              (fixture_pricer (test_contract 2) 2 "European Put" 1)
              "Default Random Engine" "European Put")
    as (price & p' & payoffs & Hrun & _ & Hprices & _ & Hprice);
    try reflexivity.
  - simpl. lra.
  - right. simpl. repeat split; lia.
  - simpl. lia.
  - exists price, p'. split; [exact Hrun|].
    rewrite Hprices. exact Hprice.
Defined.

(** ** The branch for an unknown scheme *)

(** When the scheme choice is none of 1, 2, 3, [GeneralPricer] raises
    nothing and draws nothing: it returns the price 0 at once, whatever the
    fuel, and leaves the sample vectors, the flag and [NSteps] as they were. *)
Theorem GeneralPricer_unknown_scheme `{StdRandom} (fuel : nat) (p : Pricer.t) :
  let fdm := mp_fdm (Pricer.model_parameters p) in
  (3 <= List.length (Pricer.parameter_names p))%nat ->
  fdm <> 1%Z -> fdm <> 2%Z -> fdm <> 3%Z ->
  Pricer.GeneralPricer fuel p = Returned (0, Pricer.set_m_price 0 p).
Proof.
  intros fdm Hnames H1 H2 H3. subst fdm.
  unfold Pricer.GeneralPricer, subscript.
  destruct (Pricer.parameter_names p) as [|n0 [|n1 [|n2 rest]]]; simpl in Hnames; try lia.
  simpl nth_error. cbv beta iota zeta delta [bind].
  destruct (mp_fdm (Pricer.model_parameters p)) as [|[[q|q|]|[q|q|]|]|q];
    try reflexivity; congruence.
Qed.

(** The scheme choice 7 on the contract of the test program. *)
Lemma GeneralPricer_unknown_scheme_witness :
  Pricer.GeneralPricer (H := zero_random) 0
    (fixture_pricer (test_contract 100000) 7 "European Put" 500)
  = Returned (0, Pricer.set_m_price 0
                   (fixture_pricer (test_contract 100000) 7 "European Put" 500)).
Proof.
  apply (GeneralPricer_unknown_scheme (H := zero_random)); simpl; lia.
Defined.

(** ** The name of the payoff *)

(** A run reads the engine name and, for the indicator that is always false,
    the payoff name: with other names that keep the engine name it is the
    same run, the names apart. *)
Lemma GeneralPricer_set_parameter_names `{StdRandom} (fuel : nat) (p : Pricer.t)
    (names' : list string) (engine_name n2 n2' : string) :
  nth_error (Pricer.parameter_names p) 0 = Some engine_name ->
  nth_error (Pricer.parameter_names p) 2 = Some n2 ->
  nth_error names' 0 = Some engine_name ->
  nth_error names' 2 = Some n2' ->
  Pricer.GeneralPricer fuel (Pricer.set_parameter_names names' p)
  = map_outcome (fun '(price, p') => (price, Pricer.set_parameter_names names' p'))
      (Pricer.GeneralPricer fuel p).
Proof.
  intros Hn0 Hn2 Hn0' Hn2'.
  set (h := fun s : Pricer.t * Pricer.locals =>
              (Pricer.set_parameter_names names' (fst s), snd s)).
  unfold Pricer.GeneralPricer, subscript.
  change (Pricer.parameter_names (Pricer.set_parameter_names names' p)) with names'.
  rewrite Hn0, Hn2, Hn0', Hn2'.
  cbv beta iota zeta delta [bind].
  fold (@bind (Pricer.t * Pricer.locals) (R * Pricer.t)).
  rewrite !asian_indicator_false.
  change (Pricer.model_parameters (Pricer.set_parameter_names names' p))
    with (Pricer.model_parameters p).
  change (Pricer.option_data (Pricer.set_parameter_names names' p))
    with (Pricer.option_data p).
  change (Pricer.NSteps (Pricer.set_parameter_names names' p)) with (Pricer.NSteps p).
  change (Pricer.NSteps (Pricer.set_explicit_euler true
                           (Pricer.set_parameter_names names' p)))
    with (Pricer.NSteps (Pricer.set_explicit_euler true p)).
  destruct (mp_fdm (Pricer.model_parameters p)) as [|[[k|k|]|[k|k|]|]|k];
    try reflexivity.
  - match goal with
    | |- context [for_unsigned fuel ?c ?b 1%Z (Pricer.set_explicit_euler true p, ?l0)] =>
        change (for_unsigned fuel c b 1%Z
                  (Pricer.set_explicit_euler true (Pricer.set_parameter_names names' p), l0))
          with (for_unsigned fuel c b 1%Z (h (Pricer.set_explicit_euler true p, l0)));
        rewrite (for_unsigned_map h c b);
        [ destruct (for_unsigned fuel c b 1%Z (Pricer.set_explicit_euler true p, l0))
            as [[q' l']| | |]; reflexivity |]
    end.
    intros i [q' l']. unfold Pricer.discretized_path, h. cbn [fst snd].
    destruct (for_unsigned fuel _ _ 0%Z _) as [l1| | |]; reflexivity.
  - match goal with
    | |- context [for_unsigned fuel ?c ?b 1%Z (Pricer.set_explicit_euler true p, ?l0)] =>
        change (for_unsigned fuel c b 1%Z
                  (Pricer.set_explicit_euler true (Pricer.set_parameter_names names' p), l0))
          with (for_unsigned fuel c b 1%Z (h (Pricer.set_explicit_euler true p, l0)));
        rewrite (for_unsigned_map h c b);
        [ destruct (for_unsigned fuel c b 1%Z (Pricer.set_explicit_euler true p, l0))
            as [[q' l']| | |]; reflexivity |]
    end.
    intros i [q' l']. unfold Pricer.discretized_path, h. cbn [fst snd].
    destruct (for_unsigned fuel _ _ 0%Z _) as [l1| | |]; reflexivity.
  - match goal with
    | |- context [for_unsigned fuel ?c ?b 0%Z (p, ?l0)] =>
        change (for_unsigned fuel c b 0%Z (Pricer.set_parameter_names names' p, l0))
          with (for_unsigned fuel c b 0%Z (h (p, l0)));
        rewrite (for_unsigned_map h c b);
        [ destruct (for_unsigned fuel c b 0%Z (p, l0)) as [[q' l']| | |]; reflexivity |]
    end.
    intros i [q' l']. unfold Pricer.gbm_path, h. cbn [fst snd].
    destruct (normal (Pricer.eng l')); reflexivity.
Qed.

(** X2: the name of the payoff has no part in the simulation.  Storing the
    same payoff under another name (Asian or not) with [setPayoffParameter]
    leaves the price and the two sample vectors of a run as they were. *)
Theorem GeneralPricer_ignores_payoff_name `{StdRandom} (fuel : nat) (p q : Pricer.t)
    (name : string) :
  Pricer.setPayoffParameter (mp_payoff (Pricer.model_parameters p)) name p = Returned q ->
  simulation_result (Pricer.GeneralPricer fuel q)
  = simulation_result (Pricer.GeneralPricer fuel p).
Proof.
  intros Hset. unfold Pricer.setPayoffParameter in Hset.
  destruct (Pricer.parameter_names _) as [|n0 [|n1 [|n2 rest]]] eqn:Hnames;
    try discriminate.
  injection Hset as <-.
  assert (Hq : {| Pricer.model_parameters :=
                    Pricer.model_parameters
                      (Pricer.set_model_parameters
                         {| mp_rng := mp_rng (Pricer.model_parameters p);
                            mp_fdm := mp_fdm (Pricer.model_parameters p);
                            mp_payoff := mp_payoff (Pricer.model_parameters p) |} p);
                  Pricer.parameter_names := n0 :: n1 :: name :: rest;
                  Pricer.option_data := Pricer.option_data p;
                  Pricer.explicit_euler := Pricer.explicit_euler p;
                  Pricer.stock_flunct := Pricer.stock_flunct p;
                  Pricer.option_prices := Pricer.option_prices p;
                  Pricer.m_price := Pricer.m_price p;
                  Pricer.NSteps := Pricer.NSteps p;
                  Pricer.UpperCap := Pricer.UpperCap p;
                  Pricer.LowerCap := Pricer.LowerCap p |}
               = Pricer.set_parameter_names (n0 :: n1 :: name :: rest) p).
  { destruct p as [[rng fdm payoff] names od flag stock prices mprice steps ucap lcap].
    reflexivity. }
  simpl in Hnames.
  match goal with
  | |- simulation_result (Pricer.GeneralPricer fuel ?q) = _ =>
      change q with
        {| Pricer.model_parameters :=
             Pricer.model_parameters
               (Pricer.set_model_parameters
                  {| mp_rng := mp_rng (Pricer.model_parameters p);
                     mp_fdm := mp_fdm (Pricer.model_parameters p);
                     mp_payoff := mp_payoff (Pricer.model_parameters p) |} p);
           Pricer.parameter_names := n0 :: n1 :: name :: rest;
           Pricer.option_data := Pricer.option_data p;
           Pricer.explicit_euler := Pricer.explicit_euler p;
           Pricer.stock_flunct := Pricer.stock_flunct p;
           Pricer.option_prices := Pricer.option_prices p;
           Pricer.m_price := Pricer.m_price p;
           Pricer.NSteps := Pricer.NSteps p;
           Pricer.UpperCap := Pricer.UpperCap p;
           Pricer.LowerCap := Pricer.LowerCap p |}
  end.
  rewrite Hq.
  rewrite (GeneralPricer_set_parameter_names fuel p _ n0 n2 name);
    try (rewrite Hnames; reflexivity); try reflexivity.
  destruct (Pricer.GeneralPricer fuel p) as [[price p']| | |]; reflexivity.
Qed.

(** The call of the test contract, stored again as an Asian call. *)
Lemma GeneralPricer_ignores_payoff_name_witness :
  let p := fixture_pricer (test_contract 2) 2 "European Call" 3 in
  let q := Pricer.set_parameter_names (fixture_names 2 "Asian Call") p in
  simulation_result (Pricer.GeneralPricer (H := counting_random) 5 q)
  = simulation_result (Pricer.GeneralPricer (H := counting_random) 5 p).
Proof.
  intros p q.
  apply (GeneralPricer_ignores_payoff_name (H := counting_random) 5 p q "Asian Call").
  reflexivity.
Defined.

(** ** What a session keeps *)

(** A run changes the price, the two sample vectors and, under schemes 2 and
    3, the flag, which it sets; everything else it leaves as it was. *)
Lemma GeneralPricer_frame `{StdRandom} (fuel : nat) (p p' : Pricer.t) (price : R) :
  Pricer.GeneralPricer fuel p = Returned (price, p') ->
  Pricer.model_parameters p' = Pricer.model_parameters p
  /\ Pricer.parameter_names p' = Pricer.parameter_names p
  /\ Pricer.option_data p' = Pricer.option_data p
  /\ Pricer.NSteps p' = Pricer.NSteps p
  /\ Pricer.UpperCap p' = Pricer.UpperCap p
  /\ Pricer.LowerCap p' = Pricer.LowerCap p
  /\ (Pricer.explicit_euler p = true -> Pricer.explicit_euler p' = true).
Proof.
  unfold Pricer.GeneralPricer, subscript.
  destruct (nth_error (Pricer.parameter_names p) 2); [|discriminate].
  destruct (nth_error (Pricer.parameter_names p) 0); [|discriminate].
  cbv beta iota zeta delta [bind].
  fold (@bind (Pricer.t * Pricer.locals) (R * Pricer.t)).
  set (P := fun s : Pricer.t * Pricer.locals =>
              Pricer.model_parameters (fst s) = Pricer.model_parameters p
              /\ Pricer.parameter_names (fst s) = Pricer.parameter_names p
              /\ Pricer.option_data (fst s) = Pricer.option_data p
              /\ Pricer.NSteps (fst s) = Pricer.NSteps p
              /\ Pricer.UpperCap (fst s) = Pricer.UpperCap p
              /\ Pricer.LowerCap (fst s) = Pricer.LowerCap p
              /\ (Pricer.explicit_euler p = true -> Pricer.explicit_euler (fst s) = true)).
  destruct (mp_fdm (Pricer.model_parameters p)) as [|[[q|q|]|[q|q|]|]|q];
    try (intros [= _ <-]; repeat split; auto);
    intros Hrun; apply bind_returned in Hrun;
    destruct Hrun as [[q' l'] [Hloop Hret]]; injection Hret as _ <-;
    change (P (q', l'));
    revert Hloop; apply for_unsigned_preserves;
    try (unfold P; simpl; repeat split; auto; fail);
    intros i [q1 l1] [q2 l2] Hq1.
  - unfold Pricer.discretized_path. intros Hb. apply bind_returned in Hb.
    destruct Hb as [l3 [_ Hb]]. injection Hb as <- _. exact Hq1.
  - unfold Pricer.discretized_path. intros Hb. apply bind_returned in Hb.
    destruct Hb as [l3 [_ Hb]]. injection Hb as <- _. exact Hq1.
  - unfold Pricer.gbm_path. destruct (normal (Pricer.eng l1)).
    intros [= <- _]. exact Hq1.
Qed.

(** X3: along the calls [Builder::run] makes on its pricer once [get] has
    set it up (runs, [output], the two clears, [setPayoffParameter]) the
    contract, the scheme, the stored generator, the names of the engine and
    of the scheme and the number of names stay as they were; only the payoff
    and its name change.  The flag of the time-discretized schemes, once
    set, stays set: no call clears it. *)
Theorem session_keeps_contract `{StdRandom} (p0 p : Pricer.t) :
  session p0 p ->
  Pricer.option_data p = Pricer.option_data p0
  /\ mp_fdm (Pricer.model_parameters p) = mp_fdm (Pricer.model_parameters p0)
  /\ mp_rng (Pricer.model_parameters p) = mp_rng (Pricer.model_parameters p0)
  /\ nth_error (Pricer.parameter_names p) 0 = nth_error (Pricer.parameter_names p0) 0
  /\ nth_error (Pricer.parameter_names p) 1 = nth_error (Pricer.parameter_names p0) 1
  /\ List.length (Pricer.parameter_names p) = List.length (Pricer.parameter_names p0)
  /\ (Pricer.explicit_euler p0 = true -> Pricer.explicit_euler p = true).
Proof.
  intros Hsession.
  induction Hsession as [|p p' _ (IHod & IHfdm & IHrng & IHn0 & IHn1 & IHlen & IHflag) Hstep];
    [repeat split; auto|].
  destruct Hstep as [fuel p p' price Hrun | p | p | p | payoff name p p' Hset].
  - destruct (GeneralPricer_frame _ _ _ _ Hrun)
      as (Hmp & Hnames & Hod & _ & _ & _ & Hflag).
    rewrite Hmp, Hnames, Hod. repeat split; auto.
  - unfold Pricer.output. destruct (Pricer.explicit_euler p) eqn:Hflag; simpl;
      repeat split; auto.
    intros H0. specialize (IHflag H0). congruence.
  - simpl. repeat split; auto.
  - simpl. repeat split; auto.
  - unfold Pricer.setPayoffParameter in Hset.
    destruct (Pricer.parameter_names _) as [|n0 [|n1 [|n2 rest]]] eqn:Hnames;
      try discriminate.
    injection Hset as <-. simpl in *.
    repeat split; auto.
Qed.

(** [output], the two clears and another payoff on a pricer that has run
    scheme 2. *)
Lemma session_keeps_contract_witness :
  let p0 := Pricer.set_explicit_euler true
              (fixture_pricer (test_contract 2) 2 "European Call" 1) in
  let p1 := Pricer.ClearTempOptionPriceVector
              (Pricer.ClearStockFlunctuationsVector (snd (Pricer.output p0))) in
  let p2 := Pricer.set_parameter_names (fixture_names 2 "Asian Call") p1 in
  Pricer.option_data p2 = test_contract 2
  /\ mp_fdm (Pricer.model_parameters p2) = 2%Z
  /\ Pricer.explicit_euler p2 = true.
Proof.
  intros p0 p1 p2.
  assert (Hsession : session (H := zero_random) p0 p2).
  { eapply session_next;
      [ eapply session_next;
        [ eapply session_next;
          [ eapply session_next; [apply session_start | apply step_output]
          | apply step_ClearStockFlunctuationsVector ]
        | apply step_ClearTempOptionPriceVector ]
      | apply (step_setPayoffParameter call_payoff "Asian Call"); reflexivity ]. }
  destruct (session_keeps_contract (H := zero_random) _ _ Hsession)
    as (Hod & Hfdm & _ & _ & _ & _ & Hflag).
  split; [exact Hod|]. split; [exact Hfdm|]. apply Hflag. reflexivity.
Defined.

(** ** Paths without volatility *)

(** A path whose every step multiplies the value by [g]. *)
Lemma path_value_growth `{StdRandom} (step : R -> R -> R) (g : R) :
  (forall V z : R, step V z = V * g) ->
  forall (n : nat) (S0 : R) (e : engine), path_value step n S0 e = S0 * g ^ n.
Proof.
  intros Hstep. unfold path_value.
  induction n as [|n IH]; intros S0 e; simpl.
  - ring.
  - rewrite IH, Hstep. ring.
Qed.

Lemma path_values_growth `{StdRandom} (step : R -> R -> R) (g : R) (n : nat) (S0 : R) :
  (forall V z : R, step V z = V * g) ->
  forall (k : nat) (e : engine), path_values step n S0 k e = repeat (S0 * g ^ n) k.
Proof.
  intros Hstep. induction k as [|k IH]; intros e; simpl; [reflexivity|].
  rewrite IH, (path_value_growth step g Hstep). reflexivity.
Qed.

(** With no volatility a step of either scheme multiplies the value by
    [1 + r * dt], whatever the variate. *)
Lemma scheme_step_zero_volatility (fdm : Z) (r dt V z : R) :
  scheme_step fdm r 0 dt V z = V * (1 + r * dt).
Proof.
  unfold scheme_step, Pricer.milstein_step, Pricer.euler_step, FDM_SDE.drift.
  destruct (fdm =? 2)%Z; rewrite ?diffusion_linear; ring.
Qed.

(** X4: with volatility 0, an expiry that is not negative and at least one
    time step, the value recorded for every path under scheme 2 or 3 is
    [S * (1 + r * T / NSteps) ^ (NSteps + 1)]: the time loop makes
    [NSteps + 1] updates of length [T / NSteps] each, one more than the
    [NSteps] that cover the expiry [T]. *)
Theorem zero_volatility_paths `{StdRandom} (fuel : nat) (p : Pricer.t)
    (engine_name payoff_name : string) :
  let od := Pricer.option_data p in
  let fdm := mp_fdm (Pricer.model_parameters p) in
  let dt := od_T od / IZR (Pricer.NSteps p) in
  od_vol od = 0 ->
  0 <= od_T od ->
  fdm = 2%Z \/ fdm = 3%Z ->
  nth_error (Pricer.parameter_names p) 0 = Some engine_name ->
  nth_error (Pricer.parameter_names p) 2 = Some payoff_name ->
  (0 <= od_NSIM od < 2 ^ 32 - 1)%Z ->
  (0 < Pricer.NSteps p < 2 ^ 32 - 1)%Z ->
  (Z.to_nat (od_NSIM od) < fuel)%nat ->
  (S (Z.to_nat (Pricer.NSteps p)) < fuel)%nat ->
  exists (price : R) (p' : Pricer.t),
    Pricer.GeneralPricer fuel p = Returned (price, p')
    /\ Pricer.stock_flunct p'
       = Pricer.stock_flunct p
         ++ repeat (od_S od * (1 + od_r od * dt) ^ (Z.to_nat (Pricer.NSteps p) + 1))
              (Z.to_nat (od_NSIM od)).
Proof.
  intros od fdm dt Hvol HT Hfdm Hn0 Hn2 HNSIM Hsteps' Hfuel Hfuel'.
  assert (Hsteps : (0 <= Pricer.NSteps p < 2 ^ 32 - 1)%Z) by lia.
  destruct (GeneralPricer_discretized fuel p engine_name payoff_name
              Hn0 Hn2 Hfdm HNSIM Hsteps Hfuel Hfuel') as [price Hrun].
  eexists. eexists. split; [exact Hrun|].
  cbn [Pricer.stock_flunct Pricer.set_m_price Pricer.set_option_prices
       Pricer.set_stock_flunct].
  f_equal. fold od. rewrite Hvol.
  rewrite (path_values_growth _ (1 + od_r od * dt)).
  - rewrite Nat.add_1_r. reflexivity.
  - intros V z. apply scheme_step_zero_volatility.
Qed.

(** Rate 0.08 over a quarter in one time step, three paths: the value
    recorded is [60 * 1.02 ^ 2], not [60 * 1.02]. *)
Lemma zero_volatility_paths_witness :
  exists (price : R) (p' : Pricer.t),
    Pricer.GeneralPricer (H := counting_random) 4
      (fixture_pricer
         {| od_vol := 0; od_r := 0.08; od_T := 0.25; od_S := 60; od_K := 65;
            od_NSIM := 3 |} 3 "European Call" 1)
    = Returned (price, p')
    /\ Pricer.stock_flunct p' = repeat (60 * (1 + 0.08 * (0.25 / 1)) ^ 2) 3.
Proof.
  destruct (zero_volatility_paths (H := counting_random) 4
              (fixture_pricer
                 {| od_vol := 0; od_r := 0.08; od_T := 0.25; od_S := 60; od_K := 65;
                    od_NSIM := 3 |} 3 "European Call" 1)
              "Default Random Engine" "European Call")
    as (price & p' & Hrun & Hstock);
    try reflexivity; try (simpl; lia); try (simpl; lra).
  exists price, p'. split; [exact Hrun | exact Hstock].
Defined.

(** ** The samples [ComputeStatistics] can process *)

Lemma double_to_int_outcome (x : R) :
  (MIS.double_to_int x = Returned (Cxx.trunc x) /\ int_valued x)
  \/ (MIS.double_to_int x = UndefinedBehaviour /\ ~ int_valued x).
Proof.
  unfold MIS.double_to_int, int_valued.
  destruct ((Cxx.INT_MIN <=? Cxx.trunc x) && (Cxx.trunc x <=? Cxx.INT_MAX))%Z eqn:Hb.
  - left. split; [reflexivity|].
    apply andb_true_iff in Hb. destruct Hb as [H1 H2].
    apply Z.leb_le in H1. apply Z.leb_le in H2. lia.
  - right. split; [reflexivity|].
    apply andb_false_iff in Hb. destruct Hb as [Hb | Hb]; apply Z.leb_gt in Hb; lia.
Qed.

(** [for_each] with an [int] parameter returns, with the body folded over
    the truncations, when every element is [int]-valued, and is undefined
    otherwise. *)
Lemma for_each_int_outcome {St : Type} (f : Z -> St -> St) :
  forall (v : list R) (s : St),
    (MIS.for_each_int v f s = Returned (fold_left (fun s x => f (Cxx.trunc x) s) v s)
     /\ Forall int_valued v)
    \/ (MIS.for_each_int v f s = UndefinedBehaviour /\ ~ Forall int_valued v).
Proof.
  induction v as [|x v IH]; intros s; simpl.
  - left. split; [reflexivity | constructor].
  - destruct (double_to_int_outcome x) as [[Hx Hin] | [Hx Hout]]; rewrite Hx; simpl.
    + destruct (IH (f (Cxx.trunc x) s)) as [[Hv Hall] | [Hv Hnot]].
      * left. split; [exact Hv | constructor; assumption].
      * right. split; [exact Hv|]. intros Hall. inversion Hall; subst. contradiction.
    + right. split; [reflexivity|]. intros Hall. inversion Hall; subst. contradiction.
Qed.

(** X5: [ComputeStatistics] returns exactly on a non-empty asset sample in
    which every asset value and every payoff truncates to an [int]; on every
    other input (an empty sample, as after a run of 0 paths, or a value of
    [2^31] or more) its behaviour is undefined: the end iterator of the empty
    vector is dereferenced, or a [double] is converted to an [int] that
    cannot hold it. *)
Theorem ComputeStatistics_returns_iff (pricer_res : PricerOutputMIS) (m : MIS.t) :
  let accepted :=
    mis_stock_flunct pricer_res <> []
    /\ Forall int_valued (mis_option_prices pricer_res)
    /\ Forall int_valued (mis_stock_flunct pricer_res) in
  ((exists m' : MIS.t, MIS.ComputeStatistics pricer_res m = Returned m') <-> accepted)
  /\ (~ accepted -> MIS.ComputeStatistics pricer_res m = UndefinedBehaviour).
Proof.
  intros accepted. subst accepted. unfold MIS.ComputeStatistics.
  match goal with
  | |- context [MIS.for_each_int (mis_option_prices pricer_res) ?f ?s] =>
      destruct (for_each_int_outcome f (mis_option_prices pricer_res) s)
        as [[Hsum Hprices] | [Hsum Hprices]]; rewrite Hsum
  end.
  2: { cbv beta iota zeta delta [bind]. split.
       - split; [intros [m' Hm']; discriminate | intros (_ & Hall & _); contradiction].
       - reflexivity. }
  destruct (fold_left _ (mis_option_prices pricer_res) (0, 0)) as [sum sum_sq].
  cbv beta iota zeta delta [bind].
  match goal with
  | |- context [MIS.for_each_int (mis_stock_flunct pricer_res) ?f ?s] =>
      destruct (for_each_int_outcome f (mis_stock_flunct pricer_res) s)
        as [[Hmean Hstock] | [Hmean Hstock]]; rewrite Hmean
  end.
  2: { split.
       - split; [intros [m' Hm']; discriminate | intros (_ & _ & Hall); contradiction].
       - reflexivity. }
  destruct (mis_stock_flunct pricer_res) as [|x stock]; simpl.
  - split.
    + split; [intros [m' Hm']; discriminate | intros (Hne & _); now elim Hne].
    + reflexivity.
  - split.
    + split; [intros _; repeat split; [discriminate | assumption | assumption]
             | intros _; eexists; reflexivity].
    + intros Hnot. elim Hnot. repeat split; [discriminate | assumption | assumption].
Qed.

(** ** The statistics of the asset sample *)

Lemma fold_left_largest (v : list R) :
  forall x : R,
    let largest := fold_left (fun largest y => if Rlt_dec largest y then y else largest) v x in
    In largest (x :: v) /\ forall y : R, In y (x :: v) -> y <= largest.
Proof.
  induction v as [|a v IH]; intros x; simpl.
  - split; [left; reflexivity|]. intros y [<- | []]. lra.
  - destruct (Rlt_dec x a) as [Hlt | Hge].
    + destruct (IH a) as [Hin Hmax]. simpl in Hin, Hmax. split.
      * right. exact Hin.
      * intros y [<- | Hy]; [|apply Hmax; exact Hy].
        apply Rle_trans with a; [lra|]. apply Hmax. left. reflexivity.
    + destruct (IH x) as [Hin Hmax]. simpl in Hin, Hmax. split.
      * destruct Hin as [Hin | Hin]; [left; exact Hin | right; right; exact Hin].
      * intros y [<- | [<- | Hy]].
        -- apply Hmax. left. reflexivity.
        -- apply Rle_trans with x; [lra|]. apply Hmax. left. reflexivity.
        -- apply Hmax. right. exact Hy.
Qed.

Lemma fold_left_smallest (v : list R) :
  forall x : R,
    let smallest := fold_left (fun smallest y => if Rlt_dec y smallest then y else smallest) v x in
    In smallest (x :: v) /\ forall y : R, In y (x :: v) -> smallest <= y.
Proof.
  induction v as [|a v IH]; intros x; simpl.
  - split; [left; reflexivity|]. intros y [<- | []]. lra.
  - destruct (Rlt_dec a x) as [Hlt | Hge].
    + destruct (IH a) as [Hin Hmin]. simpl in Hin, Hmin. split.
      * right. exact Hin.
      * intros y [<- | Hy]; [|apply Hmin; exact Hy].
        apply Rle_trans with a; [|lra]. apply Hmin. left. reflexivity.
    + destruct (IH x) as [Hin Hmin]. simpl in Hin, Hmin. split.
      * destruct Hin as [Hin | Hin]; [left; exact Hin | right; right; exact Hin].
      * intros y [<- | [<- | Hy]].
        -- apply Hmin. left. reflexivity.
        -- apply Rle_trans with x; [|lra]. apply Hmin. left. reflexivity.
        -- apply Hmin. right. exact Hy.
Qed.

(** What [ComputeStatistics] stores when it returns. *)
Lemma ComputeStatistics_returned (pricer_res : PricerOutputMIS) (m m' : MIS.t) :
  MIS.ComputeStatistics pricer_res m = Returned m' ->
  exists (x : R) (stock : list R),
    mis_stock_flunct pricer_res = x :: stock
    /\ MIS.mean_price m'
       = fold_left (fun s y => s + IZR (Cxx.trunc y)) (x :: stock) 0
         / IZR (MIS.size (x :: stock))
    /\ MIS.max_price m'
       = fold_left (fun largest y => if Rlt_dec largest y then y else largest) stock x
    /\ MIS.min_price m'
       = fold_left (fun smallest y => if Rlt_dec y smallest then y else smallest) stock x
    /\ MIS.exact_price m' = MIS.exact_price m
    /\ MIS.decision m' = MIS.decision m
    /\ MIS.elapsed_time m' = MIS.end_ m - MIS.start m
    /\ MIS.start m' = MIS.start m
    /\ MIS.end_ m' = MIS.end_ m.
Proof.
  unfold MIS.ComputeStatistics. intros Hrun.
  apply bind_returned in Hrun. destruct Hrun as [[sum sum_sq] [_ Hrun]].
  apply bind_returned in Hrun. destruct Hrun as [mean [Hmean Hrun]].
  destruct (for_each_int_outcome (fun n mean_price => mean_price + IZR n)
              (mis_stock_flunct pricer_res) 0) as [[Hfold _] | [Hundef _]];
    [|rewrite Hundef in Hmean; discriminate].
  rewrite Hfold in Hmean. injection Hmean as <-.
  destruct (mis_stock_flunct pricer_res) as [|x stock]; [discriminate|].
  simpl in Hrun. injection Hrun as <-.
  exists x, stock. repeat split; reflexivity.
Qed.

(** X6: the maximum and the minimum that [ComputeStatistics] reports are
    taken over the asset values as they are (not truncated): each is one of
    the recorded values, and every recorded value lies between them. *)
Theorem ComputeStatistics_max_min (pricer_res : PricerOutputMIS) (m m' : MIS.t) :
  MIS.ComputeStatistics pricer_res m = Returned m' ->
  In (MIS.max_price m') (mis_stock_flunct pricer_res)
  /\ In (MIS.min_price m') (mis_stock_flunct pricer_res)
  /\ forall V : R, In V (mis_stock_flunct pricer_res) ->
                   MIS.min_price m' <= V <= MIS.max_price m'.
Proof.
  intros Hrun.
  destruct (ComputeStatistics_returned _ _ _ Hrun)
    as (x & stock & Hstock & _ & Hmax & Hmin & _).
  rewrite Hstock, Hmax, Hmin.
  destruct (fold_left_largest stock x) as [Hin_max Hle_max].
  destruct (fold_left_smallest stock x) as [Hin_min Hle_min].
  split; [exact Hin_max|]. split; [exact Hin_min|].
  intros V HV. split; [apply Hle_min | apply Hle_max]; exact HV.
Qed.

(** A value strictly between [- 2^31] and [2^31] truncates to an [int]. *)
Lemma int_valued_bounded (x : R) : - 2147483648 < x < 2147483648 -> int_valued x.
Proof.
  intros Hx. unfold int_valued, Cxx.trunc, Cxx.INT_MIN, Cxx.INT_MAX.
  destruct (Rle_dec 0 x) as [Hpos | Hneg].
  - destruct (base_Int_part x) as [Hle Hgt].
    assert (H0 : (0 <= Int_part x)%Z).
    { apply Z.lt_succ_r. apply lt_IZR. rewrite succ_IZR. lra. }
    assert (H1 : (Int_part x < 2147483648)%Z) by (apply lt_IZR; lra).
    lia.
  - destruct (base_Int_part (- x)) as [Hle Hgt].
    assert (H0 : (0 <= Int_part (- x))%Z).
    { apply Z.lt_succ_r. apply lt_IZR. rewrite succ_IZR. lra. }
    assert (H1 : (Int_part (- x) < 2147483648)%Z) by (apply lt_IZR; lra).
    lia.
Qed.

(** On a non-empty asset sample of [int]-valued elements, with [int]-valued
    payoffs, [ComputeStatistics] returns. *)
Lemma ComputeStatistics_returns (pricer_res : PricerOutputMIS) (m : MIS.t) :
  mis_stock_flunct pricer_res <> [] ->
  Forall int_valued (mis_option_prices pricer_res) ->
  Forall int_valued (mis_stock_flunct pricer_res) ->
  exists m' : MIS.t, MIS.ComputeStatistics pricer_res m = Returned m'.
Proof.
  intros Hne Hprices Hstock. unfold MIS.ComputeStatistics.
  rewrite (for_each_int_fold _ _ _ Hprices).
  destruct (fold_left _ (mis_option_prices pricer_res) (0, 0)) as [sum sum_sq].
  cbv beta iota zeta delta [bind].
  rewrite (for_each_int_fold _ _ _ Hstock).
  destruct (mis_stock_flunct pricer_res) as [|x stock]; [now elim Hne|].
  simpl. eexists. reflexivity.
Qed.

(** The asset values 61, 60.5 and 62.25 with payoffs 0. *)
Lemma ComputeStatistics_max_min_witness :
  exists m' : MIS.t,
    MIS.ComputeStatistics
      {| mis_price := 0; mis_option_data := test_contract 3;
         mis_stock_flunct := [61; 60.5; 62.25]; mis_option_prices := [0; 0; 0];
         mis_names := fixture_names 1 "European Call" |} fixture_mis
    = Returned m'
    /\ MIS.min_price m' <= 60.5 <= MIS.max_price m'.
Proof.
  destruct (ComputeStatistics_returns
              {| mis_price := 0; mis_option_data := test_contract 3;
                 mis_stock_flunct := [61; 60.5; 62.25]; mis_option_prices := [0; 0; 0];
                 mis_names := fixture_names 1 "European Call" |} fixture_mis)
    as [m' Hrun].
  - discriminate.
  - repeat constructor; apply int_valued_bounded; lra.
  - repeat constructor; apply int_valued_bounded; lra.
  - exists m'. split; [exact Hrun|].
    apply (proj2 (proj2 (ComputeStatistics_max_min _ _ _ Hrun))).
    simpl. right. left. reflexivity.
Defined.

Lemma fold_left_plus_map {A : Type} (f : A -> R) (v : list A) :
  forall a : R, fold_left (fun s y => s + f y) v a = fold_left Rplus (map f v) a.
Proof.
  induction v as [|x v IH]; intros a; simpl; [reflexivity | apply IH].
Qed.

(** Truncation takes less than 1 from a value that is not negative. *)
Lemma trunc_nonneg_bounds (x : R) : 0 <= x -> x - 1 < IZR (Cxx.trunc x) <= x.
Proof.
  intros Hx. unfold Cxx.trunc. destruct (Rle_dec 0 x) as [_ | Hneg]; [|lra].
  destruct (base_Int_part x) as [Hle Hgt]. lra.
Qed.

Lemma total_trunc_bounds (v : list R) :
  Forall (fun V => 0 <= V) v ->
  total v - INR (List.length v) <= total (map (fun V => IZR (Cxx.trunc V)) v) <= total v
  /\ (v <> [] -> total v - INR (List.length v) < total (map (fun V => IZR (Cxx.trunc V)) v)).
Proof.
  induction 1 as [|x v Hx Hv [IH _]].
  - split; [|intros Hne; now elim Hne]. unfold total. simpl. lra.
  - pose proof (trunc_nonneg_bounds x Hx) as Hbounds.
    cbn [map]. rewrite !total_cons.
    change (List.length (x :: v)) with (S (List.length v)). rewrite S_INR.
    split; [|intros _]; lra.
Qed.

(** X7: the mean that [ComputeStatistics] reports is the mean of the asset
    values truncated to integers, each value having been passed to a lambda
    with an [int] parameter.  On a sample without negative values it lies
    below the mean of the values themselves, by less than 1. *)
Theorem ComputeStatistics_mean_truncated (pricer_res : PricerOutputMIS) (m m' : MIS.t) :
  MIS.ComputeStatistics pricer_res m = Returned m' ->
  let stock := mis_stock_flunct pricer_res in
  let n := IZR (MIS.size stock) in
  MIS.mean_price m' = total (map (fun V => IZR (Cxx.trunc V)) stock) / n
  /\ (Forall (fun V => 0 <= V) stock ->
      total stock / n - 1 < MIS.mean_price m' <= total stock / n).
Proof.
  intros Hrun stock n.
  destruct (ComputeStatistics_returned _ _ _ Hrun) as (x & rest & Hstock & Hmean & _).
  subst n stock. rewrite Hstock in *.
  assert (Hmean' : MIS.mean_price m'
                   = total (map (fun V => IZR (Cxx.trunc V)) (x :: rest))
                     / IZR (MIS.size (x :: rest))).
  { rewrite Hmean, fold_left_plus_map. reflexivity. }
  split; [exact Hmean'|].
  intros Hpos. rewrite Hmean'.
  destruct (total_trunc_bounds _ Hpos) as [[_ Hle] Hlt].
  specialize (Hlt ltac:(discriminate)).
  unfold MIS.size. rewrite <- INR_IZR_INZ.
  assert (Hn : 0 < INR (List.length (x :: rest))) by (apply lt_0_INR; simpl; lia).
  set (n := INR (List.length (x :: rest))) in *.
  set (tt := total (map (fun V => IZR (Cxx.trunc V)) (x :: rest))) in *.
  set (t := total (x :: rest)) in *.
  split.
  - apply Rmult_lt_reg_r with n; [exact Hn|].
    unfold Rdiv. replace ((t * / n - 1) * n) with (t * (/ n * n) - n) by ring.
    rewrite Rmult_assoc, Rinv_l by lra. lra.
  - apply Rmult_le_reg_r with n; [exact Hn|].
    unfold Rdiv. rewrite !Rmult_assoc, Rinv_l by lra. lra.
Qed.

(** The asset values 60.5 and 61.75: the mean reported is [(60 + 61) / 2]. *)
Lemma ComputeStatistics_mean_truncated_witness :
  exists m' : MIS.t,
    MIS.ComputeStatistics
      {| mis_price := 0; mis_option_data := test_contract 2;
         mis_stock_flunct := [60.5; 61.75]; mis_option_prices := [0; 0];
         mis_names := fixture_names 1 "European Call" |} fixture_mis
    = Returned m'
    /\ MIS.mean_price m' <= total [60.5; 61.75] / 2.
Proof.
  destruct (ComputeStatistics_returns
              {| mis_price := 0; mis_option_data := test_contract 2;
                 mis_stock_flunct := [60.5; 61.75]; mis_option_prices := [0; 0];
                 mis_names := fixture_names 1 "European Call" |} fixture_mis)
    as [m' Hrun].
  - discriminate.
  - repeat constructor; apply int_valued_bounded; lra.
  - repeat constructor; apply int_valued_bounded; lra.
  - exists m'. split; [exact Hrun|].
    apply (proj2 (ComputeStatistics_mean_truncated _ _ _ Hrun)).
    simpl. repeat constructor; lra.
Defined.

(** ** The benchmark [ExactPrice] chooses *)

(** The pattern of [ExactPrice] matches the names that end in [Call] after
    characters none of which ends a line. *)
Lemma match_any_Call_suffix (name : string) :
  Regex.match_any_Call name = true
  <-> exists pre : string, name = (pre ++ "Call")%string /\ Regex.dot_star pre = true.
Proof.
  split.
  - induction name as [|c name IH]; [discriminate|].
    cbn [Regex.match_any_Call]. intros Hm. apply orb_true_iff in Hm.
    destruct Hm as [Heq | Hm].
    + apply String.eqb_eq in Heq. exists ""%string. split; [exact Heq | reflexivity].
    + apply andb_true_iff in Hm. destruct Hm as [Hc Hm].
      destruct (IH Hm) as (pre & -> & Hpre).
      exists (String c pre). split; [reflexivity|].
      simpl. rewrite Hc, Hpre. reflexivity.
  - intros (pre & -> & Hpre). induction pre as [|c pre IH]; [reflexivity|].
    simpl in Hpre. apply andb_true_iff in Hpre. destruct Hpre as [Hc Hpre].
    change (String c pre ++ "Call")%string with (String c (pre ++ "Call")%string).
    cbn [Regex.match_any_Call]. rewrite Hc, (IH Hpre). apply orb_true_r.
Qed.

(** X8: on a contract with positive volatility, expiry, spot and strike,
    [ExactPrice] chooses the benchmark by the end of the payoff name alone.
    A name that ends in [Call] (European, Asian or any other) gets the
    Black-Scholes price of the European call on the contract; every other
    name, whether of a put or not, gets the price of the European put.  The
    value returned is 0 in both cases. *)
Theorem ExactPrice_dispatch_on_suffix (pricer_res : PricerOutputMIS) (m : MIS.t)
    (name : string) :
  let od := mis_option_data pricer_res in
  let ends_in_Call :=
    exists pre : string, name = (pre ++ "Call")%string /\ Regex.dot_star pre = true in
  regular_contract od ->
  nth_error (mis_names pricer_res) 2 = Some name ->
  exists m' : MIS.t,
    MIS.ExactPrice pricer_res m = Returned (0%Z, m')
    /\ (ends_in_Call -> MIS.exact_price m' = black_scholes_call od)
    /\ (~ ends_in_Call -> MIS.exact_price m' = black_scholes_put od).
Proof.
  intros od ends_in_Call _ Hname. subst ends_in_Call.
  unfold MIS.ExactPrice, subscript. rewrite Hname.
  cbv beta iota zeta delta [bind]. fold od.
  assert (Hd1 : (ln (od_S od / od_K od) + (od_r od + Cxx.pow (od_vol od) 2 / 2) * od_T od)
                / (od_vol od * sqrt (od_T od)) = black_scholes_d1 od).
  { unfold black_scholes_d1. rewrite pow_2. simpl. now rewrite Rmult_1_r. }
  rewrite !Hd1. fold (black_scholes_d2 od).
  replace ((od_r od - od_r od) * od_T od) with 0 by ring. rewrite exp_0, !Rmult_1_r.
  destruct (Regex.match_any_Call name) eqn:Hmatch.
  - eexists. split; [reflexivity|]. split.
    + intros _. reflexivity.
    + intros Hnot. elim Hnot. apply match_any_Call_suffix. exact Hmatch.
  - eexists. split; [reflexivity|]. split.
    + intros Hends. apply match_any_Call_suffix in Hends. congruence.
    + intros _. reflexivity.
Qed.

(** An Asian call is given the benchmark of the European call. *)
Lemma ExactPrice_dispatch_on_suffix_witness :
  let pricer_res := {| mis_price := 0; mis_option_data := test_contract 2;
                       mis_stock_flunct := []; mis_option_prices := [];
                       mis_names := fixture_names 2 "Asian Call" |} in
  exists m' : MIS.t,
    MIS.ExactPrice pricer_res fixture_mis = Returned (0%Z, m')
    /\ MIS.exact_price m' = black_scholes_call (test_contract 2).
Proof.
  intros pricer_res.
  assert (Hregular : regular_contract (mis_option_data pricer_res))
    by (unfold regular_contract; simpl; lra).
  destruct (ExactPrice_dispatch_on_suffix pricer_res fixture_mis "Asian Call"
              Hregular eq_refl)
    as (m' & Hrun & Hcall & _).
  exists m'. split; [exact Hrun|].
  apply Hcall. exists "Asian "%string. split; reflexivity.
Defined.

(** ** One iteration of multi-pricing *)

Lemma total_map_div {A : Type} (f : A -> R) (c : R) (v : list A) :
  total (map (fun z => f z / c) v) = total (map f v) / c.
Proof.
  unfold Rdiv. rewrite <- total_map_scale, map_map. reflexivity.
Qed.

(** A run that does all its paths, whatever the scheme. *)
Lemma GeneralPricer_returns `{StdRandom} (fuel : nat) (p : Pricer.t)
    (engine_name payoff_name : string) :
  let od := Pricer.option_data p in
  let values := simulated_values p engine_name in
  let payoff := mp_payoff (Pricer.model_parameters p) (od_K od) in
  let price := total (map payoff values) / IZR (od_NSIM od)
               * exp (- od_r od * od_T od) in
  nth_error (Pricer.parameter_names p) 0 = Some engine_name ->
  nth_error (Pricer.parameter_names p) 2 = Some payoff_name ->
  run_fits fuel p ->
  Pricer.GeneralPricer fuel p
  = Returned
      (price,
       Pricer.set_m_price price
         (Pricer.set_option_prices (Pricer.option_prices p ++ map payoff values)
            (Pricer.set_stock_flunct (Pricer.stock_flunct p ++ values)
               (if (mp_fdm (Pricer.model_parameters p) =? 1)%Z then p
                else Pricer.set_explicit_euler true p))))
  /\ List.length values = Z.to_nat (od_NSIM od).
Proof.
  intros od values payoff price Hn0 Hn2 [Hcase Hfuel].
  subst price payoff values. unfold simulated_values. fold od.
  destruct Hcase as [[Hfdm HNSIM] | (Hfdm & HNSIM & Hsteps & Hfuel')].
  - rewrite Hfdm. simpl Z.eqb. cbv iota. split.
    + rewrite (GeneralPricer_gbm_price fuel p engine_name payoff_name
                 Hn0 Hn2 Hfdm HNSIM Hfuel).
      fold od. rewrite !map_map, total_map_div. reflexivity.
    + rewrite length_map. apply draws_length.
  - replace (mp_fdm (Pricer.model_parameters p) =? 1)%Z with false
      by (symmetry; apply Z.eqb_neq; lia).
    split.
    + exact (GeneralPricer_discretized_price fuel p engine_name payoff_name
               Hn0 Hn2 Hfdm HNSIM Hsteps Hfuel Hfuel').
    + apply path_values_length.
Qed.

(** The benchmark stored by [ExactPrice], by the payoff name. *)
Lemma ExactPrice_benchmark (pricer_res : PricerOutputMIS) (m : MIS.t) (name : string) :
  nth_error (mis_names pricer_res) 2 = Some name ->
  MIS.ExactPrice pricer_res m
  = Returned (0%Z,
              MIS.set_exact_price
                (if Regex.match_any_Call name
                 then black_scholes_call (mis_option_data pricer_res)
                 else black_scholes_put (mis_option_data pricer_res)) m).
Proof.
  intros Hname. unfold MIS.ExactPrice, subscript. rewrite Hname.
  cbv beta iota zeta delta [bind].
  set (od := mis_option_data pricer_res).
  assert (Hd1 : (ln (od_S od / od_K od) + (od_r od + Cxx.pow (od_vol od) 2 / 2) * od_T od)
                / (od_vol od * sqrt (od_T od)) = black_scholes_d1 od).
  { unfold black_scholes_d1. rewrite pow_2. simpl. now rewrite Rmult_1_r. }
  rewrite !Hd1. fold (black_scholes_d2 od).
  replace ((od_r od - od_r od) * od_T od) with 0 by ring. rewrite exp_0, !Rmult_1_r.
  destruct (Regex.match_any_Call name); reflexivity.
Qed.

(** An iteration on a pricer with cleared sample vectors, at least one
    path, counts that fit the loop counters and samples that truncate to
    [int]s: the statistics are computed, and the iteration returns. *)
Lemma multiPricer_runs `{StdRandom} (fuel : nat) (start_time end_time : R)
    (p : Pricer.t) (m : MIS.t) (l : MultiOutputList)
    (engine_name payoff_name : string) :
  let od := Pricer.option_data p in
  let fdm := mp_fdm (Pricer.model_parameters p) in
  let values := simulated_values p engine_name in
  let payoff := mp_payoff (Pricer.model_parameters p) (od_K od) in
  let price := total (map payoff values) / IZR (od_NSIM od)
               * exp (- od_r od * od_T od) in
  let exact := if Regex.match_any_Call payoff_name
               then black_scholes_call od else black_scholes_put od in
  let flag := if (fdm =? 1)%Z then Pricer.explicit_euler p else true in
  let steps := if flag then Pricer.NSteps p else 0%Z in
  let p' := Pricer.set_NSteps steps
              (Pricer.set_m_price price (Pricer.set_explicit_euler flag p)) in
  let mis_out := {| mis_price := price; mis_option_data := od;
                    mis_stock_flunct := values; mis_option_prices := map payoff values;
                    mis_names := Pricer.parameter_names p |} in
  let out := {| res_price := price; res_option_data := od; res_NSteps := steps;
                res_names := Pricer.parameter_names p;
                res_upper_cap := Pricer.UpperCap p;
                res_lower_cap := Pricer.LowerCap p |} in
  Pricer.stock_flunct p = [] ->
  Pricer.option_prices p = [] ->
  nth_error (Pricer.parameter_names p) 0 = Some engine_name ->
  nth_error (Pricer.parameter_names p) 2 = Some payoff_name ->
  run_fits fuel p ->
  (0 < od_NSIM od)%Z ->
  Forall int_valued values ->
  Forall int_valued (map payoff values) ->
  exists m1 : MIS.t,
    MIS.ComputeStatistics mis_out
      (MIS.EndStopWatch end_time (MIS.StartStopWatch start_time m)) = Returned m1
    /\ Builder.multiPricer fuel start_time end_time (p, m, l)
       = Returned
           (p',
            MIS.ResetStopWatch (MIS.DecisionMaking mis_out (MIS.set_exact_price exact m1)),
            l ++ [(out, MIS.getStatistics
                          (MIS.DecisionMaking mis_out (MIS.set_exact_price exact m1)))]).
Proof.
  intros od fdm values payoff price exact flag steps p' mis_out out
         Hstock Hprices Hn0 Hn2 Hfits Hpos Hvalues Hpayoffs.
  destruct (GeneralPricer_returns fuel p engine_name payoff_name Hn0 Hn2 Hfits)
    as [Hrun Hlen].
  fold od values payoff price fdm in Hrun, Hlen.
  rewrite Hstock, Hprices in Hrun. simpl app in Hrun.
  assert (Hne : values <> []).
  { intros Hnil. rewrite Hnil in Hlen. simpl in Hlen. lia. }
  destruct (ComputeStatistics_returns mis_out
              (MIS.EndStopWatch end_time (MIS.StartStopWatch start_time m)))
    as [m1 Hcs]; try assumption.
  exists m1. split; [exact Hcs|].
  unfold Builder.multiPricer. rewrite Hrun.
  cbv beta iota zeta delta [bind].
  set (q := Pricer.set_m_price price _).
  assert (Hout : Pricer.output q
                 = (out, Pricer.set_stock_flunct values
                           (Pricer.set_option_prices (map payoff values) p'))).
  { unfold Pricer.output. subst q p' out steps flag.
    destruct (fdm =? 1)%Z; [destruct (Pricer.explicit_euler p) eqn:Hflag|];
      cbn [Pricer.explicit_euler Pricer.set_m_price Pricer.set_option_prices
           Pricer.set_stock_flunct Pricer.set_explicit_euler];
      rewrite ?Hflag; destruct p; simpl in *; subst; reflexivity. }
  rewrite Hout.
  change (Pricer.MIS_output
            (Pricer.set_stock_flunct values
               (Pricer.set_option_prices (map payoff values) p')))
    with mis_out.
  rewrite Hcs.
  rewrite (ExactPrice_benchmark mis_out m1 payoff_name) by exact Hn2.
  replace (Pricer.ClearTempOptionPriceVector
             (Pricer.ClearStockFlunctuationsVector
                (Pricer.set_stock_flunct values
                   (Pricer.set_option_prices (map payoff values) p'))))
    with p'; [reflexivity|].
  subst p'. destruct p; simpl in *; subst; reflexivity.
Qed.

(** X9: one iteration of multi-pricing, the lambda [multiPricer] of
    [Builder::run], on a pricer with cleared sample vectors, a contract with
    positive volatility, expiry, spot and strike, at least one path (and one
    time step under schemes 2 and 3), counts that fit the loop counters and
    samples that truncate to [int]s.  It returns; it appends one output to the list, whose price is
    the discounted mean of the payoffs of the simulated values, whose
    benchmark is the Black-Scholes price chosen by the payoff name, whose
    decision tells whether the two differ by less than 0.01, whose elapsed
    time is the difference of the two clock readings and whose maximum and
    minimum are simulated values; and it leaves the sample vectors cleared
    and the elapsed time of the stopwatch at 0 for the next iteration. *)
Theorem multiPricer_output `{StdRandom} (fuel : nat) (start_time end_time : R)
    (p : Pricer.t) (m : MIS.t) (l : MultiOutputList)
    (engine_name payoff_name : string) :
  let od := Pricer.option_data p in
  let values := simulated_values p engine_name in
  let payoff := mp_payoff (Pricer.model_parameters p) (od_K od) in
  let price := total (map payoff values) / IZR (od_NSIM od)
               * exp (- od_r od * od_T od) in
  let exact := if Regex.match_any_Call payoff_name
               then black_scholes_call od else black_scholes_put od in
  Pricer.stock_flunct p = [] ->
  Pricer.option_prices p = [] ->
  nth_error (Pricer.parameter_names p) 0 = Some engine_name ->
  nth_error (Pricer.parameter_names p) 2 = Some payoff_name ->
  regular_contract od ->
  run_fits fuel p ->
  (0 < od_NSIM od)%Z ->
  positive_steps p ->
  Forall int_valued values ->
  Forall int_valued (map payoff values) ->
  exists (p' : Pricer.t) (m' : MIS.t) (out : PricerResults) (st : Statistics),
    Builder.multiPricer fuel start_time end_time (p, m, l)
    = Returned (p', m', l ++ [(out, st)])
    /\ res_price out = price
    /\ res_option_data out = od
    /\ res_names out = Pricer.parameter_names p
    /\ st_exact_price st = exact
    /\ (st_decision st = true <-> Rabs (exact - price) < 0.01)
    /\ st_elapsed_time st = end_time - start_time
    /\ In (st_max_price st) values
    /\ In (st_min_price st) values
    /\ Pricer.stock_flunct p' = []
    /\ Pricer.option_prices p' = []
    /\ MIS.elapsed_time m' = 0.
Proof.
  intros od values payoff price exact Hstock Hprices Hn0 Hn2 _ Hfits Hpos _
         Hvalues Hpayoffs.
  destruct (multiPricer_runs fuel start_time end_time p m l engine_name payoff_name
              Hstock Hprices Hn0 Hn2 Hfits Hpos Hvalues Hpayoffs)
    as (m1 & Hcs & Hrun).
  fold od values payoff price exact in Hcs, Hrun.
  destruct (ComputeStatistics_returned _ _ _ Hcs)
    as (x & rest & Hx & _ & Hmax & Hmin & _ & _ & Helapsed & _).
  cbn [mis_stock_flunct] in Hx.
  eexists. eexists. eexists. eexists. split; [exact Hrun|].
  split; [reflexivity|]. split; [reflexivity|]. split; [reflexivity|].
  split; [unfold MIS.DecisionMaking; destruct (Rlt_dec _ _); reflexivity|]. split.
  { cbn [st_decision MIS.getStatistics]. unfold MIS.DecisionMaking.
    cbn [MIS.exact_price MIS.set_exact_price mis_price].
    destruct (Rlt_dec (Rabs (exact - price)) 0.01) as [Hlt | Hge]; simpl.
    - split; [intros _; exact Hlt | reflexivity].
    - split; [discriminate | intros Hlt; contradiction]. }
  split.
  { cbn [st_elapsed_time MIS.getStatistics]. unfold MIS.DecisionMaking.
    destruct (Rlt_dec _ _); cbn [MIS.elapsed_time MIS.set_decision MIS.set_exact_price];
      rewrite Helapsed; reflexivity. }
  split.
  { cbn [st_max_price MIS.getStatistics]. unfold MIS.DecisionMaking.
    destruct (Rlt_dec _ _); cbn [MIS.max_price MIS.set_decision MIS.set_exact_price];
      rewrite Hmax, Hx; apply (fold_left_largest rest x). }
  split.
  { cbn [st_min_price MIS.getStatistics]. unfold MIS.DecisionMaking.
    destruct (Rlt_dec _ _); cbn [MIS.min_price MIS.set_decision MIS.set_exact_price];
      rewrite Hmin, Hx; apply (fold_left_smallest rest x). }
  split; [exact Hstock|]. split; [exact Hprices | reflexivity].
Qed.

(** The sample of one path of two Euler steps on the variates 0: the asset
    value 62.424. *)
Lemma simulated_values_fixture :
  simulated_values (H := zero_random)
    (fixture_pricer (test_contract 1) 2 "European Call" 1) "Default Random Engine"
  = [62.424].
Proof.
  assert (Hstep : forall V : R,
             scheme_step 2 0.08 0.3 (0.25 / 1) V 0 = 1.02 * V).
  { intros V. unfold scheme_step, Pricer.euler_step, FDM_SDE.drift. simpl.
    rewrite diffusion_linear. lra. }
  unfold simulated_values. simpl. unfold path_value. simpl.
  rewrite !Hstep. f_equal. lra.
Qed.

(** One iteration on one path of two Euler steps, between the clock
    readings 0 and 1.5. *)
Lemma multiPricer_output_witness :
  exists (p' : Pricer.t) (m' : MIS.t) (out : PricerResults) (st : Statistics),
    Builder.multiPricer (H := zero_random) 3 0 1.5
      (fixture_pricer (test_contract 1) 2 "European Call" 1, fixture_mis, [])
    = Returned (p', m', [(out, st)])
    /\ st_elapsed_time st = 1.5 - 0
    /\ st_max_price st = 62.424
    /\ Pricer.stock_flunct p' = [].
Proof.
  destruct (multiPricer_output (H := zero_random) 3 0 1.5
              (fixture_pricer (test_contract 1) 2 "European Call" 1) fixture_mis []
              "Default Random Engine" "European Call")
    as (p' & m' & out & st & Hrun & _ & _ & _ & _ & _ & Helapsed & Hmax & _ & Hstock & _);
    try reflexivity.
  - unfold regular_contract. simpl. lra.
  - unfold run_fits. simpl. change (Pos.to_nat 1) with 1%nat.
    split; [right; split; [left; reflexivity | lia] | lia].
  - right. reflexivity.
  - rewrite simulated_values_fixture.
    apply Forall_cons; [apply int_valued_bounded; lra | apply Forall_nil].
  - rewrite simulated_values_fixture.
    apply Forall_cons; [|apply Forall_nil]. apply int_valued_bounded.
    simpl. unfold call_payoff. rewrite Rmax_right by lra. lra.
  - exists p', m', out, st. split; [exact Hrun|]. split; [exact Helapsed|].
    split; [|exact Hstock].
    rewrite simulated_values_fixture in Hmax. destruct Hmax as [Hmax | []].
    symmetry. exact Hmax.
Defined.

(** On an empty asset sample the end iterator is dereferenced. *)
Lemma ComputeStatistics_empty_stock (pricer_res : PricerOutputMIS) (m : MIS.t) :
  mis_stock_flunct pricer_res = [] ->
  MIS.ComputeStatistics pricer_res m = UndefinedBehaviour.
Proof.
  intros Hstock. unfold MIS.ComputeStatistics. rewrite Hstock.
  match goal with
  | |- context [MIS.for_each_int (mis_option_prices pricer_res) ?f ?s] =>
      destruct (for_each_int_outcome f (mis_option_prices pricer_res) s)
        as [[Hsum _] | [Hsum _]]; rewrite Hsum
  end; [|reflexivity].
  destruct (fold_left _ (mis_option_prices pricer_res) (0, 0)) as [sum sum_sq].
  reflexivity.
Qed.

(** [output] changes [NSteps] at most. *)
Lemma output_stock_flunct (p : Pricer.t) :
  Pricer.stock_flunct (snd (Pricer.output p)) = Pricer.stock_flunct p.
Proof. unfold Pricer.output. destruct (Pricer.explicit_euler p); reflexivity. Qed.

(** X10: an iteration of multi-pricing that simulates no path has undefined
    behaviour, whatever the fuel given to its loops: with a path count of 0
    (which [Input::setOptionData] accepts) or a scheme choice other than 1, 2
    and 3, [GeneralPricer] hands over empty sample vectors, and
    [ComputeStatistics] dereferences the end of the empty asset vector. *)
Theorem multiPricer_without_paths_undefined `{StdRandom} (fuel : nat)
    (start_time end_time : R) (p : Pricer.t) (m : MIS.t) (l : MultiOutputList) :
  let od := Pricer.option_data p in
  let fdm := mp_fdm (Pricer.model_parameters p) in
  Pricer.stock_flunct p = [] ->
  od_NSIM od = 0%Z \/ (fdm <> 1%Z /\ fdm <> 2%Z /\ fdm <> 3%Z) ->
  (1 <= fuel)%nat ->
  Builder.multiPricer fuel start_time end_time (p, m, l) = UndefinedBehaviour.
Proof.
  intros od fdm Hstock Hcase Hfuel. subst od fdm.
  assert (Hrun : Pricer.GeneralPricer fuel p = UndefinedBehaviour
                 \/ exists (price : R) (q : Pricer.t),
                      Pricer.GeneralPricer fuel p = Returned (price, q)
                      /\ Pricer.stock_flunct q = []).
  { unfold Pricer.GeneralPricer, subscript.
    destruct (nth_error (Pricer.parameter_names p) 2); [|left; reflexivity].
    destruct (nth_error (Pricer.parameter_names p) 0); [|left; reflexivity].
    right. cbv beta iota zeta delta [bind].
    destruct fuel as [|fuel]; [lia|].
    destruct Hcase as [HNSIM | (H1 & H2 & H3)].
    - destruct (mp_fdm (Pricer.model_parameters p)) as [|[[k|k|]|[k|k|]|]|k];
        cbn [for_unsigned]; rewrite ?HNSIM; simpl;
        eexists; eexists; (split; [reflexivity | exact Hstock]).
    - destruct (mp_fdm (Pricer.model_parameters p)) as [|[[k|k|]|[k|k|]|]|k];
        try congruence;
        eexists; eexists; (split; [reflexivity | exact Hstock]). }
  unfold Builder.multiPricer.
  destruct Hrun as [Hrun | (price & q & Hrun & Hq)]; rewrite Hrun; [reflexivity|].
  cbv beta iota zeta delta [bind].
  destruct (Pricer.output q) as [general_output q'] eqn:Hout.
  rewrite ComputeStatistics_empty_stock; [reflexivity|].
  change q' with (snd (general_output, q')). rewrite <- Hout.
  cbn [mis_stock_flunct Pricer.MIS_output]. rewrite output_stock_flunct. exact Hq.
Qed.

(** No path on the contract of the test program under scheme 1. *)
Lemma multiPricer_without_paths_undefined_witness :
  Builder.multiPricer (H := zero_random) 1 0 1
    (fixture_pricer (test_contract 0) 1 "European Call" 0, fixture_mis, [])
  = UndefinedBehaviour.
Proof.
  apply (multiPricer_without_paths_undefined (H := zero_random)).
  - reflexivity.
  - left. reflexivity.
  - lia.
Defined.

(** What an iteration that returns has done: the run, the statistics on its
    output, one entry appended, the vectors cleared. *)
Lemma multiPricer_returned `{StdRandom} (fuel : nat) (start_time end_time : R)
    (p p1 : Pricer.t) (m m1 : MIS.t) (l l1 : MultiOutputList) :
  Builder.multiPricer fuel start_time end_time (p, m, l) = Returned (p1, m1, l1) ->
  exists (price : R) (q : Pricer.t) (m_cs : MIS.t) (st : Statistics),
    Pricer.GeneralPricer fuel p = Returned (price, q)
    /\ MIS.ComputeStatistics (Pricer.MIS_output (snd (Pricer.output q)))
         (MIS.EndStopWatch end_time (MIS.StartStopWatch start_time m))
       = Returned m_cs
    /\ p1 = Pricer.ClearTempOptionPriceVector
              (Pricer.ClearStockFlunctuationsVector (snd (Pricer.output q)))
    /\ l1 = l ++ [(fst (Pricer.output q), st)]
    /\ st_mean_price st = MIS.mean_price m_cs
    /\ st_max_price st = MIS.max_price m_cs
    /\ st_min_price st = MIS.min_price m_cs.
Proof.
  unfold Builder.multiPricer. intros Hrun.
  apply bind_returned in Hrun. destruct Hrun as [[price q] [Hgp Hrun]].
  destruct (Pricer.output q) as [general_output q'] eqn:Hout.
  apply bind_returned in Hrun. destruct Hrun as [m_cs [Hcs Hrun]].
  apply bind_returned in Hrun. destruct Hrun as [[z m_ex] [Hex Hrun]].
  injection Hrun as <- <- <-.
  unfold MIS.ExactPrice in Hex.
  apply bind_returned in Hex. destruct Hex as [name [_ Hex]].
  exists price, q, m_cs. eexists. rewrite Hout. cbn [fst snd].
  split; [exact Hgp|]. split; [exact Hcs|]. split; [reflexivity|].
  split; [reflexivity|].
  unfold MIS.DecisionMaking.
  destruct (Regex.match_any_Call name); injection Hex as _ <-;
    destruct (Rlt_dec _ _); repeat split; reflexivity.
Qed.

(** The asset values of a run depend on the contract, the scheme, the
    engine and, under schemes 2 and 3, the number of steps. *)
Lemma simulated_values_ext `{StdRandom} (p q : Pricer.t) (engine_name : string) :
  Pricer.option_data q = Pricer.option_data p ->
  mp_fdm (Pricer.model_parameters q) = mp_fdm (Pricer.model_parameters p) ->
  (mp_fdm (Pricer.model_parameters p) <> 1%Z -> Pricer.NSteps q = Pricer.NSteps p) ->
  simulated_values q engine_name = simulated_values p engine_name.
Proof.
  intros Hod Hfdm Hsteps. unfold simulated_values. rewrite Hod, Hfdm.
  destruct (mp_fdm (Pricer.model_parameters p) =? 1)%Z eqn:Hcase; [reflexivity|].
  apply Z.eqb_neq in Hcase. rewrite (Hsteps Hcase). reflexivity.
Qed.

(** X11: multi-pricing prices every option on the same simulated paths.
    When an iteration is followed by [setPayoffParameter] with another payoff
    and by the next iteration, as in the loop of [Builder::run], the second
    run draws again from a newly constructed engine: the two outputs appended
    report the same mean, maximum and minimum asset value and the same
    contract. *)
Theorem multiPricer_repeats_the_paths `{StdRandom} (fuel : nat)
    (t0 t1 t2 t3 : R) (p p1 p2 p3 : Pricer.t) (m m1 m3 : MIS.t)
    (l l1 l3 : MultiOutputList) (engine_name payoff_name name' : string)
    (payoff' : PayoffFunctionType) :
  Pricer.stock_flunct p = [] ->
  nth_error (Pricer.parameter_names p) 0 = Some engine_name ->
  nth_error (Pricer.parameter_names p) 2 = Some payoff_name ->
  run_fits fuel p ->
  Builder.multiPricer fuel t0 t1 (p, m, l) = Returned (p1, m1, l1) ->
  Pricer.setPayoffParameter payoff' name' p1 = Returned p2 ->
  Builder.multiPricer fuel t2 t3 (p2, m1, l1) = Returned (p3, m3, l3) ->
  exists (out1 out2 : PricerResults) (st1 st2 : Statistics),
    l3 = l ++ [(out1, st1); (out2, st2)]
    /\ st_mean_price st2 = st_mean_price st1
    /\ st_max_price st2 = st_max_price st1
    /\ st_min_price st2 = st_min_price st1
    /\ res_option_data out2 = res_option_data out1.
Proof.
  intros Hstock Hn0 Hn2 Hfits Hrun1 Hset Hrun2.
  destruct (multiPricer_returned _ _ _ _ _ _ _ _ _ Hrun1)
    as (price1 & q1 & mcs1 & st1 & Hgp1 & Hcs1 & -> & -> & Hmean1 & Hmax1 & Hmin1).
  destruct (multiPricer_returned _ _ _ _ _ _ _ _ _ Hrun2)
    as (price2 & q2 & mcs2 & st2 & Hgp2 & Hcs2 & _ & -> & Hmean2 & Hmax2 & Hmin2).
  exists (fst (Pricer.output q1)), (fst (Pricer.output q2)), st1, st2.
  split; [rewrite <- app_assoc; reflexivity|].
  (* the first run *)
  destruct (GeneralPricer_returns fuel p engine_name payoff_name Hn0 Hn2 Hfits)
    as [Hret1 _].
  rewrite Hret1 in Hgp1. injection Hgp1 as _ Hq1. rewrite Hstock in Hq1.
  simpl app in Hq1.
  assert (Hq1_od : Pricer.option_data q1 = Pricer.option_data p).
  { rewrite <- Hq1. destruct (_ =? 1)%Z; reflexivity. }
  assert (Hq1_fdm : mp_fdm (Pricer.model_parameters q1)
                    = mp_fdm (Pricer.model_parameters p)).
  { rewrite <- Hq1. destruct (_ =? 1)%Z; reflexivity. }
  assert (Hq1_names : Pricer.parameter_names q1 = Pricer.parameter_names p).
  { rewrite <- Hq1. destruct (_ =? 1)%Z; reflexivity. }
  assert (Hq1_stock : Pricer.stock_flunct q1 = simulated_values p engine_name).
  { rewrite <- Hq1. destruct (_ =? 1)%Z; reflexivity. }
  assert (Hq1_steps : mp_fdm (Pricer.model_parameters p) <> 1%Z ->
                      Pricer.NSteps (snd (Pricer.output q1)) = Pricer.NSteps p).
  { intros Hneq. apply Z.eqb_neq in Hneq. rewrite <- Hq1, Hneq. reflexivity. }
  (* the pricer of the second run *)
  set (r1 := snd (Pricer.output q1)) in *.
  assert (Hr1 : Pricer.option_data r1 = Pricer.option_data p
                /\ mp_fdm (Pricer.model_parameters r1) = mp_fdm (Pricer.model_parameters p)
                /\ Pricer.parameter_names r1 = Pricer.parameter_names p).
  { subst r1. unfold Pricer.output. destruct (Pricer.explicit_euler q1); simpl;
      repeat split; assumption. }
  destruct Hr1 as (Hr1_od & Hr1_fdm & Hr1_names).
  unfold Pricer.setPayoffParameter in Hset. simpl in Hset.
  rewrite Hr1_names in Hset.
  destruct (Pricer.parameter_names p) as [|n0 [|n1 [|n2 rest]]] eqn:Hnames;
    try discriminate.
  injection Hset as <-.
  simpl in Hn0. injection Hn0 as ->.
  match type of Hgp2 with
  | Pricer.GeneralPricer fuel ?p2' = _ => set (p2 := p2') in *
  end.
  assert (Hp2_od : Pricer.option_data p2 = Pricer.option_data p) by exact Hr1_od.
  assert (Hp2_fdm : mp_fdm (Pricer.model_parameters p2)
                    = mp_fdm (Pricer.model_parameters p)) by exact Hr1_fdm.
  assert (Hp2_steps : mp_fdm (Pricer.model_parameters p) <> 1%Z ->
                      Pricer.NSteps p2 = Pricer.NSteps p) by exact Hq1_steps.
  assert (Hp2_values : simulated_values p2 engine_name = simulated_values p engine_name)
    by (apply simulated_values_ext; assumption).
  destruct (GeneralPricer_returns fuel p2 engine_name name' eq_refl eq_refl)
    as [Hret2 _].
  { unfold run_fits in *. rewrite Hp2_od, Hp2_fdm.
    destruct Hfits as [[[Hfdm HNSIM] | (Hfdm & HNSIM & Hsteps & Hfuel')] Hfuel].
    - split; [left; split; assumption | assumption].
    - rewrite Hp2_steps by lia.
      split; [right; split; [exact Hfdm | split; [exact HNSIM | split;
                [exact Hsteps | exact Hfuel']]] | exact Hfuel]. }
  rewrite Hret2 in Hgp2. injection Hgp2 as _ Hq2.
  assert (Hq2_stock : Pricer.stock_flunct q2 = simulated_values p engine_name).
  { rewrite <- Hq2.
    cbn [Pricer.stock_flunct Pricer.set_m_price Pricer.set_option_prices
         Pricer.set_stock_flunct].
    rewrite Hp2_values. reflexivity. }
  assert (Hq2_od : Pricer.option_data q2 = Pricer.option_data p).
  { rewrite <- Hq2.
    cbn [Pricer.option_data Pricer.set_m_price Pricer.set_option_prices
         Pricer.set_stock_flunct].
    destruct (mp_fdm (Pricer.model_parameters r1) =? 1)%Z; exact Hp2_od. }
  (* the statistics *)
  destruct (ComputeStatistics_returned _ _ _ Hcs1)
    as (x1 & rest1 & Hx1 & Hm1 & Hmx1 & Hmn1 & _).
  destruct (ComputeStatistics_returned _ _ _ Hcs2)
    as (x2 & rest2 & Hx2 & Hm2 & Hmx2 & Hmn2 & _).
  cbn [mis_stock_flunct Pricer.MIS_output] in Hx1, Hx2.
  unfold r1 in Hx1. rewrite output_stock_flunct in Hx1, Hx2.
  rewrite Hq1_stock in Hx1. rewrite Hq2_stock, Hx1 in Hx2.
  injection Hx2 as <- <-.
  rewrite Hmean1, Hmean2, Hmax1, Hmax2, Hmin1, Hmin2, Hm1, Hm2, Hmx1, Hmx2, Hmn1, Hmn2.
  repeat split; try reflexivity.
  unfold Pricer.output.
  destruct (Pricer.explicit_euler q1), (Pricer.explicit_euler q2); simpl; congruence.
Qed.

(** Two iterations on one path of two Euler steps: a call, then a put. *)
Lemma multiPricer_repeats_the_paths_witness :
  let p := fixture_pricer (test_contract 1) 2 "European Call" 1 in
  let put := fun K V : R => Rmax (K - V) 0 in
  exists (p1 p2 p3 : Pricer.t) (m1 m3 : MIS.t) (l1 : MultiOutputList)
         (out1 out2 : PricerResults) (st1 st2 : Statistics),
    Builder.multiPricer (H := zero_random) 3 0 1 (p, fixture_mis, [])
    = Returned (p1, m1, l1)
    /\ Pricer.setPayoffParameter put "European Put" p1 = Returned p2
    /\ Builder.multiPricer (H := zero_random) 3 2 3 (p2, m1, l1)
       = Returned (p3, m3, [(out1, st1); (out2, st2)])
    /\ st_mean_price st2 = st_mean_price st1
    /\ st_max_price st2 = st_max_price st1.
Proof.
  intros p put.
  assert (Hfits : run_fits 3 p).
  { unfold run_fits. simpl. change (Pos.to_nat 1) with 1%nat.
    split; [right; split; [left; reflexivity | lia] | lia]. }
  destruct (multiPricer_runs (H := zero_random) 3 0 1 p fixture_mis []
              "Default Random Engine" "European Call") as (m1 & _ & Hrun1);
    try reflexivity; try exact Hfits.
  { unfold p. rewrite simulated_values_fixture.
    apply Forall_cons; [apply int_valued_bounded; lra | apply Forall_nil]. }
  { unfold p. rewrite simulated_values_fixture.
    apply Forall_cons; [|apply Forall_nil]. apply int_valued_bounded.
    simpl. unfold call_payoff. rewrite Rmax_right by lra. lra. }
  match type of Hrun1 with
  | _ = Returned (?q, ?mA, ?lA) => set (p1 := q) in *; set (mis1 := mA) in *;
                                   set (l1 := lA) in *
  end.
  assert (Hset : exists p2 : Pricer.t,
             Pricer.setPayoffParameter put "European Put" p1 = Returned p2
             /\ Pricer.option_data p2 = Pricer.option_data p
             /\ mp_fdm (Pricer.model_parameters p2) = 2%Z
             /\ mp_payoff (Pricer.model_parameters p2) = put
             /\ Pricer.NSteps p2 = 1%Z
             /\ Pricer.stock_flunct p2 = []
             /\ Pricer.option_prices p2 = []
             /\ Pricer.parameter_names p2 = fixture_names 2 "European Put").
  { eexists. split; [reflexivity|]. repeat split; reflexivity. }
  destruct Hset as (p2 & Hset & Hod & Hfdm & Hpayoff & Hsteps & Hstock & Hprices & Hnames).
  assert (Hvalues : simulated_values (H := zero_random) p2 "Default Random Engine"
                    = [62.424]).
  { rewrite (simulated_values_ext p p2); [apply simulated_values_fixture | | |];
      try assumption.
    intros _. exact Hsteps. }
  destruct (multiPricer_runs (H := zero_random) 3 2 3 p2 mis1 l1
              "Default Random Engine" "European Put") as (m2 & _ & Hrun2);
    try assumption; try (rewrite Hnames; reflexivity).
  { unfold run_fits. rewrite Hod, Hfdm, Hsteps. exact Hfits. }
  { rewrite Hod. reflexivity. }
  { rewrite Hvalues.
    apply Forall_cons; [apply int_valued_bounded; lra | apply Forall_nil]. }
  { rewrite Hvalues, Hpayoff, Hod.
    apply Forall_cons; [|apply Forall_nil]. apply int_valued_bounded.
    simpl. unfold put. rewrite Rmax_left by lra. lra. }
  destruct (multiPricer_repeats_the_paths (H := zero_random) 3 0 1 2 3
              p p1 p2 _ fixture_mis mis1 _ [] l1 _
              "Default Random Engine" "European Call" "European Put" put
              eq_refl eq_refl eq_refl Hfits Hrun1 Hset Hrun2)
    as (out1 & out2 & st1 & st2 & Hl3 & Hmean & Hmax & _).
  exists p1, p2. eexists. exists mis1. eexists. exists l1.
  exists out1, out2, st1, st2.
  split; [exact Hrun1|]. split; [exact Hset|].
  split; [cbn [app] in Hl3; rewrite <- Hl3; exact Hrun2|].
  split; [exact Hmean | exact Hmax].
Defined.

(** ** The interactive front end *)

Lemma double_lt_true (x y : R) : Cxx.double_lt x y = true <-> x < y.
Proof.
  unfold Cxx.double_lt. destruct (Rlt_dec x y); split; intros; try assumption;
    try reflexivity; try discriminate; contradiction.
Qed.

(** A field that is checked against [0] and [10]. *)
Lemma checked_between {A : Type} (x d : R) (failed : bool) (s1 s2 : A) :
  0 <= d <= 10 ->
  0 <= fst (if (Cxx.double_lt 10 x || Cxx.double_lt x 0 || failed)%bool
            then (d, s1) else (x, s2)) <= 10.
Proof.
  intros Hd.
  destruct (Cxx.double_lt 10 x) eqn:H10; [exact Hd|].
  destruct (Cxx.double_lt x 0) eqn:H0; [exact Hd|].
  destruct failed; [exact Hd|]. simpl.
  unfold Cxx.double_lt in *.
  destruct (Rlt_dec 10 x); [discriminate|]. destruct (Rlt_dec x 0); [discriminate|].
  lra.
Qed.

(** A field that is checked against [0]. *)
Lemma checked_nonneg {A : Type} (x d : R) (failed : bool) (s1 s2 : A) :
  0 <= d ->
  0 <= fst (if (Cxx.double_lt x 0 || failed)%bool then (d, s1) else (x, s2)).
Proof.
  intros Hd.
  destruct (Cxx.double_lt x 0) eqn:H0; [exact Hd|].
  destruct failed; [exact Hd|]. simpl.
  unfold Cxx.double_lt in *. destruct (Rlt_dec x 0); [discriminate|]. lra.
Qed.

(** X12: whatever is typed, the option data that [Input::setOptionData]
    returns has a volatility and a rate in [[0, 10]] and an expiry, a spot
    and a strike that are not negative. *)
Theorem setOptionData_ranges {Hcin : StdCin} (cin : istream) (this : Input.t) :
  let od := fst (fst (Input.setOptionData cin this)) in
  0 <= od_vol od <= 10
  /\ 0 <= od_r od <= 10
  /\ 0 <= od_T od
  /\ 0 <= od_S od
  /\ 0 <= od_K od
  /\ (0 <= od_NSIM od)%Z.
Proof.
  unfold Input.setOptionData.
  destruct (extract_double cin) as [x1 c1].
  match goal with
  | |- context [if ?c then (?d, ?s1) else (?x, ?s2)] =>
      pose proof (checked_between x d (cin_fail c1) s1 s2 ltac:(lra)) as H1;
      destruct (if c then (d, s1) else (x, s2)) as [vol' c1']
  end.
  destruct (extract_double c1') as [x2 c2].
  match goal with
  | |- context [if ?c then (?d, ?s1) else (?x, ?s2)] =>
      pose proof (checked_between x d (cin_fail c2) s1 s2 ltac:(lra)) as H2;
      destruct (if c then (d, s1) else (x, s2)) as [r' c2']
  end.
  destruct (extract_double c2') as [x3 c3].
  match goal with
  | |- context [if ?c then (?d, ?s1) else (?x, ?s2)] =>
      pose proof (checked_nonneg x d (cin_fail c3) s1 s2 ltac:(lra)) as H3;
      destruct (if c then (d, s1) else (x, s2)) as [T' c3']
  end.
  destruct (extract_double c3') as [x4 c4].
  match goal with
  | |- context [if ?c then (?d, ?s1) else (?x, ?s2)] =>
      pose proof (checked_nonneg x d (cin_fail c4) s1 s2 ltac:(lra)) as H4;
      destruct (if c then (d, s1) else (x, s2)) as [S' c4']
  end.
  destruct (extract_double c4') as [x5 c5].
  match goal with
  | |- context [if ?c then (?d, ?s1) else (?x, ?s2)] =>
      pose proof (checked_nonneg x d (cin_fail c5) s1 s2 ltac:(lra)) as H5;
      destruct (if c then (d, s1) else (x, s2)) as [K' c5']
  end.
  destruct (extract_unsigned_long c5') as [x6 c6].
  match goal with
  | |- context [if ?c then (?d, ?s1) else (?x, ?s2)] =>
      destruct (if c then (d, s1) else (x, s2)) as [NSIM' c6']
  end.
  simpl in *. repeat split; try lra; lia.
Qed.

Lemma double_lt_false (x y : R) : y <= x -> Cxx.double_lt x y = false.
Proof.
  intros Hle. unfold Cxx.double_lt. destruct (Rlt_dec x y); [lra | reflexivity].
Qed.

(** X13: six entries that are read without failure and lie in the ranges
    are returned as they were typed, and the input is left where the last
    extraction left it: nothing is cleared or discarded.  The ranges include
    their bounds, so a volatility, an expiry, a strike or a path count of 0
    is kept; the test [NSIM < 0] on the [unsigned long] never holds. *)
Theorem setOptionData_keeps_valid_input {Hcin : StdCin}
    (cin c1 c2 c3 c4 c5 c6 : istream) (this : Input.t)
    (vol r T S0 K : R) (NSIM : N) :
  extract_double cin = (Some vol, c1) -> cin_fail c1 = false -> 0 <= vol <= 10 ->
  extract_double c1 = (Some r, c2) -> cin_fail c2 = false -> 0 <= r <= 10 ->
  extract_double c2 = (Some T, c3) -> cin_fail c3 = false -> 0 <= T ->
  extract_double c3 = (Some S0, c4) -> cin_fail c4 = false -> 0 <= S0 ->
  extract_double c4 = (Some K, c5) -> cin_fail c5 = false -> 0 <= K ->
  extract_unsigned_long c5 = (Some NSIM, c6) -> cin_fail c6 = false ->
  Input.setOptionData cin this
  = ({| od_vol := vol; od_r := r; od_T := T; od_S := S0; od_K := K;
        od_NSIM := Z.of_N NSIM |},
     {| Input.vol := vol; Input.r := r; Input.T := T; Input.S := S0; Input.K := K;
        Input.NSIM := NSIM |},
     c6).
Proof.
  intros E1 F1 R1 E2 F2 R2 E3 F3 R3 E4 F4 R4 E5 F5 R5 E6 F6.
  unfold Input.setOptionData.
  rewrite E1. cbn [stored].
  rewrite (double_lt_false 10 vol), (double_lt_false vol 0), F1 by lra. cbn [orb].
  rewrite E2. cbn [stored].
  rewrite (double_lt_false 10 r), (double_lt_false r 0), F2 by lra. cbn [orb].
  rewrite E3. cbn [stored].
  rewrite (double_lt_false T 0), F3 by lra. cbn [orb].
  rewrite E4. cbn [stored].
  rewrite (double_lt_false S0 0), F4 by lra. cbn [orb].
  rewrite E5. cbn [stored].
  rewrite (double_lt_false K 0), F5 by lra. cbn [orb].
  rewrite E6. cbn [stored].
  replace (NSIM <? 0)%N with false by (symmetry; apply N.ltb_ge; lia).
  rewrite F6. reflexivity.
Qed.

(** Volatility 0, rate 0, expiry 0, spot 60, strike 65 and 0 paths are typed
    and kept. *)
Lemma setOptionData_keeps_valid_input_witness :
  fst (fst (Input.setOptionData (Hcin := scripted_cin)
              (typed [number 0; number 0; number 0; number 60; number 65; number 0])
              {| Input.vol := 1; Input.r := 1; Input.T := 1; Input.S := 1; Input.K := 1;
                 Input.NSIM := 1 |}))
  = {| od_vol := 0; od_r := 0; od_T := 0; od_S := 60; od_K := 65; od_NSIM := 0 |}.
Proof.
  rewrite (setOptionData_keeps_valid_input (Hcin := scripted_cin)
             (typed [number 0; number 0; number 0; number 60; number 65; number 0])
             (typed [number 0; number 0; number 60; number 65; number 0])
             (typed [number 0; number 60; number 65; number 0])
             (typed [number 60; number 65; number 0])
             (typed [number 65; number 0])
             (typed [number 0])
             (typed [])
             _ 0 0 0 60 65 0);
    try reflexivity; simpl; lra.
Defined.

(** A [while] loop that returns leaves its condition false. *)
Lemma while_loop_returned {St : Type} (cond : St -> bool) (body : St -> outcome St) :
  forall (fuel : nat) (s s' : St),
    while_loop fuel cond body s = Returned s' -> cond s' = false.
Proof.
  induction fuel as [|fuel IH]; intros s s'; simpl; [discriminate|].
  destruct (cond s) eqn:Hcond.
  - intros Hrun. apply bind_returned in Hrun. destruct Hrun as [s1 [_ Hrest]].
    exact (IH _ _ Hrest).
  - intros [= <-]. exact Hcond.
Qed.

(** What [FDM_SDE::FDM] hands over when it returns. *)
Lemma FDM_returned {Hcin : StdCin} (fuel : nat) (cin cin' : istream)
    (this this' : FDM_SDE.t) (c : Z) (name : string) :
  FDM_SDE.FDM fuel cin this = Returned (c, name, this', cin') ->
  ((c = 1%Z /\ name = "GBM"%string)
   \/ (c = 2%Z /\ name = "Explicit Euler"%string)
   \/ (c = 3%Z /\ name = "Milstein Method"%string))
  /\ this' = {| FDM_SDE.fdm_choice := c; FDM_SDE.fdm_name := name |}
  /\ cin_fail cin' = false.
Proof.
  unfold FDM_SDE.FDM.
  destruct (extract_int cin) as [x cin1].
  intros Hrun. apply bind_returned in Hrun.
  destruct Hrun as [[choice cin2] [Hloop Hret]].
  apply while_loop_returned in Hloop.
  destruct choice as [|[[k|k|]|[k|k|]|]|k]; injection Hret as <- <- <- <-;
    (split; [|split; [reflexivity | exact Hloop]]); tauto.
Qed.

(** X14: whatever is typed, a call of [FDM_SDE::FDM] that returns hands over
    one of the three schemes with its name, (1, GBM), (2, Explicit Euler) or
    (3, Milstein Method), stores it in the members, and leaves the input not
    failed; so the branch of [GeneralPricer] for an unknown scheme is out of
    reach of the menu.  When the first extraction succeeds the call returns
    at once, with the number typed if it is 1, 2 or 3 and with scheme 1 for
    every other number. *)
Theorem FDM_returns_a_scheme {Hcin : StdCin} (fuel : nat) (cin : istream)
    (this : FDM_SDE.t) :
  (forall (c : Z) (name : string) (this' : FDM_SDE.t) (cin' : istream),
      FDM_SDE.FDM fuel cin this = Returned (c, name, this', cin') ->
      ((c = 1%Z /\ name = "GBM"%string)
       \/ (c = 2%Z /\ name = "Explicit Euler"%string)
       \/ (c = 3%Z /\ name = "Milstein Method"%string))
      /\ this' = {| FDM_SDE.fdm_choice := c; FDM_SDE.fdm_name := name |}
      /\ cin_fail cin' = false)
  /\ (forall (typed_choice : Z) (cin1 : istream),
        extract_int cin = (Some typed_choice, cin1) ->
        cin_fail cin1 = false ->
        (1 <= fuel)%nat ->
        let c := if ((1 <=? typed_choice) && (typed_choice <=? 3))%Z
                 then typed_choice else 1%Z in
        exists name : string,
          FDM_SDE.FDM fuel cin this
          = Returned (c, name, {| FDM_SDE.fdm_choice := c; FDM_SDE.fdm_name := name |},
                      cin1)).
Proof.
  split.
  - intros c name this' cin'. apply FDM_returned.
  - intros typed_choice cin1 Hextract Hfail Hfuel c. subst c.
    unfold FDM_SDE.FDM. rewrite Hextract. cbn [stored].
    destruct fuel as [|fuel]; [lia|]. cbn [while_loop]. rewrite Hfail.
    cbv beta iota zeta delta [bind].
    destruct typed_choice as [|[[k|k|]|[k|k|]|]|k]; eexists; reflexivity.
Qed.

(** The number 7 is typed: scheme 1 is taken. *)
Lemma FDM_returns_a_scheme_witness :
  exists name : string,
    FDM_SDE.FDM (Hcin := scripted_cin) 1 (typed [number 7])
      {| FDM_SDE.fdm_choice := 0; FDM_SDE.fdm_name := "" |}
    = Returned (1%Z, name, {| FDM_SDE.fdm_choice := 1; FDM_SDE.fdm_name := name |},
                typed []).
Proof.
  apply (proj2 (FDM_returns_a_scheme (Hcin := scripted_cin) 1 (typed [number 7])
                  {| FDM_SDE.fdm_choice := 0; FDM_SDE.fdm_name := "" |})
           7%Z (typed [])).
  - reflexivity.
  - reflexivity.
  - lia.
Defined.

(** What [RNG::Gaussian] hands over when it returns. *)
Lemma Gaussian_returned `{StdRandom} {Hcin : StdCin} (fuel : nat) (cin cin' : istream)
    (this this' : RNG.t) (f : Z -> R) (name : string) :
  RNG.Gaussian fuel cin this = Returned (f, name, this', cin') ->
  ((name = "Default Random Engine"%string /\ f = RNG.DefaultRandomEngine)
   \/ (name = "Mersenne Twister"%string /\ f = RNG.MersenneTwisterEngine))
  /\ simulation_engine name = default_engine
  /\ this' = {| RNG.m_random := f; RNG.engine_name := name |}
  /\ cin_fail cin' = false.
Proof.
  unfold RNG.Gaussian.
  destruct (extract_unsigned cin) as [x cin1].
  intros Hrun. apply bind_returned in Hrun.
  destruct Hrun as [[choice cin2] [Hloop Hret]].
  apply while_loop_returned in Hloop.
  apply bind_returned in Hret. destruct Hret as [c [_ Hret]].
  destruct c as [|[[k|k|]|[k|k|]|]]; injection Hret as <- <- <- <-;
    (split; [|split; [reflexivity | split; [reflexivity | exact Hloop]]]);
    tauto.
Qed.

(** X15: whatever is typed, the engine name that [RNG::Gaussian] hands over
    is [Default Random Engine] or [Mersenne Twister], with the generator
    that goes with it.  Neither is the name [Mersenne Twister Engine] that
    [GeneralPricer] compares with: after either choice the simulation draws
    from the default-constructed engine.  When 2 is typed at the first
    extraction the call returns the Mersenne Twister generator under the name
    [Mersenne Twister]. *)
Theorem Gaussian_engine_name `{StdRandom} {Hcin : StdCin} (fuel : nat) (cin : istream)
    (this : RNG.t) :
  (forall (f : Z -> R) (name : string) (this' : RNG.t) (cin' : istream),
      RNG.Gaussian fuel cin this = Returned (f, name, this', cin') ->
      ((name = "Default Random Engine"%string /\ f = RNG.DefaultRandomEngine)
       \/ (name = "Mersenne Twister"%string /\ f = RNG.MersenneTwisterEngine))
      /\ simulation_engine name = default_engine
      /\ this' = {| RNG.m_random := f; RNG.engine_name := name |}
      /\ cin_fail cin' = false)
  /\ (forall cin1 : istream,
        extract_unsigned cin = (Some 2%N, cin1) ->
        cin_fail cin1 = false ->
        (1 <= fuel)%nat ->
        RNG.Gaussian fuel cin this
        = Returned (RNG.MersenneTwisterEngine, "Mersenne Twister"%string,
                    {| RNG.m_random := RNG.MersenneTwisterEngine;
                       RNG.engine_name := "Mersenne Twister" |}, cin1)).
Proof.
  split.
  - intros f name this' cin'. apply Gaussian_returned.
  - intros cin1 Hextract Hfail Hfuel.
    unfold RNG.Gaussian. rewrite Hextract.
    destruct fuel as [|fuel]; [lia|]. cbn [while_loop]. rewrite Hfail.
    reflexivity.
Qed.

(** A word, then 2: the second attempt chooses the Mersenne Twister, and the
    simulation still draws from the default-constructed engine. *)
Lemma Gaussian_engine_name_witness :
  exists (f : Z -> R) (name : string) (this' : RNG.t),
    RNG.Gaussian (H := counting_random) (Hcin := scripted_cin) 2
      (typed [word; number 2])
      {| RNG.m_random := fun _ => 0; RNG.engine_name := "" |}
    = Returned (f, name, this', typed [])
    /\ name = "Mersenne Twister"%string
    /\ simulation_engine (H := counting_random) name = O.
Proof.
  eexists. eexists. eexists. split; [reflexivity|]. split; [reflexivity|].
  apply (proj1 (Gaussian_engine_name (H := counting_random) (Hcin := scripted_cin) 2
                  (typed [word; number 2])
                  {| RNG.m_random := fun _ => 0; RNG.engine_name := "" |})
           _ _ _ (typed []) eq_refl).
Defined.

(** A loop has no undefined behaviour that its body does not have. *)
Lemma for_unsigned_defined {St : Type} (cond : Z -> bool)
    (body : Z -> St -> outcome St) :
  (forall j s, body j s <> UndefinedBehaviour) ->
  forall (fuel : nat) (i : Z) (s : St),
    for_unsigned fuel cond body i s <> UndefinedBehaviour.
Proof.
  intros Hbody. induction fuel as [|fuel IH]; intros i s; simpl.
  - discriminate.
  - destruct (cond i); [|discriminate].
    destruct (body i s) as [s1|e1| |] eqn:Hb; simpl; try discriminate.
    + apply IH.
    + exfalso. exact (Hbody _ _ Hb).
Qed.

(** With three names or more a run has no undefined behaviour. *)
Lemma GeneralPricer_defined `{StdRandom} (fuel : nat) (p : Pricer.t) :
  (3 <= List.length (Pricer.parameter_names p))%nat ->
  Pricer.GeneralPricer fuel p <> UndefinedBehaviour.
Proof.
  intros Hnames. unfold Pricer.GeneralPricer, subscript.
  destruct (Pricer.parameter_names p) as [|n0 [|n1 [|n2 rest]]]; simpl in Hnames; try lia.
  simpl nth_error. cbv beta iota zeta delta [bind].
  fold (@bind (Pricer.t * Pricer.locals) (R * Pricer.t)).
  assert (Hpath : forall S0 K payoff asian steps f step j (s : Pricer.t * Pricer.locals),
             Pricer.discretized_path S0 K payoff asian steps f step j s
             <> UndefinedBehaviour).
  { intros S0 K payoff asian steps f step j [q l]. unfold Pricer.discretized_path.
    destruct (for_unsigned f _ _ 0%Z _) as [l1| | |] eqn:Hloop; simpl; try discriminate.
    exfalso. revert Hloop. apply for_unsigned_defined.
    intros k l2. unfold Pricer.time_step. destruct (normal (Pricer.eng l2)). discriminate. }
  destruct (mp_fdm (Pricer.model_parameters p)) as [|[[k|k|]|[k|k|]|]|k];
    try discriminate;
    match goal with
    | |- context [for_unsigned fuel ?c ?b ?i ?s] =>
        destruct (for_unsigned fuel c b i s) as [[q l]| | |] eqn:Hloop; simpl;
        try discriminate; exfalso; revert Hloop; apply for_unsigned_defined
    end.
  - intros j s. apply Hpath.
  - intros j s. apply Hpath.
  - intros j [q l]. unfold Pricer.gbm_path. destruct (normal (Pricer.eng l)). discriminate.
Qed.

Section AfterGet.

Context `{StdRandom} {Hcin : StdCin}.
Variable payoff :
  istream -> R * R -> outcome (PayoffFunctionType * string * (R * R) * istream).

(** X16: what [Pricer::get] leaves when it returns on a pricer without
    names.  The pricer has exactly three names; the engine name is one for
    which the simulation draws from the default-constructed engine, whichever
    generator was chosen; the scheme is 1, 2 or 3; the option data are those
    [Input::setOptionData] returns; the sample vectors and the flag are
    untouched, as is [NSteps] under scheme 1.  So a run on this pricer has no
    undefined behaviour and never takes the branch for an unknown scheme. *)
Theorem get_sets_up_a_run (fuel : nat) (cin cin' : istream) (b b' : Pricer.bases)
    (p p' : Pricer.t) :
  Pricer.parameter_names p = [] ->
  Pricer.get payoff fuel cin b p = Returned (b', p', cin') ->
  let fdm := mp_fdm (Pricer.model_parameters p') in
  (exists engine_name fdm_name payoff_name : string,
      Pricer.parameter_names p' = [engine_name; fdm_name; payoff_name]
      /\ simulation_engine engine_name = default_engine)
  /\ (fdm = 1%Z \/ fdm = 2%Z \/ fdm = 3%Z)
  /\ Pricer.option_data p' = fst (fst (Input.setOptionData cin (Pricer.input b)))
  /\ Pricer.stock_flunct p' = Pricer.stock_flunct p
  /\ Pricer.option_prices p' = Pricer.option_prices p
  /\ Pricer.explicit_euler p' = Pricer.explicit_euler p
  /\ (fdm = 1%Z -> Pricer.NSteps p' = Pricer.NSteps p)
  /\ forall fuel' : nat, Pricer.GeneralPricer fuel' p' <> UndefinedBehaviour.
Proof.
  intros Hnames Hget fdm. subst fdm.
  unfold Pricer.get in Hget.
  destruct (Input.setOptionData cin (Pricer.input b)) as [[od input'] cin1].
  cbn [fst].
  apply bind_returned in Hget.
  destruct Hget as [[[[rng_function rng_name] rng'] cin2] [Hgauss Hget]].
  apply bind_returned in Hget.
  destruct Hget as [[[[fdm fdm_name] sde'] cin3] [Hfdm Hget]].
  destruct (Gaussian_returned _ _ _ _ _ _ _ Hgauss) as (_ & Hengine & _).
  destruct (FDM_returned _ _ _ _ _ _ _ Hfdm) as [Hscheme _].
  match type of Hget with
  | match ?c with _ => _ end = _ => destruct c as [q cin4] eqn:Hsteps
  end.
  apply bind_returned in Hget.
  destruct Hget as [[[[payoff_function payoff_name] caps] cin5] [_ Hget]].
  injection Hget as _ <- _.
  assert (Hq : Pricer.parameter_names q = []
               /\ Pricer.option_data q = od
               /\ Pricer.stock_flunct q = Pricer.stock_flunct p
               /\ Pricer.option_prices q = Pricer.option_prices p
               /\ Pricer.explicit_euler q = Pricer.explicit_euler p
               /\ (fdm = 1%Z -> Pricer.NSteps q = Pricer.NSteps p)).
  { destruct (negb (fdm =? 1)%Z) eqn:Hneq.
    - destruct (extract_unsigned_long cin3) as [x cin6].
      injection Hsteps as <- _. simpl. repeat split; try assumption.
      intros ->. discriminate.
    - injection Hsteps as <- _. simpl. repeat split; assumption. }
  destruct Hq as (Hq_names & Hq_od & Hq_stock & Hq_prices & Hq_flag & Hq_steps).
  cbn [Pricer.parameter_names Pricer.set_parameter_names Pricer.set_model_parameters
       Pricer.set_caps Pricer.push_back Pricer.option_data Pricer.model_parameters
       mp_fdm Pricer.stock_flunct Pricer.option_prices Pricer.explicit_euler
       Pricer.NSteps].
  rewrite Hq_names, Hq_od. cbn [app].
  split; [exists rng_name, fdm_name, payoff_name; split; [reflexivity | exact Hengine]|].
  split; [tauto|]. split; [reflexivity|].
  split; [exact Hq_stock|]. split; [exact Hq_prices|]. split; [exact Hq_flag|].
  split; [exact Hq_steps|].
  intros fuel'. apply GeneralPricer_defined.
  cbn [Pricer.parameter_names Pricer.set_parameter_names Pricer.set_model_parameters
       Pricer.set_caps Pricer.push_back].
  simpl. lia.
Qed.

End AfterGet.

(** The option data typed as 0, 0, 1, 60, 65 and 2 on a scripted input. *)
Lemma setOptionData_fixture (rest : list entry) (this : Input.t) :
  Input.setOptionData (Hcin := scripted_cin)
    (typed (number 0 :: number 0 :: number 1 :: number 60 :: number 65 :: number 2
            :: rest)) this
  = ({| od_vol := 0; od_r := 0; od_T := 1; od_S := 60; od_K := 65; od_NSIM := 2 |},
     {| Input.vol := 0; Input.r := 0; Input.T := 1; Input.S := 60; Input.K := 65;
        Input.NSIM := 2 |},
     typed rest).
Proof.
  unfold Input.setOptionData.
  do 6 (cbn [extract_double extract_unsigned_long cin_fail scripted_cin script_extract
             typed pending failbit stored Z.of_N orb];
        rewrite ?double_lt_false by lra).
  reflexivity.
Qed.

(** The contract 0, 0, 1, 60, 65 on 2 paths, then a word and 2 for the
    generator, 2 for the scheme, 5 for the steps, and a payoff interface that
    hands over a call. *)
Lemma get_sets_up_a_run_witness :
  let payoff := fun (cin : script) (caps : R * R) =>
                  Returned (call_payoff, "European Call"%string, caps, cin) in
  let b := {| Pricer.sde := {| FDM_SDE.fdm_choice := 0; FDM_SDE.fdm_name := "" |};
              Pricer.rng := {| RNG.m_random := fun _ => 0; RNG.engine_name := "" |};
              Pricer.input := {| Input.vol := 0; Input.r := 0; Input.T := 0;
                                 Input.S := 0; Input.K := 0; Input.NSIM := 0 |} |} in
  let p := Pricer.ClearNameParameterVector
             (fixture_pricer (test_contract 1) 1 "European Put" 0) in
  exists (b' : Pricer.bases) (p' : Pricer.t) (cin' : script),
    Pricer.get (H := counting_random) (Hcin := scripted_cin) payoff 2
      (typed [number 0; number 0; number 1; number 60; number 65; number 2;
              word; number 2; number 2; number 5]) b p
    = Returned (b', p', cin')
    /\ Pricer.parameter_names p' = ["Mersenne Twister"; "Explicit Euler"; "European Call"]%string
    /\ Pricer.NSteps p' = 5%Z
    /\ forall fuel' : nat,
         Pricer.GeneralPricer (H := counting_random) fuel' p' <> UndefinedBehaviour.
Proof.
  intros payoff b p.
  assert (Hget : exists (b' : Pricer.bases) (p' : Pricer.t) (cin' : script),
             Pricer.get (H := counting_random) (Hcin := scripted_cin) payoff 2
               (typed [number 0; number 0; number 1; number 60; number 65; number 2;
                       word; number 2; number 2; number 5]) b p
             = Returned (b', p', cin')
             /\ Pricer.parameter_names p'
                = ["Mersenne Twister"; "Explicit Euler"; "European Call"]%string
             /\ Pricer.NSteps p' = 5%Z).
  { unfold Pricer.get. rewrite setOptionData_fixture.
    eexists. eexists. eexists. split; [reflexivity|]. split; reflexivity. }
  destruct Hget as (b' & p' & cin' & Hget & Hnames & Hsteps).
  exists b', p', cin'. split; [exact Hget|]. split; [exact Hnames|].
  split; [exact Hsteps|].
  apply (get_sets_up_a_run (H := counting_random) (Hcin := scripted_cin) payoff 2
           _ cin' b b' p p' eq_refl Hget).
Defined.

(** ** The plain test program *)

Lemma path_value_ext `{StdRandom} (step step' : R -> R -> R) :
  (forall V z : R, step V z = step' V z) ->
  forall (n : nat) (S0 : R) (e : engine), path_value step n S0 e = path_value step' n S0 e.
Proof.
  intros Hstep. unfold path_value.
  induction n as [|n IH]; intros S0 e; simpl; [reflexivity|].
  rewrite Hstep. apply IH.
Qed.

Lemma path_values_ext `{StdRandom} (step step' : R -> R -> R) (n : nat) (S0 : R) :
  (forall V z : R, step V z = step' V z) ->
  forall (k : nat) (e : engine), path_values step n S0 k e = path_values step' n S0 k e.
Proof.
  intros Hstep. induction k as [|k IH]; intros e; simpl; [reflexivity|].
  rewrite IH, (path_value_ext step step' Hstep). reflexivity.
Qed.

Section PlainLoops.

Context `{StdRandom}.
Variables (vol r dt dt_sq S0 K : R) (NSIM NSteps : Z).

(** The update that [main] writes out. *)
Let plain_step : R -> R -> R :=
  fun VOld dW => VOld + dt * r * VOld + (dt_sq * vol * VOld * dW).

(** The time loop of [main]: [k + 1] updates. *)
Lemma plain_time_steps (k : nat) :
  forall (j : Z) (e : engine) (V : R) (W : option R),
    iterate_from (S k)
      (fun (j : Z) '(eng, VOld, VNew) =>
         let '(dW, eng) := normal eng in
         let VNew := VOld + dt * r * VOld + (dt_sq * vol * VOld * dW) in
         let VOld := VNew in
         Returned (eng, VOld, Some VNew))
      j (e, V, W)
    = Returned (engine_after (S k) e, path_value plain_step (S k) V e,
                Some (path_value plain_step (S k) V e)).
Proof.
  match goal with
  | |- forall j e V W, iterate_from _ ?b _ _ = _ => set (body := b)
  end.
  induction k as [|k IH]; intros j e V W.
  - simpl. destruct (normal e) as [z e'] eqn:Hdraw.
    unfold path_value. simpl. rewrite Hdraw. reflexivity.
  - change (iterate_from (S (S k)) body j (e, V, W))
      with (s1 <- body j (e, V, W) ;; iterate_from (S k) body (j + 1)%Z s1).
    unfold body at 1. destruct (normal e) as [z e'] eqn:Hdraw.
    cbv beta iota zeta delta [bind]. rewrite IH.
    unfold path_value.
    change (draws (S (S k)) e) with (fst (normal e) :: draws (S k) (snd (normal e))).
    change (engine_after (S (S k)) e) with (engine_after (S k) (snd (normal e))).
    rewrite Hdraw. reflexivity.
Qed.

Hypothesis steps_fit : (0 <= NSteps < 2 ^ 32 - 1)%Z.

(** The path loop of [main]: [k] paths, each payoff entering the sum divided
    by [NSIM]. *)
Lemma plain_paths (fuel : nat) (k : nat) :
  (S (Z.to_nat NSteps) < fuel)%nat ->
  forall (i : Z) (e : engine) (W : option R) (price : R),
  exists (e' : engine) (W' : option R),
    iterate_from k
      (fun (i : Z) '(eng, VNew, price) =>
         let VOld := S0 in
         '(eng, VOld, VNew) <-
           for_unsigned fuel (fun j => (j <=? NSteps)%Z)
             (fun (j : Z) '(eng, VOld, VNew) =>
                let '(dW, eng) := normal eng in
                let VNew := VOld + dt * r * VOld + (dt_sq * vol * VOld * dW) in
                let VOld := VNew in
                Returned (eng, VOld, Some VNew))
             0%Z (eng, VOld, VNew) ;;
         VNew' <- initialised VNew ;;
         let price := price + Rmax (VNew' - K) 0 / IZR NSIM in
         Returned (eng, VNew, price))
      i (e, W, price)
    = Returned
        (e', W',
         price + total (map (fun V => Rmax (V - K) 0 / IZR NSIM)
                          (path_values plain_step (S (Z.to_nat NSteps)) S0 k e))).
Proof.
  intros Hfuel. induction k as [|k IH]; intros i e W price.
  - exists e, W. simpl. unfold total. simpl. rewrite Rplus_0_r. reflexivity.
  - cbn [iterate_from].
    rewrite (for_unsigned_iterate _ _ (S (Z.to_nat NSteps))); try lia;
      [|apply Z.leb_gt; lia].
    rewrite plain_time_steps.
    cbv beta iota zeta delta [bind initialised].
    edestruct (IH (i + 1)%Z) as (e' & W' & Hrun).
    exists e', W'. rewrite Hrun. f_equal. f_equal.
    cbn [path_values map]. rewrite total_cons. ring.
Qed.

End PlainLoops.

(** The formula of the test program is the Black-Scholes price of the call. *)
Lemma TestPlainMC_exact_price (od : OptionData) :
  TestPlainMC.exact_price (od_vol od) (od_r od) (od_T od) (od_S od) (od_K od)
  = black_scholes_call od.
Proof.
  unfold TestPlainMC.exact_price, black_scholes_call, black_scholes_d2, black_scholes_d1.
  cbv zeta. rewrite pow_2.
  replace ((od_r od - od_r od) * od_T od) with 0 by ring. rewrite exp_0, Rmult_1_r.
  simpl pow. rewrite Rmult_1_r. reflexivity.
Qed.

(** X17: the plain test program and the pricer agree.  On at least one
    path and one time step, and counts that fit the loop counters, [main] of TestPlainMC.cpp returns the
    price that [GeneralPricer] returns under scheme 2 with the payoff of a
    call on the same contract (volatility 0.3, rate 0.08, expiry 0.25, spot
    60, strike 65), provided the default-constructed engine of the pricer is
    the Mersenne Twister with its default seed, as it is where
    [std::default_random_engine] is [std::mt19937]; and the exact price it
    prints is the Black-Scholes price of that call (the program announces a
    put). *)
Theorem TestPlainMC_agrees_with_Pricer `{StdRandom} {Hcin : StdCin} (fuel : nat)
    (cin cin1 cin2 : istream) (NSIM NSteps : N) :
  let od := test_contract (Z.of_N NSIM) in
  extract_unsigned_long cin = (Some NSIM, cin1) ->
  extract_unsigned_long cin1 = (Some NSteps, cin2) ->
  (0 < Z.of_N NSIM < 2 ^ 32 - 1)%Z ->
  (0 < Z.of_N NSteps < 2 ^ 32 - 1)%Z ->
  (N.to_nat NSIM < fuel)%nat ->
  (S (N.to_nat NSteps) < fuel)%nat ->
  default_engine = mt19937 5489 ->
  exists (price : R) (p' : Pricer.t),
    TestPlainMC.main fuel cin = Returned (price, black_scholes_call od, cin2)
    /\ Pricer.GeneralPricer fuel (fixture_pricer od 2 "European Call" (Z.of_N NSteps))
       = Returned (price, p').
Proof.
  intros od E1 E2 HNSIM HNSteps Hfuel Hfuel' Hengine.
  assert (Hsteps : (0 <= Z.of_N NSteps < 2 ^ 32 - 1)%Z) by lia.
  pose proof (GeneralPricer_discretized_price fuel
                (fixture_pricer od 2 "European Call" (Z.of_N NSteps))
                "Default Random Engine" "European Call" eq_refl eq_refl) as Hpricer.
  cbv zeta in Hpricer.
  specialize (Hpricer ltac:(left; reflexivity) ltac:(simpl; lia) Hsteps
                      ltac:(simpl; lia) ltac:(simpl; lia)).
  eexists. eexists. split; [|exact Hpricer].
  unfold TestPlainMC.main. rewrite E1, E2.
  cbv beta iota zeta delta [bind initialised].
  rewrite (for_unsigned_iterate _ _ (N.to_nat NSIM)); try lia;
    [|apply Z.leb_gt; lia].
  destruct (plain_paths 0.3 0.08 (0.25 / IZR (Z.of_N NSteps))
              (sqrt (0.25 / IZR (Z.of_N NSteps))) 60 65 (Z.of_N NSIM) (Z.of_N NSteps)
              Hsteps fuel (N.to_nat NSIM) ltac:(lia) 1%Z (mt19937 5489) None 0)
    as (e' & W' & Hrun).
  match goal with
  | |- context [iterate_from ?n ?b ?i ?s] =>
      match type of Hrun with
      | _ = ?result =>
          assert (Heq : iterate_from n b i s = result) by exact Hrun; rewrite Heq
      end
  end.
  change (TestPlainMC.exact_price 0.3 0.08 0.25 60 65)
    with (TestPlainMC.exact_price (od_vol od) (od_r od) (od_T od) (od_S od) (od_K od)).
  rewrite (TestPlainMC_exact_price od).
  f_equal. f_equal. f_equal.
  cbn [Pricer.option_data Pricer.model_parameters fixture_pricer mp_payoff mp_fdm
       Pricer.NSteps od test_contract od_vol od_r od_T od_S od_K od_NSIM].
  unfold simulation_engine. simpl String.eqb. cbv iota. rewrite Hengine.
  rewrite Rplus_0_l.
  rewrite (total_map_div (fun V => Rmax (V - 65) 0)).
  replace (Z.to_nat (Z.of_N NSIM)) with (N.to_nat NSIM) by lia.
  replace (Z.to_nat (Z.of_N NSteps)) with (N.to_nat NSteps) by lia.
  f_equal. f_equal. f_equal. f_equal.
  apply path_values_ext. intros V z.
  unfold scheme_step. change (2 =? 2)%Z with true. cbv beta iota.
  unfold Pricer.euler_step, FDM_SDE.drift. rewrite diffusion_linear. ring.
Qed.

(** 2 paths and 1 step are typed. *)
Lemma TestPlainMC_agrees_with_Pricer_witness :
  exists (price : R) (p' : Pricer.t),
    TestPlainMC.main (H := zero_random) (Hcin := scripted_cin) 3
      (typed [number 2; number 1])
    = Returned (price, black_scholes_call (test_contract 2), typed [])
    /\ Pricer.GeneralPricer (H := zero_random) 3
         (fixture_pricer (test_contract 2) 2 "European Call" 1)
       = Returned (price, p').
Proof.
  apply (TestPlainMC_agrees_with_Pricer (H := zero_random) (Hcin := scripted_cin) 3
           (typed [number 2; number 1]) (typed [number 1]) (typed []) 2 1);
    try reflexivity; simpl; lia.
Defined.

(** ** The loop of multi-pricing *)

Lemma run_fits_set_up `{StdRandom} (fuel : nat) (p0 p : Pricer.t) :
  set_up_as p0 p -> run_fits fuel p0 -> run_fits fuel p.
Proof.
  intros (Hod & Hfdm & Hsteps & _) [Hcase Hfuel]. unfold run_fits.
  rewrite Hod, Hfdm. split; [|exact Hfuel].
  destruct Hcase as [[H1 HNSIM] | (H23 & HNSIM & Hst & Hfuel')].
  - left. split; assumption.
  - right. rewrite Hsteps by lia.
    split; [exact H23 | split; [exact HNSIM | split; [exact Hst | exact Hfuel']]].
Qed.

(** An iteration that returns on a pricer ready for it: the entry it
    appends carries the contract and the asset statistics of the sample that
    the set-up determines, and the pricer is ready for the next iteration. *)
Lemma multiPricer_entry `{StdRandom} (fuel : nat) (t0 t1 : R) (p0 p p1 : Pricer.t)
    (m m1 : MIS.t) (l l1 : MultiOutputList) (engine_name : string) :
  nth_error (Pricer.parameter_names p0) 0 = Some engine_name ->
  run_fits fuel p0 ->
  set_up_as p0 p ->
  Builder.multiPricer fuel t0 t1 (p, m, l) = Returned (p1, m1, l1) ->
  set_up_as p0 p1
  /\ Pricer.UpperCap p1 = Pricer.UpperCap p
  /\ exists (out : PricerResults) (st : Statistics),
       l1 = l ++ [(out, st)]
       /\ res_option_data out = Pricer.option_data p0
       /\ (st_mean_price st, st_max_price st, st_min_price st)
          = asset_statistics (simulated_values p0 engine_name).
Proof.
  intros Hengine Hfits Hset Hrun.
  pose proof (run_fits_set_up fuel p0 p Hset Hfits) as Hfits_p.
  destruct Hset as (Hod & Hfdm & Hsteps & Hstock & Hprices & Hn0 & [name Hn2]).
  rewrite Hengine in Hn0.
  destruct (multiPricer_returned _ _ _ _ _ _ _ _ _ Hrun)
    as (price & q & mcs & st & Hgp & Hcs & -> & -> & Hmean & Hmax & Hmin).
  destruct (GeneralPricer_returns fuel p engine_name name Hn0 Hn2 Hfits_p) as [Hret _].
  rewrite Hret in Hgp. injection Hgp as _ Hq. rewrite Hstock, Hprices in Hq.
  simpl app in Hq.
  assert (Hvalues : simulated_values p engine_name = simulated_values p0 engine_name)
    by (apply simulated_values_ext; assumption).
  rewrite Hvalues in Hq.
  set (values := simulated_values p0 engine_name) in *.
  assert (Hq_facts :
            Pricer.option_data q = Pricer.option_data p0
            /\ mp_fdm (Pricer.model_parameters q) = mp_fdm (Pricer.model_parameters p0)
            /\ Pricer.parameter_names q = Pricer.parameter_names p
            /\ Pricer.stock_flunct q = values
            /\ Pricer.UpperCap q = Pricer.UpperCap p
            /\ (mp_fdm (Pricer.model_parameters p0) <> 1%Z ->
                Pricer.explicit_euler q = true /\ Pricer.NSteps q = Pricer.NSteps p0)).
  { rewrite <- Hq.
    cbn [Pricer.option_data Pricer.model_parameters Pricer.parameter_names
         Pricer.stock_flunct Pricer.UpperCap Pricer.explicit_euler Pricer.NSteps
         Pricer.set_m_price Pricer.set_option_prices Pricer.set_stock_flunct].
    rewrite <- Hfdm.
    destruct (mp_fdm (Pricer.model_parameters p) =? 1)%Z eqn:Hcase.
    - apply Z.eqb_eq in Hcase.
      split; [exact Hod|]. split; [reflexivity|]. split; [reflexivity|].
      split; [reflexivity|]. split; [reflexivity|].
      intros Hneq. now elim Hneq.
    - cbn [Pricer.option_data Pricer.model_parameters Pricer.parameter_names
           Pricer.UpperCap Pricer.explicit_euler Pricer.NSteps Pricer.set_explicit_euler].
      split; [exact Hod|]. split; [reflexivity|]. split; [reflexivity|].
      split; [reflexivity|]. split; [reflexivity|].
      intros Hneq. split; [reflexivity|]. apply Hsteps. rewrite <- Hfdm. exact Hneq. }
  destruct Hq_facts as (Hq_od & Hq_fdm & Hq_names & Hq_stock & Hq_cap & Hq_steps).
  assert (Hr : Pricer.option_data (snd (Pricer.output q)) = Pricer.option_data p0
               /\ mp_fdm (Pricer.model_parameters (snd (Pricer.output q)))
                  = mp_fdm (Pricer.model_parameters p0)
               /\ Pricer.parameter_names (snd (Pricer.output q)) = Pricer.parameter_names p
               /\ Pricer.UpperCap (snd (Pricer.output q)) = Pricer.UpperCap p
               /\ res_option_data (fst (Pricer.output q)) = Pricer.option_data p0
               /\ (mp_fdm (Pricer.model_parameters p0) <> 1%Z ->
                   Pricer.NSteps (snd (Pricer.output q)) = Pricer.NSteps p0)).
  { unfold Pricer.output. destruct (Pricer.explicit_euler q) eqn:Hflag; simpl;
      (split; [exact Hq_od|]); (split; [exact Hq_fdm|]); (split; [exact Hq_names|]);
      (split; [exact Hq_cap|]); (split; [exact Hq_od|]); intros Hneq.
    - apply Hq_steps. exact Hneq.
    - destruct (Hq_steps Hneq) as [Htrue _]. congruence. }
  destruct Hr as (Hr_od & Hr_fdm & Hr_names & Hr_cap & Hr_out & Hr_steps).
  split; [|split].
  - unfold set_up_as.
    split; [exact Hr_od|]. split; [exact Hr_fdm|]. split; [exact Hr_steps|].
    split; [reflexivity|]. split; [reflexivity|].
    change (Pricer.parameter_names
              (Pricer.ClearTempOptionPriceVector
                 (Pricer.ClearStockFlunctuationsVector (snd (Pricer.output q)))))
      with (Pricer.parameter_names (snd (Pricer.output q))).
    rewrite Hr_names, Hn0, Hengine. split; [reflexivity|].
    exists name. exact Hn2.
  - simpl. exact Hr_cap.
  - exists (fst (Pricer.output q)), st. split; [reflexivity|]. split; [exact Hr_out|].
    destruct (ComputeStatistics_returned _ _ _ Hcs)
      as (x & rest & Hx & Hm & Hmx & Hmn & _).
    cbn [mis_stock_flunct Pricer.MIS_output] in Hx, Hm.
    rewrite output_stock_flunct, Hq_stock in Hx.
    rewrite Hmean, Hmax, Hmin, Hm, Hmx, Hmn.
    unfold asset_statistics. rewrite Hx. reflexivity.
Qed.

(** What holds after [j] runs of a body and is carried on by every run holds
    after [k] more. *)
Lemma iterate_from_count {St : Type} (P : nat -> St -> Prop)
    (body : Z -> St -> outcome St) :
  (forall (i : Z) (k : nat) (s s' : St), P k s -> body i s = Returned s' -> P (S k) s') ->
  forall (k : nat) (i : Z) (j : nat) (s s' : St),
    P j s -> iterate_from k body i s = Returned s' -> P (k + j)%nat s'.
Proof.
  intros Hbody. induction k as [|k IH]; intros i j s s' Hs; simpl.
  - intros [= <-]. exact Hs.
  - intros Hrun. apply bind_returned in Hrun. destruct Hrun as [s1 [Hb Hrest]].
    rewrite <- Nat.add_succ_r.
    exact (IH _ _ _ _ (Hbody _ _ _ _ Hs Hb) Hrest).
Qed.

(** Another payoff and other caps leave a pricer ready for the next
    iteration. *)
Lemma set_up_as_setPayoffParameter (p0 p p' : Pricer.t) (payoff : PayoffFunctionType)
    (name : string) (caps : R * R) :
  set_up_as p0 p ->
  Pricer.setPayoffParameter payoff name (Pricer.set_caps caps p) = Returned p' ->
  set_up_as p0 p'.
Proof.
  intros (Hod & Hfdm & Hsteps & Hstock & Hprices & Hn0 & [n2 Hn2]) Hset.
  unfold Pricer.setPayoffParameter in Hset. simpl in Hset.
  destruct (Pricer.parameter_names p) as [|a0 [|a1 [|a2 rest]]]; try discriminate.
  injection Hset as <-. unfold set_up_as. simpl.
  split; [exact Hod|]. split; [exact Hfdm|]. split; [exact Hsteps|].
  split; [exact Hstock|]. split; [exact Hprices|]. split; [exact Hn0|].
  exists name. reflexivity.
Qed.

Section MultiPricing.

Context `{StdRandom} {Hcin : StdCin}.
Variable payoff :
  istream -> R * R -> outcome (PayoffFunctionType * string * (R * R) * istream).
Variable now : nat -> R.

(** X18: multi-pricing by [Builder::run].  When a number [n] of 2 or more
    is typed at the first attempt, [get] has set up the pricer for path and
    step counts that fit the loop counters, and the call comes to its
    [MultiPrint], the list it hands over is the list it started with followed
    by exactly [n] outputs, one for every option; every one of them carries
    the contract that [get] has read and the same mean, maximum and minimum
    asset value: those of the one sample that the contract, the scheme and the
    default-constructed engine determine, whatever payoffs were chosen between
    the iterations. *)
Theorem run_prices_on_the_same_paths (fuel : nat) (cin cin1 cin2 cin' : istream)
    (this this' : Builder.t) (n : N) (b : Pricer.bases) (p0 : Pricer.t)
    (engine_name payoff_name : string) (l : MultiOutputList) :
  extract_unsigned cin = (Some n, cin1) ->
  cin_fail cin1 = false ->
  (1 < n)%N ->
  (Z.of_N n < 2 ^ 32)%Z ->
  (N.to_nat n < fuel)%nat ->
  Pricer.get payoff fuel cin1 (Builder.bases this) (Builder.pricer this)
  = Returned (b, p0, cin2) ->
  Pricer.stock_flunct p0 = [] ->
  Pricer.option_prices p0 = [] ->
  nth_error (Pricer.parameter_names p0) 0 = Some engine_name ->
  nth_error (Pricer.parameter_names p0) 2 = Some payoff_name ->
  run_fits fuel p0 ->
  Builder.run payoff now fuel cin this = Returned (Builder.MultiPrint l, this', cin') ->
  exists entries : MultiOutputList,
    l = Builder.multi_output_list this ++ entries
    /\ List.length entries = N.to_nat n
    /\ Forall (fun e =>
                 res_option_data (fst e) = Pricer.option_data p0
                 /\ (st_mean_price (snd e), st_max_price (snd e), st_min_price (snd e))
                    = asset_statistics (simulated_values p0 engine_name))
              entries.
Proof.
  intros Hextract Hfail Hn Hn32 Hfuel Hget Hstock Hprices Hn0 Hn2 Hfits.
  unfold Builder.run. rewrite Hextract.
  destruct fuel as [|fuel']; [lia|].
  cbn [while_loop]. rewrite Hfail.
  cbv beta iota zeta delta [bind initialised].
  replace (n =? 1)%N with false by (symmetry; apply N.eqb_neq; lia).
  replace (1 <? n)%N with true by (symmetry; apply N.ltb_lt; lia).
  rewrite Hget.
  rewrite (for_unsigned_iterate _ _ (N.to_nat n)); try lia;
    [| apply Z.ltb_ge; lia].
  set (P := fun (k : nat) (s : Pricer.t * MIS.t * MultiOutputList * istream * nat) =>
              set_up_as p0 (fst (fst (fst (fst s))))
              /\ exists entries : MultiOutputList,
                   snd (fst (fst s)) = Builder.multi_output_list this ++ entries
                   /\ List.length entries = k
                   /\ Forall (fun e =>
                                res_option_data (fst e) = Pricer.option_data p0
                                /\ (st_mean_price (snd e), st_max_price (snd e),
                                    st_min_price (snd e))
                                   = asset_statistics (simulated_values p0 engine_name))
                             entries).
  match goal with
  | |- match iterate_from ?k ?body ?i ?s0 with _ => _ end = _ -> _ =>
      assert (Hloop : forall s', iterate_from k body i s0 = Returned s' -> P (k + 0)%nat s')
  end.
  { intros s'. apply iterate_from_count.
    - intros i k [[[[p m] l1] c] tick] s1 [Hset (entries & Hl & Hlen & Hall)] Hbody.
      cbn [fst snd] in Hset, Hl.
      apply bind_returned in Hbody.
      destruct Hbody as [[[p1 m1] l2] [Hrun Hrest]].
      destruct (multiPricer_entry _ _ _ _ _ _ _ _ _ _ engine_name Hn0 Hfits Hset Hrun)
        as (Hset1 & _ & out & st & -> & Hout & Hstats).
      assert (Hentries : exists entries' : MultiOutputList,
                 l1 ++ [(out, st)] = Builder.multi_output_list this ++ entries'
                 /\ List.length entries' = S k
                 /\ Forall (fun e =>
                              res_option_data (fst e) = Pricer.option_data p0
                              /\ (st_mean_price (snd e), st_max_price (snd e),
                                  st_min_price (snd e))
                                 = asset_statistics (simulated_values p0 engine_name))
                           entries').
      { exists (entries ++ [(out, st)]). rewrite Hl, app_assoc. split; [reflexivity|].
        split; [rewrite length_app; simpl; lia|].
        apply Forall_app. split; [exact Hall|].
        constructor; [|constructor]. split; [exact Hout | exact Hstats]. }
      destruct (_ <? _)%Z.
      + apply bind_returned in Hrest.
        destruct Hrest as [[[[payoff_function name] caps] c'] [_ Hrest]].
        apply bind_returned in Hrest. destruct Hrest as [p2 [Hsetp Hrest]].
        injection Hrest as <-. split; [|exact Hentries].
        exact (set_up_as_setPayoffParameter _ _ _ _ _ _ Hset1 Hsetp).
      + injection Hrest as <-. split; [exact Hset1 | exact Hentries].
    - split.
      + unfold set_up_as. cbn [fst].
        split; [reflexivity|]. split; [reflexivity|]. split; [reflexivity|].
        split; [exact Hstock|]. split; [exact Hprices|]. split; [reflexivity|].
        exists payoff_name. exact Hn2.
      + exists []. rewrite app_nil_r. split; [reflexivity|].
        split; [reflexivity | constructor]. }
  match goal with
  | |- match ?loop with _ => _ end = _ -> _ =>
      destruct loop as [[[[[p m] l1] c] tick]| | |]; try discriminate
  end.
  intros [= <- _ _].
  destruct (Hloop _ eq_refl) as [_ (entries & Hl & Hlen & Hall)].
  cbn [fst snd] in Hl. exists entries.
  split; [exact Hl|]. split; [lia | exact Hall].
Qed.

End MultiPricing.

(** The sample on the contract 0, 0, 1, 60, 65 on 2 paths of two steps each:
    without volatility and rate every path stays at 60. *)
Lemma simulated_values_flat `{StdRandom} (p : Pricer.t) (engine_name : string) :
  Pricer.option_data p
  = {| od_vol := 0; od_r := 0; od_T := 1; od_S := 60; od_K := 65; od_NSIM := 2 |} ->
  mp_fdm (Pricer.model_parameters p) = 2%Z ->
  Pricer.NSteps p = 1%Z ->
  simulated_values p engine_name = [60; 60].
Proof.
  intros Hod Hfdm Hsteps. unfold simulated_values. rewrite Hod, Hfdm, Hsteps.
  cbn [od_vol od_r od_T od_S od_NSIM Z.eqb Pos.eqb].
  rewrite (path_values_growth _ (1 + 0 * (1 / 1))).
  - simpl. f_equal; [|f_equal]; field.
  - intros V z. apply scheme_step_zero_volatility.
Qed.

(** Two options are asked for; the contract is 0, 0, 1, 60, 65 on 2 paths,
    the default engine, scheme 2, 1 step, and the payoff interface hands over
    a call each time. *)
Lemma run_prices_on_the_same_paths_witness :
  let payoff := fun (cin : script) (caps : R * R) =>
                  Returned (call_payoff, "European Call"%string, caps, cin) in
  let this := {| Builder.pricer :=
                   Pricer.ClearNameParameterVector
                     (fixture_pricer (test_contract 1) 1 "European Put" 0);
                 Builder.bases :=
                   {| Pricer.sde := {| FDM_SDE.fdm_choice := 0; FDM_SDE.fdm_name := "" |};
                      Pricer.rng := {| RNG.m_random := fun _ => 0;
                                       RNG.engine_name := "" |};
                      Pricer.input := {| Input.vol := 0; Input.r := 0; Input.T := 0;
                                         Input.S := 0; Input.K := 0; Input.NSIM := 0 |} |};
                 Builder.mis := fixture_mis;
                 Builder.multi_output_list := [] |} in
  exists (e1 e2 : PricerResults * Statistics) (this' : Builder.t) (cin' : script),
    Builder.run (H := zero_random) (Hcin := scripted_cin) payoff INR 3
      (typed [number 2; number 0; number 0; number 1; number 60; number 65; number 2;
              number 1; number 2; number 1]) this
    = Returned (Builder.MultiPrint [e1; e2], this', cin')
    /\ st_max_price (snd e1) = st_max_price (snd e2).
Proof.
  intros payoff this.
  set (od := {| od_vol := 0; od_r := 0; od_T := 1; od_S := 60; od_K := 65;
                od_NSIM := 2 |}).
  set (p0 := {| Pricer.model_parameters :=
                  {| mp_rng := RNG.DefaultRandomEngine (H := zero_random);
                     mp_fdm := 2; mp_payoff := call_payoff |};
                Pricer.parameter_names :=
                  ["Default Random Engine"; "Explicit Euler"; "European Call"]%string;
                Pricer.option_data := od;
                Pricer.explicit_euler := false;
                Pricer.stock_flunct := [];
                Pricer.option_prices := [];
                Pricer.m_price := 0;
                Pricer.NSteps := 1;
                Pricer.UpperCap := 0;
                Pricer.LowerCap := 0 |}).
  assert (Hget : exists b : Pricer.bases,
             Pricer.get (H := zero_random) (Hcin := scripted_cin) payoff 3
               (typed [number 0; number 0; number 1; number 60; number 65;
                       number 2; number 1; number 2; number 1])
               (Builder.bases this) (Builder.pricer this)
             = Returned (b, p0, typed [])).
  { unfold Pricer.get. rewrite setOptionData_fixture.
    eexists. reflexivity. }
  destruct Hget as (b & Hget).
  assert (Hfits : run_fits 3 p0).
  { unfold run_fits. simpl. change (Pos.to_nat 1) with 1%nat.
    change (Pos.to_nat 2) with 2%nat.
    split; [right; split; [left; reflexivity | lia] | lia]. }
  assert (Hvalues : forall q : Pricer.t,
             Pricer.option_data q = od ->
             mp_fdm (Pricer.model_parameters q) = 2%Z ->
             Pricer.NSteps q = 1%Z ->
             Forall int_valued (simulated_values (H := zero_random) q
                                  "Default Random Engine")
             /\ Forall int_valued
                  (map (call_payoff 65)
                     (simulated_values (H := zero_random) q "Default Random Engine"))).
  { intros q Hq_od Hq_fdm Hq_steps.
    rewrite (simulated_values_flat q _ Hq_od Hq_fdm Hq_steps).
    split; repeat (apply Forall_cons; [apply int_valued_bounded|]); try apply Forall_nil;
      try lra; simpl; unfold call_payoff; rewrite Rmax_right by lra; lra. }
  destruct (Hvalues p0 eq_refl eq_refl eq_refl) as [Hv0 Hp0].
  destruct (multiPricer_runs (H := zero_random) 3 (INR 0) (INR 1) p0 fixture_mis []
              "Default Random Engine" "European Call"
              eq_refl eq_refl eq_refl eq_refl Hfits eq_refl Hv0 Hp0)
    as (m1 & _ & Hrun1).
  match type of Hrun1 with
  | _ = Returned (?q, ?mA, ?lA) => set (p1 := q) in *; set (mis1 := mA) in *;
                                   set (l1 := lA) in *
  end.
  set (p2 := {| Pricer.model_parameters :=
                  {| mp_rng := RNG.DefaultRandomEngine (H := zero_random);
                     mp_fdm := 2; mp_payoff := call_payoff |};
                Pricer.parameter_names :=
                  ["Default Random Engine"; "Explicit Euler"; "European Call"]%string;
                Pricer.option_data := od;
                Pricer.explicit_euler := true;
                Pricer.stock_flunct := [];
                Pricer.option_prices := [];
                Pricer.m_price := Pricer.m_price p1;
                Pricer.NSteps := 1;
                Pricer.UpperCap := 0;
                Pricer.LowerCap := 0 |}).
  assert (Hset : Pricer.setPayoffParameter call_payoff "European Call"
                   (Pricer.set_caps (Pricer.UpperCap p1, Pricer.LowerCap p1) p1)
                 = Returned p2) by reflexivity.
  assert (Hfits2 : run_fits 3 p2) by exact Hfits.
  destruct (Hvalues p2 eq_refl eq_refl eq_refl) as [Hv2 Hp2].
  destruct (multiPricer_runs (H := zero_random) 3 (INR 2) (INR 3) p2 mis1 l1
              "Default Random Engine" "European Call"
              eq_refl eq_refl eq_refl eq_refl Hfits2 eq_refl Hv2 Hp2)
    as (m2 & _ & Hrun2).
  match type of Hrun2 with
  | _ = Returned (?q, ?mA, ?lA) => set (p3 := q) in *; set (mis3 := mA) in *;
                                   set (l3 := lA) in *
  end.
  assert (Hrun : Builder.run (H := zero_random) (Hcin := scripted_cin) payoff INR 3
                   (typed [number 2; number 0; number 0; number 1; number 60; number 65;
                           number 2; number 1; number 2; number 1]) this
                 = Returned (Builder.MultiPrint l3,
                             {| Builder.pricer := p3; Builder.bases := b;
                                Builder.mis := mis3; Builder.multi_output_list := l3 |},
                             typed [])).
  { unfold Builder.run.
    cbn [extract_unsigned scripted_cin script_extract typed pending failbit
         while_loop cin_fail].
    cbv beta iota zeta delta [bind initialised].
    change (2 =? 1)%N with false. change (1 <? 2)%N with true. cbv iota.
    match goal with
    | |- context [@Pricer.get ?h ?hc ?pf ?f ?c ?bb ?pp] =>
        change (@Pricer.get h hc pf f c bb pp)
          with (Pricer.get (H := zero_random) (Hcin := scripted_cin) payoff 3
                  (typed [number 0; number 0; number 1; number 60; number 65;
                          number 2; number 1; number 2; number 1])
                  (Builder.bases this) (Builder.pricer this))
    end.
    rewrite Hget.
    cbn [for_unsigned].
    change (0 <? Z.of_N 2)%Z with true. cbv iota.
    change (Builder.mis this) with fixture_mis.
    change (Builder.multi_output_list this) with (@nil (PricerResults * Statistics)).
    rewrite Hrun1.
    cbv beta iota zeta delta [bind].
    change (0 <? Cxx.wrap_unsigned (Z.of_N 2 - 1))%Z with true. cbv iota.
    unfold payoff at 1. cbv beta iota.
    rewrite Hset.
    change (Cxx.wrap_unsigned (0 + 1)) with 1%Z.
    change (1 <? Z.of_N 2)%Z with true. cbv iota.
    rewrite Hrun2.
    change (1 <? Cxx.wrap_unsigned (Z.of_N 2 - 1))%Z with false. cbv iota.
    change (Cxx.wrap_unsigned (1 + 1)) with 2%Z.
    change (2 <? Z.of_N 2)%Z with false. cbv iota.
    reflexivity. }
  destruct (run_prices_on_the_same_paths (H := zero_random) (Hcin := scripted_cin)
              payoff INR 3
              (typed [number 2; number 0; number 0; number 1; number 60; number 65;
                      number 2; number 1; number 2; number 1])
              (typed [number 0; number 0; number 1; number 60; number 65;
                      number 2; number 1; number 2; number 1])
              (typed []) (typed []) this _ 2 b p0
              "Default Random Engine" "European Call" l3
              eq_refl eq_refl eq_refl eq_refl ltac:(simpl; lia) Hget
              eq_refl eq_refl eq_refl eq_refl Hfits Hrun)
    as (entries & Hl & _ & Hall).
  cbn [Builder.multi_output_list this app] in Hl. subst entries.
  unfold l3, l1 in Hall. cbn [app] in Hall.
  inversion Hall as [|e1 rest1 [_ He1] Hall1]; subst.
  inversion Hall1 as [|e2 rest2 [_ He2] _]; subst.
  eexists. eexists. eexists. eexists. split; [exact Hrun|].
  cbn [snd] in He1, He2 |- *.
  rewrite <- He2 in He1. injection He1 as _ Hmax _. exact Hmax.
Defined.


Section SinglePricing.

Context `{StdRandom} {Hcin : StdCin}.
Variable payoff :
  istream -> R * R -> outcome (PayoffFunctionType * string * (R * R) * istream).
Variable now : nat -> R.

(** X19: single pricing by [Builder::run].  When 1 is typed at the first
    attempt and [get] has set up a pricer that has run no time-discretized
    scheme, with a contract of positive volatility, expiry, spot and strike,
    at least one path (and one time step under schemes 2 and 3), counts that
    fit the loop counters and samples that truncate to [int]s, the call comes
    to its [Print].  The
    output it hands over holds the discounted mean of the payoffs of the
    simulated values as the price, the contract and the names that [get] has
    read, and as [NSteps] the number typed under schemes 2 and 3 and 0 under
    scheme 1; the statistics hold the Black-Scholes benchmark chosen by the
    payoff name, the decision whether price and benchmark differ by less than
    0.01, the difference of the two clock readings, and a maximum and a
    minimum that are simulated values. *)
Theorem run_single_pricing (fuel : nat) (cin cin1 cin2 : istream) (this : Builder.t)
    (b : Pricer.bases) (p0 : Pricer.t) (engine_name payoff_name : string) :
  let od := Pricer.option_data p0 in
  let fdm := mp_fdm (Pricer.model_parameters p0) in
  let values := simulated_values p0 engine_name in
  let payoff_function := mp_payoff (Pricer.model_parameters p0) (od_K od) in
  let price := total (map payoff_function values) / IZR (od_NSIM od)
               * exp (- od_r od * od_T od) in
  let exact := if Regex.match_any_Call payoff_name
               then black_scholes_call od else black_scholes_put od in
  extract_unsigned cin = (Some 1%N, cin1) ->
  cin_fail cin1 = false ->
  (1 <= fuel)%nat ->
  Pricer.get payoff fuel cin1 (Builder.bases this) (Builder.pricer this)
  = Returned (b, p0, cin2) ->
  Pricer.stock_flunct p0 = [] ->
  Pricer.option_prices p0 = [] ->
  Pricer.explicit_euler p0 = false ->
  nth_error (Pricer.parameter_names p0) 0 = Some engine_name ->
  nth_error (Pricer.parameter_names p0) 2 = Some payoff_name ->
  regular_contract od ->
  run_fits fuel p0 ->
  (0 < od_NSIM od)%Z ->
  positive_steps p0 ->
  Forall int_valued values ->
  Forall int_valued (map payoff_function values) ->
  exists (out : PricerResults) (st : Statistics) (this' : Builder.t),
    Builder.run payoff now fuel cin this = Returned (Builder.Print out st, this', cin2)
    /\ res_price out = price
    /\ res_option_data out = od
    /\ res_NSteps out = (if (fdm =? 1)%Z then 0%Z else Pricer.NSteps p0)
    /\ res_names out = Pricer.parameter_names p0
    /\ st_exact_price st = exact
    /\ (st_decision st = true <-> Rabs (exact - price) < 0.01)
    /\ st_elapsed_time st = now 1%nat - now 0%nat
    /\ In (st_max_price st) values
    /\ In (st_min_price st) values
    /\ Pricer.stock_flunct (Builder.pricer this') = values.
Proof.
  intros od fdm values payoff_function price exact Hextract Hfail Hfuel Hget
         Hstock Hprices Hflag Hn0 Hn2 _ Hfits Hpos _ Hvalues Hpayoffs.
  destruct (GeneralPricer_returns fuel p0 engine_name payoff_name Hn0 Hn2 Hfits)
    as [Hrun Hlen].
  fold od values payoff_function price fdm in Hrun, Hlen.
  rewrite Hstock, Hprices in Hrun. simpl app in Hrun.
  assert (Hne : values <> []).
  { intros Hnil. rewrite Hnil in Hlen. simpl in Hlen. lia. }
  set (steps := if (fdm =? 1)%Z then 0%Z else Pricer.NSteps p0).
  set (mis_out := {| mis_price := price; mis_option_data := od;
                     mis_stock_flunct := values;
                     mis_option_prices := map payoff_function values;
                     mis_names := Pricer.parameter_names p0 |}).
  set (out := {| res_price := price; res_option_data := od; res_NSteps := steps;
                 res_names := Pricer.parameter_names p0;
                 res_upper_cap := Pricer.UpperCap p0;
                 res_lower_cap := Pricer.LowerCap p0 |}).
  set (m0 := MIS.EndStopWatch (now 1%nat) (MIS.StartStopWatch (now 0%nat) (Builder.mis this))).
  destruct (ComputeStatistics_returns mis_out m0) as [m1 Hcs]; try assumption.
  destruct (ComputeStatistics_returned _ _ _ Hcs)
    as (x & rest & Hx & _ & Hmax & Hmin & _ & _ & Helapsed & _).
  cbn [mis_stock_flunct mis_out] in Hx.
  unfold Builder.run. rewrite Hextract.
  destruct fuel as [|fuel']; [lia|].
  cbn [while_loop]. rewrite Hfail.
  cbv beta iota zeta delta [bind initialised].
  change (1 =? 1)%N with true. cbv iota.
  rewrite Hget, Hrun.
  set (q := Pricer.set_m_price price _).
  assert (Hout : exists q' : Pricer.t,
             Pricer.output q = (out, q')
             /\ Pricer.MIS_output q' = mis_out
             /\ Pricer.stock_flunct q' = values).
  { unfold Pricer.output. subst q out steps mis_out.
    destruct (fdm =? 1)%Z;
      cbn [Pricer.explicit_euler Pricer.set_m_price Pricer.set_option_prices
           Pricer.set_stock_flunct Pricer.set_explicit_euler];
      rewrite ?Hflag; eexists; (split; [reflexivity|]); split; reflexivity. }
  destruct Hout as (q' & Hout & Hmis & Hq'). rewrite Hout, Hmis. fold m0.
  rewrite Hcs.
  rewrite (ExactPrice_benchmark mis_out m1 payoff_name) by exact Hn2.
  cbn [mis_option_data mis_out]. fold exact.
  eexists. eexists. eexists. split; [reflexivity|].
  split; [reflexivity|]. split; [reflexivity|]. split; [reflexivity|].
  split; [reflexivity|].
  split; [unfold MIS.DecisionMaking; destruct (Rlt_dec _ _); reflexivity|]. split.
  { cbn [st_decision MIS.getStatistics]. unfold MIS.DecisionMaking.
    cbn [MIS.exact_price MIS.set_exact_price mis_price mis_out].
    destruct (Rlt_dec (Rabs (exact - price)) 0.01) as [Hlt | Hge]; simpl.
    - split; [intros _; exact Hlt | reflexivity].
    - split; [discriminate | intros Hlt; contradiction]. }
  split.
  { cbn [st_elapsed_time MIS.getStatistics]. unfold MIS.DecisionMaking.
    destruct (Rlt_dec _ _); cbn [MIS.elapsed_time MIS.set_decision MIS.set_exact_price];
      rewrite Helapsed; reflexivity. }
  split.
  { cbn [st_max_price MIS.getStatistics]. unfold MIS.DecisionMaking.
    destruct (Rlt_dec _ _); cbn [MIS.max_price MIS.set_decision MIS.set_exact_price];
      rewrite Hmax, Hx; apply (fold_left_largest rest x). }
  split.
  { cbn [st_min_price MIS.getStatistics]. unfold MIS.DecisionMaking.
    destruct (Rlt_dec _ _); cbn [MIS.min_price MIS.set_decision MIS.set_exact_price];
      rewrite Hmin, Hx; apply (fold_left_smallest rest x). }
  exact Hq'.
Qed.

End SinglePricing.

(** The option data typed as 1, 0, 1, 60, 65 and 2 on a scripted input. *)
Lemma setOptionData_volatile_fixture (rest : list entry) (this : Input.t) :
  Input.setOptionData (Hcin := scripted_cin)
    (typed (number 1 :: number 0 :: number 1 :: number 60 :: number 65 :: number 2
            :: rest)) this
  = ({| od_vol := 1; od_r := 0; od_T := 1; od_S := 60; od_K := 65; od_NSIM := 2 |},
     {| Input.vol := 1; Input.r := 0; Input.T := 1; Input.S := 60; Input.K := 65;
        Input.NSIM := 2 |},
     typed rest).
Proof.
  unfold Input.setOptionData.
  do 6 (cbn [extract_double extract_unsigned_long cin_fail scripted_cin script_extract
             typed pending failbit stored Z.of_N orb];
        rewrite ?double_lt_false by lra).
  reflexivity.
Qed.

(** With rate 0, on variates that are all 0, the two Euler steps of a path
    leave the spot where it was, whatever the volatility. *)
Lemma simulated_values_still (p : Pricer.t) (engine_name : string) :
  Pricer.option_data p
  = {| od_vol := 1; od_r := 0; od_T := 1; od_S := 60; od_K := 65; od_NSIM := 2 |} ->
  mp_fdm (Pricer.model_parameters p) = 2%Z ->
  Pricer.NSteps p = 1%Z ->
  simulated_values (H := zero_random) p engine_name = [60; 60].
Proof.
  intros Hod Hfdm Hsteps. unfold simulated_values. rewrite Hod, Hfdm, Hsteps.
  cbn [od_vol od_r od_T od_S od_NSIM Z.eqb Pos.eqb].
  assert (Hstep : forall V : R, scheme_step 2 0 1 (1 / 1) V 0 = V).
  { intros V. unfold scheme_step, Pricer.euler_step, FDM_SDE.drift. simpl.
    rewrite diffusion_linear. lra. }
  simpl. unfold path_value. simpl. rewrite !Hstep. reflexivity.
Qed.

(** One option is asked for; the contract is 1, 0, 1, 60, 65 on 2 paths,
    the default engine, scheme 2, 1 step, and the payoff interface hands over
    a call: both paths end at 60, below the strike, and the price is 0. *)
Lemma run_single_pricing_witness :
  let payoff := fun (cin : script) (caps : R * R) =>
                  Returned (call_payoff, "European Call"%string, caps, cin) in
  let this := {| Builder.pricer :=
                   Pricer.ClearNameParameterVector
                     (fixture_pricer (test_contract 1) 1 "European Put" 0);
                 Builder.bases :=
                   {| Pricer.sde := {| FDM_SDE.fdm_choice := 0; FDM_SDE.fdm_name := "" |};
                      Pricer.rng := {| RNG.m_random := fun _ => 0;
                                       RNG.engine_name := "" |};
                      Pricer.input := {| Input.vol := 0; Input.r := 0; Input.T := 0;
                                         Input.S := 0; Input.K := 0; Input.NSIM := 0 |} |};
                 Builder.mis := fixture_mis;
                 Builder.multi_output_list := [] |} in
  exists (out : PricerResults) (st : Statistics) (this' : Builder.t),
    Builder.run (H := zero_random) (Hcin := scripted_cin) payoff INR 3
      (typed [number 1; number 1; number 0; number 1; number 60; number 65; number 2;
              number 1; number 2; number 1]) this
    = Returned (Builder.Print out st, this', typed [])
    /\ res_price out = 0
    /\ res_NSteps out = 1%Z
    /\ st_elapsed_time st = 1.
Proof.
  intros payoff this.
  set (od := {| od_vol := 1; od_r := 0; od_T := 1; od_S := 60; od_K := 65;
                od_NSIM := 2 |}).
  set (p0 := {| Pricer.model_parameters :=
                  {| mp_rng := RNG.DefaultRandomEngine (H := zero_random);
                     mp_fdm := 2; mp_payoff := call_payoff |};
                Pricer.parameter_names :=
                  ["Default Random Engine"; "Explicit Euler"; "European Call"]%string;
                Pricer.option_data := od;
                Pricer.explicit_euler := false;
                Pricer.stock_flunct := [];
                Pricer.option_prices := [];
                Pricer.m_price := 0;
                Pricer.NSteps := 1;
                Pricer.UpperCap := 0;
                Pricer.LowerCap := 0 |}).
  assert (Hget : exists b : Pricer.bases,
             Pricer.get (H := zero_random) (Hcin := scripted_cin) payoff 3
               (typed [number 1; number 0; number 1; number 60; number 65;
                       number 2; number 1; number 2; number 1])
               (Builder.bases this) (Builder.pricer this)
             = Returned (b, p0, typed [])).
  { unfold Pricer.get. rewrite setOptionData_volatile_fixture.
    eexists. reflexivity. }
  destruct Hget as (b & Hget).
  assert (Hregular : regular_contract (Pricer.option_data p0))
    by (unfold regular_contract; simpl; lra).
  assert (Hfits : run_fits 3 p0).
  { unfold run_fits. simpl. change (Pos.to_nat 1) with 1%nat.
    change (Pos.to_nat 2) with 2%nat.
    split; [right; split; [left; reflexivity | lia] | lia]. }
  assert (Hsteps0 : positive_steps p0) by (right; reflexivity).
  assert (Hflat : simulated_values (H := zero_random) p0 "Default Random Engine"
                  = [60; 60])
    by (apply simulated_values_still; reflexivity).
  assert (Hv0 : Forall int_valued
                  (simulated_values (H := zero_random) p0 "Default Random Engine")).
  { rewrite Hflat.
    repeat (apply Forall_cons; [apply int_valued_bounded; lra|]). apply Forall_nil. }
  assert (Hp0 : Forall int_valued
                  (map (call_payoff 65)
                     (simulated_values (H := zero_random) p0 "Default Random Engine"))).
  { rewrite Hflat. simpl. unfold call_payoff. rewrite Rmax_right by lra.
    repeat (apply Forall_cons; [apply int_valued_bounded; lra|]). apply Forall_nil. }
  destruct (run_single_pricing (H := zero_random) (Hcin := scripted_cin) payoff INR 3
              (typed [number 1; number 1; number 0; number 1; number 60; number 65;
                      number 2; number 1; number 2; number 1])
              (typed [number 1; number 0; number 1; number 60; number 65;
                      number 2; number 1; number 2; number 1])
              (typed []) this b p0 "Default Random Engine" "European Call"
              eq_refl eq_refl ltac:(lia) Hget eq_refl eq_refl eq_refl eq_refl eq_refl
              Hregular Hfits ltac:(simpl; lia) Hsteps0 Hv0 Hp0)
    as (out & st & this' & Hrun & Hprice & _ & Hsteps & _ & _ & _ & Htime & _).
  exists out, st, this'. split; [exact Hrun|]. split; [|split].
  - rewrite Hprice, Hflat. simpl. unfold call_payoff, total.
    rewrite Rmax_right by lra. simpl. lra.
  - rewrite Hsteps. reflexivity.
  - rewrite Htime. simpl. lra.
Defined.
